(** * Smart water pressure management: analytics and anomaly detection

    A shallow embedding of [utils/anomaly_detection.py], of the
    statistics of [utils/analytics.py] and of [main.py]'s recommendation
    builder, with the properties their specification states about them.

    Conventions of the embedding.
    - Numbers are exact rationals ([Q]): the rounding error of float64
      arithmetic is not represented.  The IEEE special values that the
      source can produce by dividing by zero are constructors of their
      own ([xnum], [sigma], [zscore]).
    - [round(x, k)] is round-half-even at [k] decimals, as numpy does it.
    - A standard deviation is the square root of a rational variance; it
      is kept symbolically and compared through squares.
    - A timestamp is a number of seconds since the epoch.
    - A DataFrame of readings is the list of its rows; a DataFrame built
      from a list of dicts carries its column labels, and has none when
      the list is empty. *)

From Stdlib Require Import ZArith QArith Qround Qabs Lia Lqa.
From Stdlib Require Import String Bool List Permutation Sorted.
Import ListNotations.

Open Scope Q_scope.

(** ** Numbers *)

(** [np.rint]: the nearest integer, ties to the even one. *)
Definition rint (x : Q) : Z :=
  let f := Qfloor x in
  match Qcompare (x - inject_Z f) (1 # 2) with
  | Lt => f
  | Gt => (f + 1)%Z
  | Eq => if Z.even f then f else (f + 1)%Z
  end.

Definition pow10 (k : nat) : Q := inject_Z (10 ^ Z.of_nat k).

(** [round(x, k)] on a float64. *)
Definition round (x : Q) (k : nat) : Q := inject_Z (rint (x * pow10 k)) / pow10 k.

(** A float64 result that may be one of the IEEE special values. *)
Inductive xnum : Type :=
| Fin (q : Q)
| PosInf
| NegInf
| NaN.

(** float64 division, with numpy's result on a zero divisor. *)
Definition xdiv (a b : Q) : xnum :=
  if Qeq_bool b 0 then
    match Qcompare a 0 with
    | Gt => PosInf
    | Lt => NegInf
    | Eq => NaN
    end
  else Fin (a / b).

Definition xmul (a : xnum) (b : Q) : xnum :=
  match a with
  | Fin q => Fin (q * b)
  | PosInf => match Qcompare b 0 with Gt => PosInf | Lt => NegInf | Eq => NaN end
  | NegInf => match Qcompare b 0 with Gt => NegInf | Lt => PosInf | Eq => NaN end
  | NaN => NaN
  end.

Definition xround (a : xnum) (k : nat) : xnum :=
  match a with
  | Fin q => Fin (round q k)
  | other => other
  end.

Definition is_nan (a : xnum) : bool :=
  match a with NaN => true | _ => false end.

Fixpoint Qsum (l : list Q) : Q :=
  match l with
  | [] => 0
  | x :: r => x + Qsum r
  end.

Definition Qlen (l : list Q) : Q := inject_Z (Z.of_nat (length l)).

(** [Series.mean] of a column that is not empty (every group the source
    averages is not empty: it is selected by a key taken from the data, or
    its length is checked first). *)
Definition mean (l : list Q) : Q := Qsum l / Qlen l.

(** Sum of the squared deviations from [m]. *)
Definition sq_dev (m : Q) (l : list Q) : Q := Qsum (map (fun x => (x - m) * (x - m)) l).

(** [Series.std] (sample standard deviation, ddof = 1): not a number on
    fewer than two values, otherwise the square root of [var]. *)
Inductive sigma : Type :=
| SigmaNaN
| SigmaRoot (var : Q).

Definition std (l : list Q) : sigma :=
  if (length l <=? 1)%nat then SigmaNaN
  else SigmaRoot (sq_dev (mean l) l / (Qlen l - 1)).

(** [std == 0]. *)
Definition sigma_is_zero (s : sigma) : bool :=
  match s with
  | SigmaNaN => false
  | SigmaRoot v => Qeq_bool v 0
  end.

(** A non-negative score: not a number, infinite, or the square root of
    [sq]. *)
Inductive zscore : Type :=
| ZNaN
| ZInf
| ZRoot (sq : Q).

(** [np.abs((value - mean) / std)]. *)
Definition abs_z (value m : Q) (s : sigma) : zscore :=
  match s with
  | SigmaNaN => ZNaN
  | SigmaRoot v =>
      if Qeq_bool v 0 then
        if Qeq_bool (value - m) 0 then ZNaN else ZInf
      else ZRoot ((value - m) * (value - m) / v)
  end.

(** [z > t].  A comparison with not-a-number is false. *)
Definition zscore_gtb (z : zscore) (t : Q) : bool :=
  match z with
  | ZNaN => false
  | ZInf => true
  | ZRoot sq =>
      match Qcompare t 0 with
      | Lt => true
      | _ => match Qcompare (t * t) sq with Lt => true | _ => false end
      end
  end.

(** [round(z, k)]: the multiple of [10^-k] nearest to the root. *)
Definition round_root (sq : Q) (k : nat) : Q :=
  let x := sq * (pow10 k * pow10 k) in
  let r0 := Z.sqrt (Qfloor x) in
  let h := (inject_Z r0 + (1 # 2)) * (inject_Z r0 + (1 # 2)) in
  let r := match Qcompare x h with
           | Lt => r0
           | Gt => (r0 + 1)%Z
           | Eq => if Z.even r0 then r0 else (r0 + 1)%Z
           end in
  inject_Z r / pow10 k.

Definition zround (z : zscore) (k : nat) : xnum :=
  match z with
  | ZNaN => NaN
  | ZInf => PosInf
  | ZRoot sq => Fin (round_root sq k)
  end.

(** ** Time *)

(** [timestamp.dt.hour]. *)
Definition hour_of (t : Z) : Z := ((t / 3600) mod 24)%Z.

(** [timedelta(days=d)] in seconds. *)
Definition days (d : Z) : Z := (d * 86400)%Z.

(** ** Enumerations of the records *)

Inductive severity : Type := critical | high | moderate | low.
Inductive confidence : Type := conf_high | conf_medium.
Inductive anomaly_type : Type :=
| pressure_drop | pressure_spike | excessive_flow | low_flow.
Inductive cause : Type :=
| potential_leak_night   (* 'Potential leak (high night flow)' *)
| unusual_high_demand    (* 'Unusual high demand or unauthorized usage' *)
| supply_interruption.   (* 'Supply interruption or valve issue' *)
Inductive action : Type :=
| immediate_inspection   (* 'Immediate inspection required' *)
| schedule_inspection    (* 'Schedule inspection' *)
| emergency_response.    (* 'Emergency response required' *)

Definition severity_eqb (a b : severity) : bool :=
  match a, b with
  | critical, critical | high, high | moderate, moderate | low, low => true
  | _, _ => false
  end.

(** ** Readings *)

Module PressureReading.
Record t : Type := mk {
  timestamp : Z;
  zone_id : string;
  zone_name : string;
  sensor_id : string;
  pressure_psi : Q;
  elevation : Q;
  status : string
}.
End PressureReading.

Module FlowReading.
Record t : Type := mk {
  timestamp : Z;
  zone_id : string;
  zone_name : string;
  flow_rate_lpm : Q;
  population : Z
}.
End FlowReading.

(** [Series.unique]: the distinct values in order of first appearance. *)
Fixpoint unique (l : list string) : list string :=
  match l with
  | [] => []
  | x :: r => x :: filter (fun y => negb (String.eqb y x)) (unique r)
  end.

(** ** DataFrames built from a list of dicts *)

Record Frame (R : Type) : Type := mkFrame {
  columns : list string;
  records : list R
}.
Arguments mkFrame {R} _ _.
Arguments columns {R} _.
Arguments records {R} _.

(** [pd.DataFrame(dicts)]: the column labels are the keys of the dicts; an
    empty list gives a frame without any column. *)
Definition pd_DataFrame {R : Type} (keys : list string) (dicts : list R) : Frame R :=
  match dicts with
  | [] => mkFrame [] []
  | _ => mkFrame keys dicts
  end.

(** [len(df)]. *)
Definition len {R : Type} (df : Frame R) : nat := length (records df).

(** The outcome of code that may raise. *)
Inductive result (A : Type) : Type :=
| Ok (a : A)
| KeyError (key : string).
Arguments Ok {A} _.
Arguments KeyError {A} _.

(** [df[key]] for a column read by [proj]: a KeyError when the frame has no
    such label. *)
Definition getitem {R V : Type} (df : Frame R) (key : string) (proj : R -> V)
  : result (list V) :=
  if existsb (String.eqb key) (columns df) then Ok (map proj (records df))
  else KeyError key.

(** ** Records emitted by the detectors *)

Module PressureAnomaly.
Record t : Type := mk {
  timestamp : Z;
  zone_id : string;
  zone_name : string;
  sensor_id : string;
  pressure_psi : Q;
  expected_pressure : Q;
  deviation : Q;
  z_score : xnum;
  anomaly_type : anomaly_type;
  severity : severity
}.
Definition keys : list string :=
  ["timestamp"; "zone_id"; "zone_name"; "sensor_id"; "pressure_psi";
   "expected_pressure"; "deviation"; "z_score"; "anomaly_type"; "severity"]%string.
End PressureAnomaly.

Module FlowAnomaly.
Record t : Type := mk {
  timestamp : Z;
  zone_id : string;
  zone_name : string;
  flow_rate_lpm : Q;
  expected_flow : Q;
  deviation : Q;
  z_score : xnum;
  anomaly_type : anomaly_type;
  severity : severity;
  potential_cause : cause
}.
Definition keys : list string :=
  ["timestamp"; "zone_id"; "zone_name"; "flow_rate_lpm"; "expected_flow";
   "deviation"; "z_score"; "anomaly_type"; "severity"; "potential_cause"]%string.
End FlowAnomaly.

Module Leak.
Record t : Type := mk {
  zone_id : string;
  zone_name : string;
  avg_night_flow_lpm : Q;
  estimated_daily_loss_liters : Q;
  estimated_monthly_loss_liters : Q;
  severity : severity;
  confidence : confidence;
  recommended_action : action
}.
Definition keys : list string :=
  ["zone_id"; "zone_name"; "avg_night_flow_lpm"; "estimated_daily_loss_liters";
   "estimated_monthly_loss_liters"; "severity"; "confidence";
   "recommended_action"]%string.
End Leak.

Module Burst.
Record t : Type := mk {
  timestamp : Z;
  zone_id : string;
  zone_name : string;
  sensor_id : string;
  pressure_before : Q;
  pressure_after : Q;
  pressure_drop : Q;
  severity : severity;
  recommended_action : action
}.
(** ['event_type'] is the constant ['potential_burst']. *)
Definition keys : list string :=
  ["timestamp"; "zone_id"; "zone_name"; "sensor_id"; "pressure_before";
   "pressure_after"; "pressure_drop"; "severity"; "event_type";
   "recommended_action"]%string.
End Burst.

(** ** The detector and its two reading collections *)

(** [flow_df]: the rows read from the CSV file and the derived ['hour']
    column, which the file does not have and which the detectors assign. *)
Record FlowFrame : Type := mkFlowFrame {
  flow_rows : list FlowReading.t;
  hour_column : option (list Z)
}.

Record AnomalyDetector : Type := mkDetector {
  pressure_df : list PressureReading.t;
  flow_df : FlowFrame
}.

(** [self.flow_df['hour'] = self.flow_df['timestamp'].dt.hour] *)
Definition assign_hour (self : AnomalyDetector) : AnomalyDetector :=
  mkDetector (pressure_df self)
    (mkFlowFrame (flow_rows (flow_df self))
       (Some (map (fun r => hour_of (FlowReading.timestamp r)) (flow_rows (flow_df self))))).

(** The rows of [flow_df] with their ['hour'] cell.  Every reader assigns
    the column first, so the frame without the column is never read. *)
Definition hour_rows (df : FlowFrame) : list (FlowReading.t * Z) :=
  match hour_column df with
  | Some hs => combine (flow_rows df) hs
  | None => []
  end.

Definition Qltb (a b : Q) : bool :=
  match Qcompare a b with Lt => true | _ => false end.

Definition _classify_severity (z : zscore) : severity :=
  if zscore_gtb z 4 then critical
  else if zscore_gtb z 3 then high
  else if zscore_gtb z 2.5 then moderate
  else low.

Definition _identify_cause (actual_flow expected_flow : Q) (hour : Z) : cause :=
  if Qltb (expected_flow * 1.5) actual_flow then
    if ((0 <=? hour) && (hour <=? 5))%Z then potential_leak_night
    else unusual_high_demand
  else supply_interruption.

(** *** Pressure outliers *)

(** One turn of the loop over the zones. *)
Definition zone_pressure_anomalies (threshold_std : Q)
    (df : list PressureReading.t) (zone_id : string) : list PressureAnomaly.t :=
  let zone_data := filter (fun r => String.eqb (PressureReading.zone_id r) zone_id) df in
  let mean_pressure := mean (map PressureReading.pressure_psi zone_data) in
  let std_pressure := std (map PressureReading.pressure_psi zone_data) in
  let scored :=
    map (fun r => (r, abs_z (PressureReading.pressure_psi r) mean_pressure std_pressure))
        zone_data in
  let zone_anomalies := filter (fun rz => zscore_gtb (snd rz) threshold_std) scored in
  map (fun rz =>
         let row := fst rz in
         let z := snd rz in
         PressureAnomaly.mk
           (PressureReading.timestamp row)
           (PressureReading.zone_id row)
           (PressureReading.zone_name row)
           (PressureReading.sensor_id row)
           (PressureReading.pressure_psi row)
           (round mean_pressure 2)
           (round (PressureReading.pressure_psi row - mean_pressure) 2)
           (zround z 2)
           (if Qltb (PressureReading.pressure_psi row) mean_pressure
            then pressure_drop else pressure_spike)
           (_classify_severity z))
      zone_anomalies.

Definition detect_pressure_anomalies (self : AnomalyDetector) (threshold_std : Q)
  : Frame PressureAnomaly.t * AnomalyDetector :=
  let anomalies :=
    flat_map (zone_pressure_anomalies threshold_std (pressure_df self))
             (unique (map PressureReading.zone_id (pressure_df self))) in
  (pd_DataFrame PressureAnomaly.keys anomalies, self).

(** *** Flow outliers *)

(** One turn of the inner loop: the bucket of one zone at one hour. *)
Definition bucket_flow_anomalies (threshold_std : Q)
    (zone_data : list (FlowReading.t * Z)) (hour : Z) : list FlowAnomaly.t :=
  let hour_data := filter (fun rh => (snd rh =? hour)%Z) zone_data in
  if (List.length hour_data <? 5)%nat then []
  else
    let mean_flow := mean (map (fun rh => FlowReading.flow_rate_lpm (fst rh)) hour_data) in
    let std_flow := std (map (fun rh => FlowReading.flow_rate_lpm (fst rh)) hour_data) in
    if sigma_is_zero std_flow then []
    else
      let scored :=
        map (fun rh => (rh, abs_z (FlowReading.flow_rate_lpm (fst rh)) mean_flow std_flow))
            hour_data in
      let hour_anomalies := filter (fun rz => zscore_gtb (snd rz) threshold_std) scored in
      map (fun rz =>
             let row := fst (fst rz) in
             let row_hour := snd (fst rz) in
             let z := snd rz in
             FlowAnomaly.mk
               (FlowReading.timestamp row)
               (FlowReading.zone_id row)
               (FlowReading.zone_name row)
               (FlowReading.flow_rate_lpm row)
               (round mean_flow 2)
               (round (FlowReading.flow_rate_lpm row - mean_flow) 2)
               (zround z 2)
               (if Qltb mean_flow (FlowReading.flow_rate_lpm row)
                then excessive_flow else low_flow)
               (_classify_severity z)
               (_identify_cause (FlowReading.flow_rate_lpm row) mean_flow row_hour))
          hour_anomalies.

(** [range(24)] *)
Definition range24 : list Z := map Z.of_nat (seq 0 24).

Definition zone_flow_anomalies (threshold_std : Q)
    (df : list (FlowReading.t * Z)) (zone_id : string) : list FlowAnomaly.t :=
  let zone_data := filter (fun rh => String.eqb (FlowReading.zone_id (fst rh)) zone_id) df in
  flat_map (bucket_flow_anomalies threshold_std zone_data) range24.

Definition detect_flow_anomalies (self : AnomalyDetector) (threshold_std : Q)
  : Frame FlowAnomaly.t * AnomalyDetector :=
  let self' := assign_hour self in
  let df := hour_rows (flow_df self') in
  let anomalies :=
    flat_map (zone_flow_anomalies threshold_std df)
             (unique (map (fun rh => FlowReading.zone_id (fst rh)) df)) in
  (pd_DataFrame FlowAnomaly.keys anomalies, self').

(** *** Leaks *)

(** One turn of the loop over the zones of the night rows. *)
Definition zone_leak (night_flow_threshold : Q)
    (night_data : list (FlowReading.t * Z)) (zone_id : string) : list Leak.t :=
  let zone_night :=
    filter (fun rh => String.eqb (FlowReading.zone_id (fst rh)) zone_id) night_data in
  let avg_night_flow := mean (map (fun rh => FlowReading.flow_rate_lpm (fst rh)) zone_night) in
  match zone_night with
  | [] => []
  | first :: _ =>
      if Qltb night_flow_threshold avg_night_flow then
        let zone_name := FlowReading.zone_name (fst first) in
        let daily_loss := avg_night_flow * 60 * 24 in
        [Leak.mk zone_id zone_name
           (round avg_night_flow 2)
           (round daily_loss 0)
           (round (daily_loss * 30) 0)
           (if Qltb 500 avg_night_flow then high else moderate)
           (if Qltb 400 avg_night_flow then conf_high else conf_medium)
           (if Qltb 500 avg_night_flow then immediate_inspection else schedule_inspection)]
      else []
  end.

(** [(hour >= 0) & (hour <= 5)] *)
Definition is_night (hour : Z) : bool := ((0 <=? hour) && (hour <=? 5))%Z.

Definition detect_leaks (self : AnomalyDetector) (night_flow_threshold : Q)
  : Frame Leak.t * AnomalyDetector :=
  let self' := assign_hour self in
  let night_data := filter (fun rh => is_night (snd rh)) (hour_rows (flow_df self')) in
  let leaks :=
    flat_map (zone_leak night_flow_threshold night_data)
             (unique (map (fun rh => FlowReading.zone_id (fst rh)) night_data)) in
  (pd_DataFrame Leak.keys leaks, self').

(** *** Bursts *)

(** [sort_values('timestamp')].  The sort sees the timestamps only, so
    which of two rows with equal timestamps comes first is decided by their
    positions in the frame: here they keep their order, as they do in
    numpy's sort on short columns. *)
Fixpoint insert_by_timestamp (r : PressureReading.t) (l : list PressureReading.t)
  : list PressureReading.t :=
  match l with
  | [] => [r]
  | x :: t =>
      if (PressureReading.timestamp r <=? PressureReading.timestamp x)%Z
      then r :: l
      else x :: insert_by_timestamp r t
  end.

Definition sort_values_timestamp (l : list PressureReading.t) : list PressureReading.t :=
  fold_right insert_by_timestamp [] l.

(** [Series.diff()]: each value minus the one before it; the first row has
    no predecessor and gets not-a-number, here [None]. *)
Fixpoint diff_from (prev : option Q) (l : list Q) : list (option Q) :=
  match l with
  | [] => []
  | x :: r =>
      match prev with
      | None => None
      | Some p => Some (x - p)
      end :: diff_from (Some x) r
  end.

Definition diff (l : list Q) : list (option Q) := diff_from None l.

(** [pressure_change < -pressure_drop_threshold]; false on not-a-number. *)
Definition is_sudden_drop (pressure_drop_threshold : Q) (change : option Q) : bool :=
  match change with
  | None => false
  | Some c => Qltb c (- pressure_drop_threshold)
  end.

(** The dict appended for one row of [sudden_drops]. *)
Definition burst_record (row : PressureReading.t) (pressure_change : Q) : Burst.t :=
  Burst.mk
    (PressureReading.timestamp row)
    (PressureReading.zone_id row)
    (PressureReading.zone_name row)
    (PressureReading.sensor_id row)
    (round (PressureReading.pressure_psi row - pressure_change) 2)
    (round (PressureReading.pressure_psi row) 2)
    (round (Qabs pressure_change) 2)
    (if Qltb 25 (Qabs pressure_change) then critical else high)
    emergency_response.

(** One turn of the loop over the sensors. *)
Definition sensor_bursts (pressure_drop_threshold : Q)
    (df : list PressureReading.t) (sensor_id : string) : list Burst.t :=
  let sensor_data :=
    sort_values_timestamp
      (filter (fun r => String.eqb (PressureReading.sensor_id r) sensor_id) df) in
  let pressure_change := diff (map PressureReading.pressure_psi sensor_data) in
  let sudden_drops :=
    filter (fun rc => is_sudden_drop pressure_drop_threshold (snd rc))
           (combine sensor_data pressure_change) in
  flat_map (fun rc =>
              match snd rc with
              | Some c => [burst_record (fst rc) c]
              | None => []
              end)
           sudden_drops.

Definition detect_burst_events (self : AnomalyDetector) (pressure_drop_threshold : Q)
  : Frame Burst.t * AnomalyDetector :=
  let bursts :=
    flat_map (sensor_bursts pressure_drop_threshold (pressure_df self))
             (unique (map PressureReading.sensor_id (pressure_df self))) in
  (pd_DataFrame Burst.keys bursts, self).

(** *** Summary *)

Record Summary : Type := mkSummary {
  total_pressure_anomalies : nat;
  total_flow_anomalies : nat;
  potential_leaks : nat;
  potential_bursts : nat;
  critical_events : nat
}.

(** [len(df[df['severity'] == 'critical'])] *)
Definition len_critical {R : Type} (df : Frame R) (sev : R -> severity) : result nat :=
  match getitem df "severity" sev with
  | Ok col => Ok (List.length (filter (severity_eqb critical) col))
  | KeyError k => KeyError k
  end.

Definition Detections : Type :=
  (Summary * Frame PressureAnomaly.t * Frame FlowAnomaly.t * Frame Leak.t * Frame Burst.t)%type.

(** The detectors run with their default thresholds, each on the detector
    as the one before left it. *)
Definition get_anomaly_summary (self : AnomalyDetector)
  : result Detections * AnomalyDetector :=
  let '(pressure_anomalies, self1) := detect_pressure_anomalies self 2.5 in
  let '(flow_anomalies, self2) := detect_flow_anomalies self1 2 in
  let '(leaks, self3) := detect_leaks self2 300 in
  let '(bursts, self4) := detect_burst_events self3 15 in
  (match len_critical pressure_anomalies PressureAnomaly.severity with
   | KeyError k => KeyError k
   | Ok critical_pressure =>
       match len_critical bursts Burst.severity with
       | KeyError k => KeyError k
       | Ok critical_bursts =>
           Ok (mkSummary (len pressure_anomalies) (len flow_anomalies)
                         (len leaks) (len bursts)
                         (critical_pressure + critical_bursts),
               pressure_anomalies, flow_anomalies, leaks, bursts)
       end
   end, self4).

(** ** Analytics *)

Record WaterAnalytics : Type := mkAnalytics {
  a_pressure_df : list PressureReading.t;
  a_flow_df : list FlowReading.t
}.

Fixpoint insert_key (k : string) (l : list string) : list string :=
  match l with
  | [] => [k]
  | x :: t => if String.leb k x then k :: l else x :: insert_key k t
  end.

(** The group labels of [groupby(column)]: the distinct values, sorted. *)
Definition group_keys (column : list string) : list string :=
  fold_right insert_key [] (unique column).

Module LowPressure.
Record t : Type := mk {
  zone_name : string;
  low_pressure_count : nat;
  avg_low_pressure : Q;
  zone_id : string
}.
End LowPressure.

(** [sort_values('low_pressure_count', ascending=False)].  Rows with equal
    counts keep the order of the groups (pandas fixes their order by their
    positions, without promising which). *)
Fixpoint insert_by_count (r : LowPressure.t) (l : list LowPressure.t) : list LowPressure.t :=
  match l with
  | [] => [r]
  | x :: t =>
      if (LowPressure.low_pressure_count x <=? LowPressure.low_pressure_count r)%nat
      then r :: l
      else x :: insert_by_count r t
  end.

(** One group of [low_pressure.groupby('zone_name')], aggregated. *)
Definition low_pressure_group (low_pressure : list PressureReading.t) (name : string)
  : list LowPressure.t :=
  match filter (fun r => String.eqb (PressureReading.zone_name r) name) low_pressure with
  | [] => []
  | first :: rest =>
      let values := map PressureReading.pressure_psi (first :: rest) in
      [LowPressure.mk name (List.length values) (round (mean values) 2)
                      (PressureReading.zone_id first)]
  end.

(** [now] is the value of [datetime.now()] that the call reads. *)
Definition get_low_pressure_zones (self : WaterAnalytics) (now : Z) (threshold : Q)
  : list LowPressure.t :=
  let recent_data :=
    filter (fun r => (now - days 7 <=? PressureReading.timestamp r)%Z) (a_pressure_df self) in
  let low_pressure :=
    filter (fun r => Qltb (PressureReading.pressure_psi r) threshold) recent_data in
  let summary :=
    flat_map (low_pressure_group low_pressure)
             (group_keys (map PressureReading.zone_name low_pressure)) in
  fold_right insert_by_count [] summary.

Definition qmin (a b : Q) : Q := if Qle_bool a b then a else b.
Definition qmax (a b : Q) : Q := if Qle_bool a b then b else a.

Module FlowStats.
Record t : Type := mk {
  zone_name : string;
  avg_flow : Q;
  min_flow : Q;
  max_flow : Q;
  total_flow : Q;
  population : Z;
  per_capita_flow : xnum
}.
End FlowStats.

(** One group of [flow_df.groupby('zone_name')], aggregated and rounded,
    with its per-capita column. *)
Definition flow_stats_group (df : list FlowReading.t) (name : string) : list FlowStats.t :=
  match filter (fun r => String.eqb (FlowReading.zone_name r) name) df with
  | [] => []
  | first :: rest =>
      let values := map FlowReading.flow_rate_lpm (first :: rest) in
      let rest_values := map FlowReading.flow_rate_lpm rest in
      let avg_flow := round (mean values) 2 in
      let population := FlowReading.population first in
      [FlowStats.mk name avg_flow
         (round (fold_left qmin rest_values (FlowReading.flow_rate_lpm first)) 2)
         (round (fold_left qmax rest_values (FlowReading.flow_rate_lpm first)) 2)
         (round (Qsum values) 2)
         population
         (xround (xmul (xdiv avg_flow (inject_Z population)) 1000) 4)]
  end.

Definition get_flow_statistics (self : WaterAnalytics) : list FlowStats.t :=
  flat_map (flow_stats_group (a_flow_df self))
           (group_keys (map FlowReading.zone_name (a_flow_df self))).

(** ** Recommendations *)

Inductive issue : Type :=
| frequent_low_pressure   (* 'Frequent low pressure' *)
| potential_water_leak    (* 'Potential water leak' *)
| potential_pipe_burst.   (* 'Potential pipe burst' *)

Inductive advice : Type :=
| install_booster_pumps   (* 'Install booster pumps or check for leaks' *)
| advised (a : action).   (* the record's recommended action *)

(** The number that the formatted ['impact'] text carries. *)
Inductive impact : Type :=
| low_pressure_events (count : nat)
| estimated_loss (liters_per_day : Q)
| pressure_drop_psi (drop : Q).

Module Recommendation.
Record t : Type := mk {
  priority : severity;
  zone : string;
  issue : issue;
  recommendation : advice;
  impact : impact
}.
Definition keys : list string :=
  ["priority"; "zone"; "issue"; "recommendation"; "impact"]%string.
End Recommendation.

Record SmartWaterManagementSystem : Type := mkSystem {
  analytics : WaterAnalytics;
  anomaly_detector : AnomalyDetector
}.

(** [pd.DataFrame(recommendations) if recommendations else pd.DataFrame()]:
    both branches are [pd_DataFrame], which has no column on an empty list. *)
Definition get_recommendations (self : SmartWaterManagementSystem) (now : Z)
  : Frame Recommendation.t * SmartWaterManagementSystem :=
  let low_pressure := get_low_pressure_zones (analytics self) now 35 in
  let from_low_pressure :=
    flat_map (fun zone =>
                if (50 <? LowPressure.low_pressure_count zone)%nat then
                  [Recommendation.mk high (LowPressure.zone_name zone)
                     frequent_low_pressure install_booster_pumps
                     (low_pressure_events (LowPressure.low_pressure_count zone))]
                else [])
             low_pressure in
  let '(leaks, detector1) := detect_leaks (anomaly_detector self) 300 in
  let from_leaks :=
    map (fun leak =>
           Recommendation.mk (Leak.severity leak) (Leak.zone_name leak)
             potential_water_leak (advised (Leak.recommended_action leak))
             (estimated_loss (Leak.estimated_daily_loss_liters leak)))
        (records leaks) in
  let '(bursts, detector2) := detect_burst_events detector1 15 in
  let from_bursts :=
    map (fun burst =>
           Recommendation.mk critical (Burst.zone_name burst)
             potential_pipe_burst (advised (Burst.recommended_action burst))
             (pressure_drop_psi (Burst.pressure_drop burst)))
        (records bursts) in
  (pd_DataFrame Recommendation.keys (from_low_pressure ++ from_leaks ++ from_bursts),
   mkSystem (analytics self) detector2).

(** ** Quantities the properties speak of *)

(** The pressure values of one zone, over the whole history. *)
Definition zone_pressures (df : list PressureReading.t) (zone_id : string) : list Q :=
  map PressureReading.pressure_psi
      (filter (fun r => String.eqb (PressureReading.zone_id r) zone_id) df).

(** The record that [detect_pressure_anomalies] builds for [row], on the
    statistics [m] and [s] of its zone. *)
Definition pressure_anomaly_of (m : Q) (s : sigma) (row : PressureReading.t)
  : PressureAnomaly.t :=
  PressureAnomaly.mk
    (PressureReading.timestamp row)
    (PressureReading.zone_id row)
    (PressureReading.zone_name row)
    (PressureReading.sensor_id row)
    (PressureReading.pressure_psi row)
    (round m 2)
    (round (PressureReading.pressure_psi row - m) 2)
    (zround (abs_z (PressureReading.pressure_psi row) m s) 2)
    (if Qltb (PressureReading.pressure_psi row) m then pressure_drop else pressure_spike)
    (_classify_severity (abs_z (PressureReading.pressure_psi row) m s)).

(** The flow values of one (zone, hour-of-day) bucket. *)
Definition flow_bucket (rows : list FlowReading.t) (zone_id : string) (hour : Z) : list Q :=
  map FlowReading.flow_rate_lpm
      (filter (fun r => String.eqb (FlowReading.zone_id r) zone_id
                        && (hour_of (FlowReading.timestamp r) =? hour)%Z)
              rows).

(** The flow rows of the night hours. *)
Definition night_rows (rows : list FlowReading.t) : list FlowReading.t :=
  filter (fun r => is_night (hour_of (FlowReading.timestamp r))) rows.

(** The night flow values of one zone. *)
Definition night_flows (rows : list FlowReading.t) (zone_id : string) : list Q :=
  map FlowReading.flow_rate_lpm
      (filter (fun r => String.eqb (FlowReading.zone_id r) zone_id) (night_rows rows)).

(** The record that [detect_leaks] builds for a zone whose mean night flow
    is [m]. *)
Definition leak_of (zone_id zone_name : string) (m : Q) : Leak.t :=
  Leak.mk zone_id zone_name
    (round m 2)
    (round (m * 60 * 24) 0)
    (round (m * 60 * 24 * 30) 0)
    (if Qltb 500 m then high else moderate)
    (if Qltb 400 m then conf_high else conf_medium)
    (if Qltb 500 m then immediate_inspection else schedule_inspection).

(** The readings of one sensor, in the order burst detection scans them. *)
Definition sensor_rows (df : list PressureReading.t) (sensor_id : string)
  : list PressureReading.t :=
  sort_values_timestamp
    (filter (fun r => String.eqb (PressureReading.sensor_id r) sensor_id) df).

(** The pairs of neighbours of a list: each element with its successor. *)
Definition consecutive {A : Type} (l : list A) : list (A * A) := combine l (tl l).

(** The change of pressure over a pair (before, current). *)
Definition pressure_delta (pc : PressureReading.t * PressureReading.t) : Q :=
  PressureReading.pressure_psi (snd pc) - PressureReading.pressure_psi (fst pc).

Definition is_sudden_drop_pair (pressure_drop_threshold : Q)
    (pc : PressureReading.t * PressureReading.t) : bool :=
  Qltb (pressure_delta pc) (- pressure_drop_threshold).

Definition burst_of_pair (pc : PressureReading.t * PressureReading.t) : Burst.t :=
  burst_record (snd pc) (pressure_delta pc).

Definition timestamp_le (a b : PressureReading.t) : Prop :=
  (PressureReading.timestamp a <= PressureReading.timestamp b)%Z.

(** The flow values of the zone named [zone_name]. *)
Definition zone_flows (df : list FlowReading.t) (zone_name : string) : list Q :=
  map FlowReading.flow_rate_lpm
      (filter (fun r => String.eqb (FlowReading.zone_name r) zone_name) df).

(** ** Sample data *)

Definition sample_pressure (t : Z) (sensor : string) (p : Q) : PressureReading.t :=
  PressureReading.mk t "Z1" "North" sensor p 100 "normal".

Definition no_flow : FlowFrame := mkFlowFrame [] None.

(** Eight readings of 50 PSI, a quarter of an hour apart, and then one of
    10.004 PSI. *)
Definition one_outlier : AnomalyDetector :=
  mkDetector
    (map (fun i => sample_pressure (Z.of_nat i * 900) "Z1_S01" 50) (seq 0 8)
     ++ [sample_pressure 7200 "Z1_S01" 10.004])
    no_flow.

(** Three readings of 50 PSI in one zone. *)
Definition constant_zone : AnomalyDetector :=
  mkDetector
    [sample_pressure 0 "Z1_S01" 50; sample_pressure 900 "Z1_S01" 50;
     sample_pressure 1800 "Z1_S01" 50]
    no_flow.

(** A flow row of zone Z1 (population 1000) at time [t]. *)
Definition sample_flow (t : Z) (f : Q) : FlowReading.t :=
  FlowReading.mk t "Z1" "North" f 1000.

(** Nine days of readings at 03:00: eight of 100 l/min, then one of 500. *)
Definition flow_outlier : AnomalyDetector :=
  mkDetector []
    (mkFlowFrame
       (map (fun i => sample_flow (Z.of_nat i * 86400 + 10800) 100) (seq 0 8)
        ++ [sample_flow (8 * 86400 + 10800) 500])
       None).

(** One reading of 400.0001 l/min at 00:00. *)
Definition night_leak : AnomalyDetector :=
  mkDetector [] (mkFlowFrame [sample_flow 0 400.0001] None).

(** Night readings of 350 l/min and day readings of 50 l/min. *)
Definition night_350_day_50 : AnomalyDetector :=
  mkDetector []
    (mkFlowFrame
       [sample_flow 3600 340; sample_flow 7200 360;
        sample_flow 43200 40; sample_flow 46800 60]
       None).

(** Elevated flow at 12:00 only. *)
Definition noon_only : AnomalyDetector :=
  mkDetector [] (mkFlowFrame [sample_flow 43200 900; sample_flow 129600 900] None).

(** One sensor reading 60, 60 and 35 PSI, a quarter of an hour apart. *)
Definition readings_60_60_35 : AnomalyDetector :=
  mkDetector
    [sample_pressure 0 "Z1_S01" 60; sample_pressure 900 "Z1_S01" 60;
     sample_pressure 1800 "Z1_S01" 35]
    no_flow.

(** One sensor reading 60.004 and then 35 PSI. *)
Definition drop_of_25_004 : AnomalyDetector :=
  mkDetector [sample_pressure 0 "Z1_S01" 60.004; sample_pressure 900 "Z1_S01" 35] no_flow.

(** One sensor with two readings at the same instant (900 s), in the two
    orders. *)
Definition tied_timestamps_a : list PressureReading.t :=
  [sample_pressure 0 "Z1_S01" 50; sample_pressure 900 "Z1_S01" 60;
   sample_pressure 900 "Z1_S01" 35].

Definition tied_timestamps_b : list PressureReading.t :=
  [sample_pressure 0 "Z1_S01" 50; sample_pressure 900 "Z1_S01" 35;
   sample_pressure 900 "Z1_S01" 60].

(** The readings of [readings_60_60_35], latest first. *)
Definition readings_35_60_60 : list PressureReading.t :=
  [sample_pressure 1800 "Z1_S01" 35; sample_pressure 900 "Z1_S01" 60;
   sample_pressure 0 "Z1_S01" 60].

(** Constant pressure readings, and flow readings with a night leak. *)
Definition constant_pressure : AnomalyDetector :=
  mkDetector (pressure_df constant_zone) (flow_df night_350_day_50).



(** ** The core operations and the wall clock *)

(** The operations of the core with their arguments. *)
Inductive operation : Type :=
| op_detect_pressure_anomalies (threshold_std : Q)
| op_detect_flow_anomalies (threshold_std : Q)
| op_detect_leaks (night_flow_threshold : Q)
| op_detect_burst_events (pressure_drop_threshold : Q)
| op_get_anomaly_summary
| op_get_flow_statistics
| op_get_low_pressure_zones (threshold : Q)
| op_get_recommendations.

Inductive outcome : Type :=
| pressure_anomalies_are (df : Frame PressureAnomaly.t)
| flow_anomalies_are (df : Frame FlowAnomaly.t)
| leaks_are (df : Frame Leak.t)
| bursts_are (df : Frame Burst.t)
| summary_is (r : result Detections)
| flow_statistics_are (rows : list FlowStats.t)
| low_pressure_zones_are (rows : list LowPressure.t)
| recommendations_are (df : Frame Recommendation.t).

(** One run of an operation on a snapshot of the system, started when the
    wall clock shows [now]. *)
Definition run (op : operation) (system : SmartWaterManagementSystem) (now : Z) : outcome :=
  match op with
  | op_detect_pressure_anomalies t =>
      pressure_anomalies_are (fst (detect_pressure_anomalies (anomaly_detector system) t))
  | op_detect_flow_anomalies t =>
      flow_anomalies_are (fst (detect_flow_anomalies (anomaly_detector system) t))
  | op_detect_leaks t => leaks_are (fst (detect_leaks (anomaly_detector system) t))
  | op_detect_burst_events t =>
      bursts_are (fst (detect_burst_events (anomaly_detector system) t))
  | op_get_anomaly_summary => summary_is (fst (get_anomaly_summary (anomaly_detector system)))
  | op_get_flow_statistics => flow_statistics_are (get_flow_statistics (analytics system))
  | op_get_low_pressure_zones t =>
      low_pressure_zones_are (get_low_pressure_zones (analytics system) now t)
  | op_get_recommendations => recommendations_are (fst (get_recommendations system now))
  end.

(** The operations whose source calls [datetime.now()]. *)
Definition reads_clock (op : operation) : bool :=
  match op with
  | op_get_low_pressure_zones _ | op_get_recommendations => true
  | _ => false
  end.

(** A system whose only pressure reading, 30 PSI, was taken at time 0. *)
Definition one_low_reading : SmartWaterManagementSystem :=
  mkSystem (mkAnalytics [sample_pressure 0 "Z1_S01" 30] [])
           (mkDetector [sample_pressure 0 "Z1_S01" 30] no_flow).

(** ** Definitions for further properties *)

(** The squares of a list of numbers. *)
Definition squares (l : list Q) : list Q := map (fun x => x * x) l.

(** The record that [detect_flow_anomalies] builds for [row], on the
    statistics [m] and [s] of its bucket. *)
Definition flow_anomaly_of (m : Q) (s : sigma) (row : FlowReading.t) : FlowAnomaly.t :=
  FlowAnomaly.mk
    (FlowReading.timestamp row)
    (FlowReading.zone_id row)
    (FlowReading.zone_name row)
    (FlowReading.flow_rate_lpm row)
    (round m 2)
    (round (FlowReading.flow_rate_lpm row - m) 2)
    (zround (abs_z (FlowReading.flow_rate_lpm row) m s) 2)
    (if Qltb m (FlowReading.flow_rate_lpm row) then excessive_flow else low_flow)
    (_classify_severity (abs_z (FlowReading.flow_rate_lpm row) m s))
    (_identify_cause (FlowReading.flow_rate_lpm row) m (hour_of (FlowReading.timestamp row))).

(** [subsequence l1 l2]: [l1] is [l2] with some elements left out. *)
Inductive subsequence {A : Type} : list A -> list A -> Prop :=
| subsequence_nil : subsequence [] []
| subsequence_keep (x : A) (l1 l2 : list A) :
    subsequence l1 l2 -> subsequence (x :: l1) (x :: l2)
| subsequence_drop (x : A) (l1 l2 : list A) :
    subsequence l1 l2 -> subsequence l1 (x :: l2).

(** Five readings of zone Z1 at 03:00 on consecutive days: four of 100 l/min
    and one of 10000. *)
Definition five_at_three : AnomalyDetector :=
  mkDetector []
    (mkFlowFrame
       (map (fun i => sample_flow (Z.of_nat i * 86400 + 10800) 100) (seq 0 4)
        ++ [sample_flow (4 * 86400 + 10800) 10000])
       None).

(** Eight readings of one zone: seven of 50 PSI and one of 1 PSI. *)
Definition eight_readings : AnomalyDetector :=
  mkDetector
    (map (fun i => sample_pressure (Z.of_nat i * 900) "Z1_S01" 50) (seq 0 7)
     ++ [sample_pressure 6300 "Z1_S01" 1])
    no_flow.

(** Six readings of zone Z1 at 03:00 on consecutive days: five of 100 l/min
    and one of 500. *)
Definition six_at_three : AnomalyDetector :=
  mkDetector []
    (mkFlowFrame
       (map (fun i => sample_flow (Z.of_nat i * 86400 + 10800) 100) (seq 0 5)
        ++ [sample_flow (5 * 86400 + 10800) 500])
       None).

(** [len(df[df['severity'] == 'critical'])] on the records. *)
Definition count_critical {R : Type} (sev : R -> severity) (l : list R) : nat :=
  List.length (filter (severity_eqb critical) (map sev l)).

(** The number of elements of a list, as a rational. *)
Definition Qcount {A : Type} (l : list A) : Q := inject_Z (Z.of_nat (List.length l)).

(** The readings of the zone named [name] that [get_low_pressure_zones]
    counts: those of the trailing 7 days that are below the threshold. *)
Definition recent_low (self : WaterAnalytics) (now : Z) (threshold : Q) (name : string)
  : list PressureReading.t :=
  filter (fun r => String.eqb (PressureReading.zone_name r) name)
    (filter (fun r => Qltb (PressureReading.pressure_psi r) threshold)
       (filter (fun r => (now - days 7 <=? PressureReading.timestamp r)%Z)
          (a_pressure_df self))).

(** A system with 51 readings of 30 PSI in zone North, a quarter of an hour
    apart from time 0, and no flow readings. *)
Definition fifty_one_low : SmartWaterManagementSystem :=
  mkSystem
    (mkAnalytics (map (fun i => sample_pressure (Z.of_nat i * 900) "Z1_S01" 30) (seq 0 51)) [])
    (mkDetector (map (fun i => sample_pressure (Z.of_nat i * 900) "Z1_S01" 30) (seq 0 51))
                no_flow).

(** ** Zone statistics and zone health *)

Module ZoneStats.
Record t : Type := mk {
  zone_name : string;
  avg_pressure : Q;
  min_pressure : Q;
  max_pressure : Q;
  std_pressure : xnum;
  num_sensors : nat
}.
End ZoneStats.

(** [round(k)] of a standard deviation. *)
Definition sigma_round (s : sigma) (k : nat) : xnum :=
  match s with
  | SigmaNaN => NaN
  | SigmaRoot v => Fin (round_root v k)
  end.

(** One group of [pressure_df.groupby('zone_name')], aggregated and
    rounded. *)
Definition zone_stats_group (df : list PressureReading.t) (name : string)
  : list ZoneStats.t :=
  match filter (fun r => String.eqb (PressureReading.zone_name r) name) df with
  | [] => []
  | first :: rest =>
      let values := map PressureReading.pressure_psi (first :: rest) in
      let rest_values := map PressureReading.pressure_psi rest in
      [ZoneStats.mk name
         (round (mean values) 2)
         (round (fold_left qmin rest_values (PressureReading.pressure_psi first)) 2)
         (round (fold_left qmax rest_values (PressureReading.pressure_psi first)) 2)
         (sigma_round (std values) 2)
         (List.length (unique (map PressureReading.sensor_id (first :: rest))))]
  end.

Definition get_zone_statistics (self : WaterAnalytics) : list ZoneStats.t :=
  flat_map (zone_stats_group (a_pressure_df self))
           (group_keys (map PressureReading.zone_name (a_pressure_df self))).

Inductive health : Type :=
| health_critical    (* 'critical' *)
| health_warning     (* 'warning' *)
| health_attention   (* 'attention' *)
| health_healthy.    (* 'healthy' *)

Module ZoneHealth.
Record t : Type := mk {
  zone_name : string;
  avg_pressure : Q;
  status : health;
  num_sensors : nat
}.
Definition keys : list string :=
  ["zone_name"; "avg_pressure"; "status"; "num_sensors"]%string.
End ZoneHealth.

(** One turn of the loop of [get_zone_health_status] over the rows of the
    zone statistics. *)
Definition zone_health (low_pressure_zones : list LowPressure.t) (zone : ZoneStats.t)
  : ZoneHealth.t :=
  let zone_name := ZoneStats.zone_name zone in
  let low_pressure_info :=
    filter (fun z => String.eqb (LowPressure.zone_name z) zone_name) low_pressure_zones in
  let status :=
    match low_pressure_info with
    | first :: _ =>
        if (100 <? LowPressure.low_pressure_count first)%nat
        then health_critical else health_warning
    | [] =>
        if Qltb (ZoneStats.avg_pressure zone) 35 then health_warning
        else if Qltb (ZoneStats.avg_pressure zone) 40 then health_attention
        else health_healthy
    end in
  ZoneHealth.mk zone_name (ZoneStats.avg_pressure zone) status (ZoneStats.num_sensors zone).

Definition get_zone_health_status (self : SmartWaterManagementSystem) (now : Z)
  : Frame ZoneHealth.t :=
  let stats := get_zone_statistics (analytics self) in
  let low_pressure_zones := get_low_pressure_zones (analytics self) now 35 in
  pd_DataFrame ZoneHealth.keys (map (zone_health low_pressure_zones) stats).

(** The pressure values of the zone named [name]. *)
Definition zone_name_pressures (df : list PressureReading.t) (name : string) : list Q :=
  map PressureReading.pressure_psi
      (filter (fun r => String.eqb (PressureReading.zone_name r) name) df).

(** The status that the number [n] of counted low readings and the average
    pressure [avg] of a zone give. *)
Definition health_of (n : nat) (avg : Q) : health :=
  if (100 <? n)%nat then health_critical
  else if (1 <=? n)%nat then health_warning
  else if Qltb avg 35 then health_warning
  else if Qltb avg 40 then health_attention
  else health_healthy.

(** A system whose zone North has readings of 45, 45 and 30 PSI. *)
Definition one_dip : SmartWaterManagementSystem :=
  mkSystem
    (mkAnalytics [sample_pressure 0 "Z1_S01" 45; sample_pressure 900 "Z1_S02" 45;
                  sample_pressure 1800 "Z1_S01" 30] [])
    (mkDetector [] no_flow).

(** ** Water loss *)

Module WaterLoss.
Record t : Type := mk {
  zone_name : string;
  night_flow_lpm : Q;
  potential_leak : bool;
  estimated_daily_loss_liters : Q
}.
End WaterLoss.

(** [flow_df['hour'] = flow_df['timestamp'].dt.hour] on the flow frame of
    the analytics object. *)
Definition assign_hour_column (df : FlowFrame) : FlowFrame :=
  mkFlowFrame (flow_rows df)
              (Some (map (fun r => hour_of (FlowReading.timestamp r)) (flow_rows df))).

(** One group of [night_flow.groupby('zone_name')], with the two derived
    columns. *)
Definition water_loss_group (night_flow : list (FlowReading.t * Z)) (name : string)
  : list WaterLoss.t :=
  match filter (fun rh => String.eqb (FlowReading.zone_name (fst rh)) name) night_flow with
  | [] => []
  | first :: rest =>
      let night_flow_lpm :=
        round (mean (map (fun rh => FlowReading.flow_rate_lpm (fst rh)) (first :: rest))) 2 in
      [WaterLoss.mk name night_flow_lpm
         (Qltb 200 night_flow_lpm)
         (round (night_flow_lpm * 60 * 24 * 0.3) 0)]
  end.

(** [WaterAnalytics.calculate_water_loss], on the flow frame of the
    analytics object; the frame is returned with the ['hour'] column that
    the call assigns. *)
Definition calculate_water_loss (flow_df : FlowFrame) : list WaterLoss.t * FlowFrame :=
  let flow_df' := assign_hour_column flow_df in
  let night_flow := filter (fun rh => is_night (snd rh)) (hour_rows flow_df') in
  (flat_map (water_loss_group night_flow)
            (group_keys (map (fun rh => FlowReading.zone_name (fst rh)) night_flow)),
   flow_df').

(** The rows name their zones consistently: two rows have the same zone
    identifier exactly when they have the same zone name. *)
Definition zones_named_consistently (rows : list FlowReading.t) : Prop :=
  forall r1 r2, In r1 rows -> In r2 rows ->
    (FlowReading.zone_id r1 = FlowReading.zone_id r2 <->
     FlowReading.zone_name r1 = FlowReading.zone_name r2).

(** ** Pressure distribution *)










(** ** Peak demand *)

Module HourlyFlow.
Record t : Type := mk {
  hour : Z;
  flow_rate_lpm : Q
}.
End HourlyFlow.

(** The distinct hours of a column, in order of first appearance. *)
Fixpoint unique_hours (l : list Z) : list Z :=
  match l with
  | [] => []
  | x :: r => x :: filter (fun y => negb (y =? x)%Z) (unique_hours r)
  end.

Fixpoint insert_hour (h : Z) (l : list Z) : list Z :=
  match l with
  | [] => [h]
  | x :: t => if (h <=? x)%Z then h :: l else x :: insert_hour h t
  end.

(** The group labels of [groupby('hour')]: the distinct hours, ascending. *)
Definition hour_keys (column : list Z) : list Z :=
  fold_right insert_hour [] (unique_hours column).

(** One group of [flow_df.groupby('hour')], aggregated and rounded. *)
Definition hourly_flow_group (df : list (FlowReading.t * Z)) (hour : Z)
  : list HourlyFlow.t :=
  match filter (fun rh => (snd rh =? hour)%Z) df with
  | [] => []
  | first :: rest =>
      [HourlyFlow.mk hour
         (round (mean (map (fun rh => FlowReading.flow_rate_lpm (fst rh)) (first :: rest))) 2)]
  end.

(** [sort_values('flow_rate_lpm', ascending=False)]; rows with equal flows
    keep the order of the groups. *)
Fixpoint insert_by_flow (r : HourlyFlow.t) (l : list HourlyFlow.t) : list HourlyFlow.t :=
  match l with
  | [] => [r]
  | x :: t =>
      if Qle_bool (HourlyFlow.flow_rate_lpm x) (HourlyFlow.flow_rate_lpm r)
      then r :: l
      else x :: insert_by_flow r t
  end.

(** [WaterAnalytics.get_peak_demand_times], on the flow frame of the
    analytics object; the frame is returned with the ['hour'] column that
    the call assigns. *)
Definition get_peak_demand_times (flow_df : FlowFrame) : list HourlyFlow.t * FlowFrame :=
  let flow_df' := assign_hour_column flow_df in
  let df := hour_rows flow_df' in
  (fold_right insert_by_flow []
     (flat_map (hourly_flow_group df) (hour_keys (map snd df))),
   flow_df').

(** The flow values read at one hour of the day. *)
Definition hour_flows (rows : list FlowReading.t) (hour : Z) : list Q :=
  map FlowReading.flow_rate_lpm
      (filter (fun r => (hour_of (FlowReading.timestamp r) =? hour)%Z) rows).

Definition flow_ge (a b : HourlyFlow.t) : Prop :=
  HourlyFlow.flow_rate_lpm b <= HourlyFlow.flow_rate_lpm a.

(** Readings of 80 l/min at 03:00, of 200 and 220 at 07:00 and of 150 at
    12:00. *)
Definition three_hours : FlowFrame :=
  mkFlowFrame [sample_flow 10800 80; sample_flow 25200 200; sample_flow 111600 220;
               sample_flow 43200 150] None.

(** ** The data generator *)

(** The factor that [generate_pressure_data] applies at an hour of the day:
    lower pressure at the peak hours, higher at night. *)
Definition pressure_demand_factor (hour : Z) : Q :=
  if ((6 <=? hour) && (hour <=? 9) || (18 <=? hour) && (hour <=? 21))%Z then 0.85
  else if ((0 <=? hour) && (hour <=? 5))%Z then 1.15
  else 1.

(** [max(a, b)] of Python on two numbers. *)
Definition py_max (a b : Q) : Q := if Qltb a b then b else a.

(** The pressure that [generate_pressure_data] stores for one reading.  The
    three random draws of the loop body are arguments: [noise] is
    [np.random.normal(0, 2)], [roll] is [np.random.random()] and
    [drop_factor] is [np.random.uniform(0.5, 0.8)]. *)
Definition generated_pressure (base_pressure elevation : Q) (hour : Z)
    (noise roll drop_factor : Q) : Q :=
  let pressure := base_pressure * pressure_demand_factor hour in
  let pressure := pressure + noise in
  let pressure := if Qltb roll 0.02 then pressure * drop_factor else pressure in
  let elevation_impact := -0.1 * (elevation - 100) / 10 in
  let pressure := pressure + elevation_impact in
  let pressure := py_max pressure 5 in
  round pressure 2.

(** The factor that [generate_flow_data] applies at an hour of the day. *)
Definition flow_factor (hour : Z) : Q :=
  if ((6 <=? hour) && (hour <=? 9))%Z then 1.5
  else if ((18 <=? hour) && (hour <=? 21))%Z then 1.4
  else if ((0 <=? hour) && (hour <=? 5))%Z then 0.3
  else 0.8.

(** The flow that [generate_flow_data] stores for one reading; [noise] is
    [np.random.normal(0, base_flow * 0.1)], [roll] is [np.random.random()]
    and [leak_factor] is [np.random.uniform(1.3, 1.8)]. *)
Definition generated_flow (population : Q) (hour : Z) (noise roll leak_factor : Q) : Q :=
  let base_flow := population / 100 in
  let flow_rate := base_flow * flow_factor hour in
  let flow_rate := flow_rate + noise in
  let flow_rate := if Qltb roll 0.01 then flow_rate * leak_factor else flow_rate in
  let flow_rate := py_max flow_rate 0 in
  round flow_rate 2.

(** ** Performance metrics *)






(** * Properties *)

(** ** Lists, frames and keys *)

Lemma records_pd_DataFrame {R : Type} (keys : list string) (dicts : list R) :
  records (pd_DataFrame keys dicts) = dicts.
Proof. destruct dicts; reflexivity. Qed.

Lemma columns_pd_DataFrame_nil {R : Type} (keys : list string) :
  columns (@pd_DataFrame R keys []) = [].
Proof. reflexivity. Qed.

Lemma in_unique (x : string) (l : list string) : In x (unique l) <-> In x l.
Proof.
  induction l as [|a l IH]; simpl; [tauto|].
  rewrite filter_In, IH.
  destruct (String.eqb_spec x a) as [->|Hne]; simpl; intuition congruence.
Qed.

Lemma NoDup_unique (l : list string) : NoDup (unique l).
Proof.
  induction l as [|a l IH]; simpl; constructor.
  - rewrite filter_In. intros [_ H]. rewrite String.eqb_refl in H. discriminate.
  - now apply NoDup_filter.
Qed.

(** ** Arithmetic of the statistics *)

Lemma Qltb_lt (a b : Q) : Qltb a b = true <-> a < b.
Proof.
  unfold Qltb. rewrite Qlt_alt. destruct (a ?= b); split; congruence.
Qed.

Lemma Qltb_ge (a b : Q) : Qltb a b = false <-> b <= a.
Proof.
  rewrite <- Bool.not_true_iff_false, Qltb_lt. split; intro H.
  - now apply Qnot_lt_le.
  - now apply Qle_not_lt.
Qed.


Lemma Qlen_pos (l : list Q) : l <> [] -> 0 < Qlen l.
Proof.
  destruct l as [|a l]; [congruence|intros _].
  unfold Qlen. change 0 with (inject_Z 0). rewrite <- Zlt_Qlt. simpl. lia.
Qed.



Lemma Qsum_nonneg (l : list Q) : (forall x, In x l -> 0 <= x) -> 0 <= Qsum l.
Proof.
  induction l as [|a l IH]; intros H; simpl; [lra|].
  assert (0 <= a) by (apply H; now left).
  assert (0 <= Qsum l) by (apply IH; intros; apply H; now right).
  lra.
Qed.

Lemma Qsquare_nonneg (a : Q) : 0 <= a * a.
Proof.
  unfold Qle, Qmult. simpl. rewrite Z.mul_1_r. apply Z.square_nonneg.
Qed.

Lemma sq_dev_nonneg (m : Q) (l : list Q) : 0 <= sq_dev m l.
Proof.
  unfold sq_dev. apply Qsum_nonneg. intros x Hx.
  apply in_map_iff in Hx as [y [<- _]]. apply Qsquare_nonneg.
Qed.




(** Turn the outcome [E] of a comparison of rationals into the order it
    states. *)
Ltac order_of E :=
  first [apply Qeq_alt in E | apply Qlt_alt in E | apply Qgt_alt in E].

(** What [z > t] means on a score that is a root. *)
Lemma zscore_gtb_root (sq t : Q) :
  zscore_gtb (ZRoot sq) t = true <-> t < 0 \/ t * t < sq.
Proof.
  unfold zscore_gtb.
  destruct (t ?= 0) eqn:E0; order_of E0; [| tauto |];
    (destruct (t * t ?= sq) eqn:E1; order_of E1; [| tauto |];
     (split; [discriminate|]; intros [H|H]; lra)).
Qed.

(** *** Rounding *)

Lemma rint_nearest (x : Q) : Qabs (x - inject_Z (rint x)) <= 1 # 2.
Proof.
  unfold rint. pose proof (Qfloor_le x) as Hlo. pose proof (Qlt_floor x) as Hhi.
  rewrite inject_Z_plus in Hhi. change (inject_Z 1) with 1 in Hhi.
  apply Qabs_Qle_condition.
  destruct (Qcompare (x - inject_Z (Qfloor x)) (1 # 2)) eqn:E.
  - apply Qeq_alt in E. destruct (Z.even (Qfloor x)).
    + lra.
    + rewrite inject_Z_plus. change (inject_Z 1) with 1. lra.
  - apply Qlt_alt in E. lra.
  - apply Qgt_alt in E. rewrite inject_Z_plus. change (inject_Z 1) with 1. lra.
Qed.

Lemma pow10_pos (k : nat) : 0 < pow10 k.
Proof.
  unfold pow10. change 0 with (inject_Z 0). rewrite <- Zlt_Qlt.
  apply Z.pow_pos_nonneg; lia.
Qed.

(** [round x k] is at most half a unit of the last place away from [x]. *)
Lemma round_nearest (x : Q) (k : nat) :
  Qabs (x - round x k) * pow10 k <= 1 # 2.
Proof.
  pose proof (pow10_pos k) as Hp. pose proof (rint_nearest (x * pow10 k)) as H.
  unfold round.
  assert (E : (x - inject_Z (rint (x * pow10 k)) / pow10 k) * pow10 k
              == x * pow10 k - inject_Z (rint (x * pow10 k))) by (field; lra).
  rewrite <- E in H. rewrite Qabs_Qmult in H. rewrite (Qabs_pos (pow10 k)) in H by lra.
  exact H.
Qed.

(** [round_root sq k], counted in units of [10^-k], is within one half of
    the square root of [sq] counted in the same units. *)
Lemma round_root_nearest (sq : Q) (k : nat) :
  0 <= sq ->
  let x := sq * (pow10 k * pow10 k) in
  let r := round_root sq k * pow10 k in
  0 <= r /\
  x <= (r + (1 # 2)) * (r + (1 # 2)) /\
  (r <= 1 # 2 \/ (r - (1 # 2)) * (r - (1 # 2)) <= x).
Proof.
  intros Hsq. pose proof (pow10_pos k) as Hp. cbv zeta.
  unfold round_root. cbv zeta.
  set (x := sq * (pow10 k * pow10 k)).
  assert (Hx : 0 <= x).
  { unfold x. apply Qmult_le_0_compat; [exact Hsq|]. apply Qmult_le_0_compat; lra. }
  assert (Hn : (0 <= Qfloor x)%Z).
  { change 0%Z with (Qfloor 0). now apply Qfloor_resp_le. }
  pose proof (Z.sqrt_spec (Qfloor x) Hn) as [Hlo Hhi]. cbv zeta in Hlo, Hhi.
  pose proof (Z.sqrt_nonneg (Qfloor x)) as Hr0.
  set (r0 := Z.sqrt (Qfloor x)) in *.
  assert (Hq0 : 0 <= inject_Z r0) by (change 0 with (inject_Z 0); now rewrite <- Zle_Qle).
  assert (Hlo' : inject_Z r0 * inject_Z r0 <= x).
  { rewrite <- inject_Z_mult. apply Qle_trans with (inject_Z (Qfloor x)).
    - now rewrite <- Zle_Qle.
    - apply Qfloor_le. }
  assert (Hhi' : x < (inject_Z r0 + 1) * (inject_Z r0 + 1)).
  { apply Qlt_le_trans with (inject_Z (Qfloor x + 1)); [apply Qlt_floor|].
    change 1 with (inject_Z 1). rewrite <- inject_Z_plus, <- inject_Z_mult, <- Zle_Qle.
    lia. }
  assert (Hone : r0 = 0%Z \/ 1 <= inject_Z r0).
  { destruct (Z.eq_dec r0 0) as [|Hne]; [now left|right].
    change 1 with (inject_Z 1). rewrite <- Zle_Qle. lia. }
  assert (Hr : forall r : Z, inject_Z r / pow10 k * pow10 k == inject_Z r)
    by (intros r; field; lra).
  destruct (Qcompare x _) eqn:E; order_of E;
    try destruct (Z.even r0);
    rewrite Hr; try (rewrite inject_Z_plus; change (inject_Z 1) with 1);
    (split; [lra|]); (split; [lra|]);
    try (right; lra);
    destruct Hone as [->|Hone]; try (left; compute; discriminate); right; lra.
Qed.

(** ** Pressure outliers *)

Lemma in_zone_pressure_anomalies (t : Q) (df : list PressureReading.t)
    (z : string) (a : PressureAnomaly.t) :
  In a (zone_pressure_anomalies t df z) <->
  exists row,
    In row df /\ PressureReading.zone_id row = z /\
    zscore_gtb (abs_z (PressureReading.pressure_psi row)
                      (mean (zone_pressures df z)) (std (zone_pressures df z))) t = true /\
    a = pressure_anomaly_of (mean (zone_pressures df z)) (std (zone_pressures df z)) row.
Proof.
  unfold zone_pressure_anomalies, zone_pressures. rewrite in_map_iff. split.
  - intros [[row z'] [<- Hin]]. apply filter_In in Hin as [Hin Hgt].
    apply in_map_iff in Hin as [row' [Heq Hin]]. inversion Heq; subst; clear Heq.
    apply filter_In in Hin as [Hin Hz]. apply String.eqb_eq in Hz.
    exists row. simpl in *. auto.
  - intros [row [Hin [Hz [Hgt ->]]]].
    eexists (row, _). split; [reflexivity|].
    apply filter_In. split; [|exact Hgt].
    apply in_map_iff. exists row. split; [reflexivity|].
    apply filter_In. split; [exact Hin|]. now apply String.eqb_eq.
Qed.

Lemma in_detect_pressure_anomalies (self : AnomalyDetector) (t : Q)
    (a : PressureAnomaly.t) :
  In a (records (fst (detect_pressure_anomalies self t))) <->
  exists row,
    let z := PressureReading.zone_id row in
    let m := mean (zone_pressures (pressure_df self) z) in
    let s := std (zone_pressures (pressure_df self) z) in
    In row (pressure_df self) /\
    zscore_gtb (abs_z (PressureReading.pressure_psi row) m s) t = true /\
    a = pressure_anomaly_of m s row.
Proof.
  unfold detect_pressure_anomalies. cbn [fst]. rewrite records_pd_DataFrame, in_flat_map.
  split.
  - intros [z [_ Ha]]. apply in_zone_pressure_anomalies in Ha as [row [Hin [<- [Hgt ->]]]].
    exists row. cbv zeta. auto.
  - intros [row [Hin [Hgt ->]]]. exists (PressureReading.zone_id row). split.
    + apply in_unique, in_map, Hin.
    + apply in_zone_pressure_anomalies. exists row. auto.
Qed.

(** C3, as stated, fails: the stored deviation of an emitted pressure
    anomaly is not always the stored observed value minus the stored
    expected value.  On [one_outlier] the zone mean is 45.556, stored as
    45.56; the deviation of the reading 10.004 is stored as -35.55, while
    10.004 - 45.56 = -35.556. *)
Lemma pressure_deviation_not_exact :
  ~ (forall self t a,
        In a (records (fst (detect_pressure_anomalies self t))) ->
        PressureAnomaly.deviation a ==
        PressureAnomaly.pressure_psi a - PressureAnomaly.expected_pressure a).
Proof.
  intros H. specialize (H one_outlier 2.5). vm_compute in H.
  specialize (H _ (or_introl eq_refl)). discriminate H.
Qed.

(** C3, amended: every pressure anomaly stores the zone mean rounded to two
    decimals as its expected value and the observed value minus the zone
    mean, rounded to two decimals, as its deviation; its kind is
    [pressure_drop] exactly when the observed value is below the zone mean,
    and [pressure_spike] otherwise. *)
Theorem pressure_anomaly_deviation_and_kind (self : AnomalyDetector) (t : Q)
    (a : PressureAnomaly.t) :
  In a (records (fst (detect_pressure_anomalies self t))) ->
  let m := mean (zone_pressures (pressure_df self) (PressureAnomaly.zone_id a)) in
  PressureAnomaly.expected_pressure a = round m 2 /\
  PressureAnomaly.deviation a = round (PressureAnomaly.pressure_psi a - m) 2 /\
  (PressureAnomaly.anomaly_type a = pressure_drop <-> PressureAnomaly.pressure_psi a < m) /\
  (PressureAnomaly.anomaly_type a = pressure_spike <-> ~ PressureAnomaly.pressure_psi a < m).
Proof.
  intros Ha. apply in_detect_pressure_anomalies in Ha as [row [Hin [Hgt ->]]].
  cbn -[round mean zone_pressures]. repeat split; try reflexivity.
  - destruct (Qltb _ _) eqn:E; [intros _; now apply Qltb_lt|discriminate].
  - intros Hlt. apply Qltb_lt in Hlt. now rewrite Hlt.
  - destruct (Qltb _ _) eqn:E; [discriminate|].
    intros _ Hlt. apply Qltb_lt in Hlt. congruence.
  - intros Hn. destruct (Qltb _ _) eqn:E; [|reflexivity].
    apply Qltb_lt in E. contradiction.
Qed.

Lemma pressure_anomaly_deviation_and_kind_witness :
  exists a,
    In a (records (fst (detect_pressure_anomalies one_outlier 2.5))) /\
    PressureAnomaly.deviation a == -35.55 /\
    PressureAnomaly.anomaly_type a = pressure_drop.
Proof.
  eexists. split; [vm_compute; left; reflexivity|].
  match goal with
  | |- context [PressureAnomaly.deviation ?a] =>
      assert (Ha : In a (records (fst (detect_pressure_anomalies one_outlier 2.5))))
        by (vm_compute; left; reflexivity);
      destruct (pressure_anomaly_deviation_and_kind one_outlier 2.5 a Ha)
        as [_ [Hd [Hk _]]]
  end.
  split; [rewrite Hd; vm_compute; reflexivity|].
  apply Hk. vm_compute. reflexivity.
Defined.



(** ** Flow outliers *)

Lemma filter_filter {A : Type} (f g : A -> bool) (l : list A) :
  filter f (filter g l) = filter (fun x => g x && f x) l.
Proof.
  induction l as [|a l IH]; simpl; [reflexivity|].
  destruct (g a); simpl; [destruct (f a)|]; now rewrite IH.
Qed.

Lemma combine_map_r {A B : Type} (g : A -> B) (l : list A) :
  combine l (map g l) = map (fun x => (x, g x)) l.
Proof. induction l as [|a l IH]; simpl; [|rewrite IH]; reflexivity. Qed.

(** After the assignment, each row is paired with the hour of its own
    timestamp. *)
Lemma hour_rows_assign_hour (self : AnomalyDetector) :
  hour_rows (flow_df (assign_hour self)) =
  map (fun r => (r, hour_of (FlowReading.timestamp r))) (flow_rows (flow_df self)).
Proof. unfold hour_rows, assign_hour. simpl. apply combine_map_r. Qed.

Lemma std_var_nonneg (l : list Q) (v : Q) : std l = SigmaRoot v -> 0 <= v.
Proof.
  unfold std. destruct (Nat.leb_spec (List.length l) 1) as [|Hgt]; [discriminate|].
  intros [= <-].
  assert (1 < Qlen l).
  { unfold Qlen. change 1 with (inject_Z 1). rewrite <- Zlt_Qlt. lia. }
  pose proof (sq_dev_nonneg (mean l) l).
  apply Qle_shift_div_l; lra.
Qed.

Lemma std_positive (l : list Q) :
  (2 <= List.length l)%nat -> sigma_is_zero (std l) = false ->
  exists v, std l = SigmaRoot v /\ 0 < v.
Proof.
  intros Hlen Hz. destruct (std l) as [|v] eqn:E.
  - unfold std in E. destruct (Nat.leb_spec (List.length l) 1); [lia|discriminate].
  - exists v. split; [reflexivity|].
    pose proof (std_var_nonneg l v E) as Hge. simpl in Hz.
    assert (Hne : ~ v == 0).
    { intros Hv. apply Qeq_bool_iff in Hv. congruence. }
    lra.
Qed.

(** The values that the loop scores in the turn of [zone] and [hour]. *)
Lemma bucket_values (rows : list FlowReading.t) (zone : string) (hour : Z) :
  map (fun rh : FlowReading.t * Z => FlowReading.flow_rate_lpm (fst rh))
      (filter (fun rh => (snd rh =? hour)%Z)
         (filter (fun rh => String.eqb (FlowReading.zone_id (fst rh)) zone)
            (map (fun r => (r, hour_of (FlowReading.timestamp r))) rows)))
  = flow_bucket rows zone hour.
Proof.
  unfold flow_bucket. rewrite filter_filter, filter_map_swap, map_map. reflexivity.
Qed.

Lemma in_bucket_flow_anomalies (t : Q) (zone_data : list (FlowReading.t * Z))
    (hour : Z) (a : FlowAnomaly.t) :
  In a (bucket_flow_anomalies t zone_data hour) ->
  let hour_data := filter (fun rh => (snd rh =? hour)%Z) zone_data in
  let values := map (fun rh : FlowReading.t * Z => FlowReading.flow_rate_lpm (fst rh))
                    hour_data in
  (5 <= List.length hour_data)%nat /\
  sigma_is_zero (std values) = false /\
  exists rh,
    In rh hour_data /\
    zscore_gtb (abs_z (FlowReading.flow_rate_lpm (fst rh)) (mean values) (std values)) t
      = true /\
    FlowAnomaly.timestamp a = FlowReading.timestamp (fst rh) /\
    FlowAnomaly.zone_id a = FlowReading.zone_id (fst rh) /\
    FlowAnomaly.flow_rate_lpm a = FlowReading.flow_rate_lpm (fst rh).
Proof.
  unfold bucket_flow_anomalies. cbv zeta.
  destruct (Nat.ltb_spec (List.length (filter (fun rh => (snd rh =? hour)%Z) zone_data)) 5)
    as [|Hlen]; [contradiction|].
  destruct (sigma_is_zero _) eqn:Hz; [contradiction|].
  intros Ha. apply in_map_iff in Ha as [[rh z] [<- Hin]].
  apply filter_In in Hin as [Hin Hgt].
  apply in_map_iff in Hin as [rh' [Heq Hin]]. inversion Heq; subst; clear Heq.
  split; [exact Hlen|]. split; [reflexivity|].
  exists rh. simpl in *. auto.
Qed.

(** C7: every flow anomaly comes from a (zone, hour-of-day) bucket that has
    at least 5 observations and a standard deviation that is a number and
    is positive, and its standardized score in that bucket is strictly
    greater than the threshold.  So a bucket with fewer than 5 observations
    or with zero standard deviation gives no record. *)
Theorem flow_anomaly_bucket (self : AnomalyDetector) (t : Q) (a : FlowAnomaly.t) :
  In a (records (fst (detect_flow_anomalies self t))) ->
  let bucket := flow_bucket (flow_rows (flow_df self)) (FlowAnomaly.zone_id a)
                            (hour_of (FlowAnomaly.timestamp a)) in
  (5 <= List.length bucket)%nat /\
  sigma_is_zero (std bucket) = false /\
  (exists v, std bucket = SigmaRoot v /\ 0 < v) /\
  In (FlowAnomaly.flow_rate_lpm a) bucket /\
  zscore_gtb (abs_z (FlowAnomaly.flow_rate_lpm a) (mean bucket) (std bucket)) t = true.
Proof.
  unfold detect_flow_anomalies. cbn [fst]. rewrite records_pd_DataFrame.
  rewrite hour_rows_assign_hour. intros Ha.
  apply in_flat_map in Ha as [zone [_ Ha]]. unfold zone_flow_anomalies in Ha.
  apply in_flat_map in Ha as [hour [_ Ha]].
  apply in_bucket_flow_anomalies in Ha. cbv zeta in Ha.
  destruct Ha as [Hlen [Hz [[r h] [Hin [Hgt [Hts [Hzone Hflow]]]]]]].
  pose proof Hin as Hin'.
  apply filter_In in Hin' as [Hin' Hh]. apply filter_In in Hin' as [Hin' Hzn].
  apply in_map_iff in Hin' as [r' [Heq _]]. inversion Heq; subst r' h; clear Heq.
  simpl in Hh, Hzn, Hts, Hzone, Hflow, Hgt.
  apply Z.eqb_eq in Hh. apply String.eqb_eq in Hzn.
  cbv zeta. rewrite Hts, Hzone, Hflow, Hh, Hzn.
  rewrite bucket_values in Hz, Hgt.
  assert (Hl : List.length (flow_bucket (flow_rows (flow_df self)) zone hour)
               = List.length (filter (fun rh : FlowReading.t * Z => (snd rh =? hour)%Z)
                   (filter (fun rh => String.eqb (FlowReading.zone_id (fst rh)) zone)
                      (map (fun r => (r, hour_of (FlowReading.timestamp r)))
                         (flow_rows (flow_df self)))))).
  { rewrite <- bucket_values. now rewrite length_map. }
  repeat split.
  - lia.
  - exact Hz.
  - apply std_positive; [lia|exact Hz].
  - rewrite <- bucket_values.
    apply (in_map (fun rh : FlowReading.t * Z => FlowReading.flow_rate_lpm (fst rh))
                  _ _ Hin).
  - exact Hgt.
Qed.

Lemma flow_anomaly_bucket_witness :
  exists a,
    In a (records (fst (detect_flow_anomalies flow_outlier 2))) /\
    (5 <= List.length (flow_bucket (flow_rows (flow_df flow_outlier))
                                   (FlowAnomaly.zone_id a)
                                   (hour_of (FlowAnomaly.timestamp a))))%nat.
Proof.
  eexists. split; [vm_compute; left; reflexivity|].
  match goal with
  | |- context [FlowAnomaly.zone_id ?a] =>
      assert (Ha : In a (records (fst (detect_flow_anomalies flow_outlier 2))))
        by (vm_compute; left; reflexivity);
      exact (proj1 (flow_anomaly_bucket flow_outlier 2 a Ha))
  end.
Defined.

(** ** Leaks *)

Lemma night_data_rows (rows : list FlowReading.t) :
  filter (fun rh : FlowReading.t * Z => is_night (snd rh))
         (map (fun r => (r, hour_of (FlowReading.timestamp r))) rows)
  = map (fun r => (r, hour_of (FlowReading.timestamp r))) (night_rows rows).
Proof. unfold night_rows. now rewrite filter_map_swap. Qed.

Lemma zone_leak_rows (t : Q) (rows : list FlowReading.t) (zone : string) :
  zone_leak t (map (fun r => (r, hour_of (FlowReading.timestamp r))) (night_rows rows)) zone
  = match filter (fun r => String.eqb (FlowReading.zone_id r) zone) (night_rows rows) with
    | [] => []
    | first :: _ =>
        if Qltb t (mean (night_flows rows zone))
        then [leak_of zone (FlowReading.zone_name first) (mean (night_flows rows zone))]
        else []
    end.
Proof.
  unfold zone_leak, night_flows. rewrite filter_map_swap, map_map. cbn [fst].
  destruct (filter _ (night_rows rows)) as [|first rest]; reflexivity.
Qed.

(** The records of [detect_leaks], as a function of the night rows. *)
Lemma detect_leaks_records (self : AnomalyDetector) (t : Q) :
  records (fst (detect_leaks self t)) =
  flat_map (fun zone =>
              zone_leak t (map (fun r => (r, hour_of (FlowReading.timestamp r)))
                               (night_rows (flow_rows (flow_df self)))) zone)
           (unique (map FlowReading.zone_id (night_rows (flow_rows (flow_df self))))).
Proof.
  unfold detect_leaks. cbn [fst]. rewrite records_pd_DataFrame, hour_rows_assign_hour.
  rewrite night_data_rows, map_map. reflexivity.
Qed.

Lemma in_detect_leaks (self : AnomalyDetector) (t : Q) (l : Leak.t) :
  In l (records (fst (detect_leaks self t))) <->
  exists zone first rest,
    filter (fun r => String.eqb (FlowReading.zone_id r) zone)
           (night_rows (flow_rows (flow_df self))) = first :: rest /\
    t < mean (night_flows (flow_rows (flow_df self)) zone) /\
    l = leak_of zone (FlowReading.zone_name first)
                (mean (night_flows (flow_rows (flow_df self)) zone)).
Proof.
  rewrite detect_leaks_records, in_flat_map. split.
  - intros [zone [_ Hl]]. rewrite zone_leak_rows in Hl.
    destruct (filter _ _) as [|first rest] eqn:E; [contradiction|].
    destruct (Qltb _ _) eqn:Hgt; [|contradiction].
    destruct Hl as [<-|[]]. apply Qltb_lt in Hgt.
    exists zone, first, rest. auto.
  - intros [zone [first [rest [E [Hgt ->]]]]]. exists zone. split.
    + apply in_unique.
      assert (Hin : In first (filter (fun r => String.eqb (FlowReading.zone_id r) zone)
                                (night_rows (flow_rows (flow_df self)))))
        by (rewrite E; now left).
      apply filter_In in Hin as [Hin Hz]. apply String.eqb_eq in Hz. subst zone.
      now apply in_map.
    + rewrite zone_leak_rows, E. apply Qltb_lt in Hgt. rewrite Hgt. now left.
Qed.

Lemma NoDup_flat_map_keys {A B : Type} (key : B -> A) (f : A -> list B) (l : list A) :
  NoDup l ->
  (forall a b, In b (f a) -> key b = a) ->
  (forall a, (List.length (f a) <= 1)%nat) ->
  NoDup (map key (flat_map f l)).
Proof.
  intros Hnd Hkey Hlen. induction Hnd as [|a l Hnotin Hnd IH]; simpl; [constructor|].
  rewrite map_app. specialize (Hlen a). pose proof (Hkey a) as Ha.
  destruct (f a) as [|b [|b' rest]]; simpl in *; [exact IH| |lia].
  constructor; [|exact IH].
  rewrite (Ha b) by now left.
  intros Hin. apply in_map_iff in Hin as [b0 [Hb0 Hin]].
  apply in_flat_map in Hin as [a0 [Ha0 Hin]].
  apply Hkey in Hin. congruence.
Qed.

Lemma leak_severity_cases (m : Q) (zone name : string) :
  let l := leak_of zone name m in
  (Leak.severity l = high <-> 500 < m) /\
  (Leak.severity l = moderate <-> ~ 500 < m) /\
  (Leak.confidence l = conf_high <-> 400 < m) /\
  (Leak.confidence l = conf_medium <-> ~ 400 < m).
Proof.
  cbn. rewrite <- !Qltb_lt.
  destruct (Qltb 500 m), (Qltb 400 m); repeat split; congruence.
Qed.

(** C4, as stated, fails: the stored daily loss is not always the mean
    night flow times 60 times 24.  On [night_leak] the mean night flow is
    400.0001 l/min, so the product is 576000.144, and the record stores
    576000. *)
Lemma leak_daily_loss_not_exact :
  ~ (forall self t l,
        In l (records (fst (detect_leaks self t))) ->
        Leak.estimated_daily_loss_liters l ==
        mean (night_flows (flow_rows (flow_df self)) (Leak.zone_id l)) * 60 * 24).
Proof.
  intros H. specialize (H night_leak 300). vm_compute in H.
  specialize (H _ (or_introl eq_refl)). discriminate H.
Qed.

(** C4, amended: a zone gets a leak record, and only one, exactly when it
    has readings at hours 0 to 5 and their mean exceeds the threshold; the
    records are a function of the night readings alone, and there is none
    when no reading falls in the night hours; every record stores the mean
    night flow times 60 times 24 rounded to the nearest whole litre as its
    daily loss, has severity high iff the mean night flow is above 500 and
    moderate otherwise, and confidence high iff it is above 400 and medium
    otherwise. *)
Theorem leak_detection (self : AnomalyDetector) (t : Q) :
  let rows := flow_rows (flow_df self) in
  let out := records (fst (detect_leaks self t)) in
  (forall zone,
      (exists l, In l out /\ Leak.zone_id l = zone) <->
      (night_flows rows zone <> [] /\ t < mean (night_flows rows zone))) /\
  NoDup (map Leak.zone_id out) /\
  (forall l, In l out ->
     let m := mean (night_flows rows (Leak.zone_id l)) in
     Leak.estimated_daily_loss_liters l = round (m * 60 * 24) 0 /\
     (Leak.severity l = high <-> 500 < m) /\
     (Leak.severity l = moderate <-> ~ 500 < m) /\
     (Leak.confidence l = conf_high <-> 400 < m) /\
     (Leak.confidence l = conf_medium <-> ~ 400 < m)) /\
  (forall other,
      night_rows (flow_rows (flow_df other)) = night_rows rows ->
      records (fst (detect_leaks other t)) = out) /\
  (night_rows rows = [] -> out = []).
Proof.
  cbv zeta. repeat apply conj.
  - intros zone. split.
    + intros [l [Hl Hz]]. apply in_detect_leaks in Hl as [z [first [rest [E [Hgt ->]]]]].
      cbn in Hz. subst z. split; [|exact Hgt].
      unfold night_flows. rewrite E. discriminate.
    + intros [Hne Hgt]. unfold night_flows in Hne.
      destruct (filter (fun r => String.eqb (FlowReading.zone_id r) zone)
                       (night_rows (flow_rows (flow_df self)))) as [|first rest] eqn:E;
        [now elim Hne|].
      exists (leak_of zone (FlowReading.zone_name first)
                      (mean (night_flows (flow_rows (flow_df self)) zone))).
      split; [|reflexivity].
      apply in_detect_leaks. exists zone, first, rest. auto.
  - rewrite detect_leaks_records. apply NoDup_flat_map_keys.
    + apply NoDup_unique.
    + intros zone l Hl. rewrite zone_leak_rows in Hl.
      destruct (filter _ _); [contradiction|].
      destruct (Qltb _ _); [|contradiction]. now destruct Hl as [<-|[]].
    + intros zone. rewrite zone_leak_rows.
      destruct (filter _ _); [simpl; lia|]. destruct (Qltb _ _); simpl; lia.
  - intros l Hl. apply in_detect_leaks in Hl as [z [first [rest [E [Hgt ->]]]]].
    split; [reflexivity|]. apply leak_severity_cases.
  - intros other Heq. now rewrite !detect_leaks_records, Heq.
  - intros Hnil. now rewrite detect_leaks_records, Hnil.
Qed.

(** The scenarios of the specification: night flow of 350 l/min gives one
    record of severity moderate with a daily loss of 504000 litres, and
    flow that is elevated at noon only gives none. *)
Lemma leak_detection_witness :
  (exists l,
      records (fst (detect_leaks night_350_day_50 300)) = [l] /\
      Leak.estimated_daily_loss_liters l == 504000 /\
      Leak.severity l = moderate) /\
  records (fst (detect_leaks noon_only 300)) = [].
Proof.
  split.
  - eexists. split; [vm_compute; reflexivity|].
    match goal with
    | |- context [Leak.severity ?l] =>
        assert (Hl : In l (records (fst (detect_leaks night_350_day_50 300))))
          by (vm_compute; left; reflexivity);
        destruct (proj1 (proj2 (proj2 (leak_detection night_350_day_50 300))) l Hl)
          as [Hd [_ [Hs _]]]
    end.
    split; [rewrite Hd; vm_compute; reflexivity|].
    apply Hs. vm_compute. discriminate.
  - apply (proj2 (proj2 (proj2 (proj2 (leak_detection noon_only 300))))).
    reflexivity.
Defined.

(** ** Bursts *)

Lemma insert_by_timestamp_perm (r : PressureReading.t) (l : list PressureReading.t) :
  Permutation (r :: l) (insert_by_timestamp r l).
Proof.
  induction l as [|x l IH]; simpl; [reflexivity|].
  destruct (_ <=? _)%Z; [reflexivity|].
  rewrite perm_swap. now apply perm_skip.
Qed.

Lemma sort_values_timestamp_perm (l : list PressureReading.t) :
  Permutation l (sort_values_timestamp l).
Proof.
  induction l as [|x l IH]; simpl; [reflexivity|].
  rewrite <- insert_by_timestamp_perm. now apply perm_skip.
Qed.

Lemma insert_by_timestamp_sorted (r : PressureReading.t) (l : list PressureReading.t) :
  Sorted timestamp_le l -> Sorted timestamp_le (insert_by_timestamp r l).
Proof.
  induction 1 as [|x l Hs IH Hhd]; simpl; [repeat constructor|].
  destruct (Z.leb_spec (PressureReading.timestamp r) (PressureReading.timestamp x)).
  - repeat constructor; assumption.
  - constructor; [exact IH|].
    destruct Hhd as [|y l Hxy]; simpl.
    + constructor. unfold timestamp_le. lia.
    + destruct (_ <=? _)%Z; constructor; unfold timestamp_le in *; lia.
Qed.

Lemma sort_values_timestamp_sorted (l : list PressureReading.t) :
  StronglySorted timestamp_le (sort_values_timestamp l).
Proof.
  apply Sorted_StronglySorted.
  - intros a b c. unfold timestamp_le. lia.
  - induction l as [|x l IH]; simpl; [constructor|].
    now apply insert_by_timestamp_sorted.
Qed.

(** The rows that pass the filter on [diff] are the neighbours whose change
    is below minus the threshold. *)
Lemma sudden_drops_pairs (t : Q) (l : list PressureReading.t)
    (prev : option PressureReading.t) :
  flat_map (fun rc : PressureReading.t * option Q =>
              match snd rc with
              | Some c => [burst_record (fst rc) c]
              | None => []
              end)
    (filter (fun rc => is_sudden_drop t (snd rc))
       (combine l (diff_from (option_map PressureReading.pressure_psi prev)
                             (map PressureReading.pressure_psi l))))
  = map burst_of_pair
      (filter (is_sudden_drop_pair t)
         (match prev with
          | None => consecutive l
          | Some x => consecutive (x :: l)
          end)).
Proof.
  revert prev. induction l as [|a l IH]; intros prev.
  - destruct prev; reflexivity.
  - cbn [map diff_from combine filter].
    specialize (IH (Some a)). cbn [option_map] in IH.
    destruct prev as [x|]; cbn [option_map snd is_sudden_drop].
    + change (consecutive (x :: a :: l)) with ((x, a) :: consecutive (a :: l)).
      cbn [filter]. unfold is_sudden_drop_pair at 1, pressure_delta at 1. cbn [fst snd].
      destruct (Qltb _ _); cbn [flat_map map app snd fst]; now rewrite IH.
    + exact IH.
Qed.

Lemma sensor_bursts_pairs (t : Q) (df : list PressureReading.t) (sensor : string) :
  sensor_bursts t df sensor =
  map burst_of_pair (filter (is_sudden_drop_pair t) (consecutive (sensor_rows df sensor))).
Proof.
  unfold sensor_bursts, diff. cbv zeta.
  exact (sudden_drops_pairs t (sensor_rows df sensor) None).
Qed.

(** C5, as stated, fails: the stored drop is not always the magnitude of
    the difference.  On [drop_of_25_004] the only pair of neighbours is
    (60.004, 35); its difference is -25.004, and the record stores a drop
    of 25.0 (with severity critical). *)
Lemma burst_drop_not_exact :
  ~ (forall self t b,
        In b (records (fst (detect_burst_events self t))) ->
        exists prev cur,
          In (prev, cur)
             (consecutive (sensor_rows (pressure_df self) (Burst.sensor_id b))) /\
          Burst.pressure_drop b ==
          Qabs (PressureReading.pressure_psi cur - PressureReading.pressure_psi prev)).
Proof.
  intros H.
  destruct (H drop_of_25_004 15 _ (or_introl eq_refl)) as [prev [cur [Hin Hdrop]]].
  vm_compute in Hin. destruct Hin as [Heq|[]].
  inversion Heq; subst prev cur. vm_compute in Hdrop. discriminate Hdrop.
Qed.

(** C5, amended: the readings of a sensor are scanned in ascending order of
    timestamp, and a record is emitted exactly at the pairs of neighbours
    whose difference is strictly below minus the threshold, in that order;
    it stores, each rounded to two decimals, the current value minus the
    difference as pressure-before, the current value as pressure-after and
    the magnitude of the difference as drop; its severity is critical iff
    the magnitude of the difference, before rounding, is strictly greater
    than 25, and high otherwise. *)
Theorem burst_detection (self : AnomalyDetector) (t : Q) :
  let df := pressure_df self in
  records (fst (detect_burst_events self t)) =
    flat_map (fun sensor =>
                map burst_of_pair
                    (filter (is_sudden_drop_pair t) (consecutive (sensor_rows df sensor))))
             (unique (map PressureReading.sensor_id df)) /\
  (forall sensor,
      StronglySorted timestamp_le (sensor_rows df sensor) /\
      Permutation
        (filter (fun r => String.eqb (PressureReading.sensor_id r) sensor) df)
        (sensor_rows df sensor)) /\
  (forall prev cur,
      let d := PressureReading.pressure_psi cur - PressureReading.pressure_psi prev in
      let b := burst_of_pair (prev, cur) in
      (is_sudden_drop_pair t (prev, cur) = true <-> d < - t) /\
      Burst.timestamp b = PressureReading.timestamp cur /\
      Burst.pressure_before b = round (PressureReading.pressure_psi cur - d) 2 /\
      Burst.pressure_after b = round (PressureReading.pressure_psi cur) 2 /\
      Burst.pressure_drop b = round (Qabs d) 2 /\
      (Burst.severity b = critical <-> 25 < Qabs d) /\
      (Burst.severity b = high <-> ~ 25 < Qabs d)).
Proof.
  cbv zeta. repeat apply conj.
  - unfold detect_burst_events. cbn [fst]. rewrite records_pd_DataFrame.
    apply flat_map_ext. intros sensor. apply sensor_bursts_pairs.
  - intros sensor. split.
    + apply sort_values_timestamp_sorted.
    + apply sort_values_timestamp_perm.
  - intros prev cur. unfold is_sudden_drop_pair, burst_of_pair, pressure_delta.
    cbn [fst snd burst_record Burst.timestamp Burst.pressure_before Burst.pressure_after
         Burst.pressure_drop Burst.severity].
    rewrite <- (Qltb_lt 25).
    repeat split; try apply Qltb_lt; try (destruct (Qltb 25 _); congruence).
Qed.

(** The scenario of the specification: readings 60, 60, 35 give exactly one
    record, with drop 25 and severity high. *)
Lemma burst_detection_witness :
  exists b,
    records (fst (detect_burst_events readings_60_60_35 15)) = [b] /\
    Burst.pressure_before b == 60 /\
    Burst.pressure_after b == 35 /\
    Burst.pressure_drop b == 25 /\
    Burst.severity b = high.
Proof.
  eexists. split.
  - rewrite (proj1 (burst_detection readings_60_60_35 15)). vm_compute. reflexivity.
  - vm_compute. repeat split.
Defined.

(** *** Order of the input *)

Lemma insert_by_timestamp_comm (a b : PressureReading.t) (l : list PressureReading.t) :
  PressureReading.timestamp a <> PressureReading.timestamp b ->
  insert_by_timestamp a (insert_by_timestamp b l) =
  insert_by_timestamp b (insert_by_timestamp a l).
Proof.
  intros Hne. induction l as [|x l IH]; simpl.
  - destruct (Z.leb_spec (PressureReading.timestamp a) (PressureReading.timestamp b)),
             (Z.leb_spec (PressureReading.timestamp b) (PressureReading.timestamp a));
      try reflexivity; lia.
  - destruct (Z.leb_spec (PressureReading.timestamp b) (PressureReading.timestamp x)) as [Hb|Hb],
             (Z.leb_spec (PressureReading.timestamp a) (PressureReading.timestamp x)) as [Ha|Ha];
      simpl;
      repeat match goal with
        | |- context [(?u <=? ?v)%Z] => destruct (Z.leb_spec u v)
        end;
      try reflexivity; try lia.
    now rewrite IH.
Qed.

(** Rows with distinct timestamps are sorted into the same list whatever
    their order. *)
Lemma sort_values_timestamp_order (l1 l2 : list PressureReading.t) :
  Permutation l1 l2 ->
  NoDup (map PressureReading.timestamp l1) ->
  sort_values_timestamp l1 = sort_values_timestamp l2.
Proof.
  induction 1 as [|x l1 l2 Hp IH|x y l|l1 l2 l3 Hp1 IH1 Hp2 IH2]; intros Hnd.
  - reflexivity.
  - simpl. rewrite IH; [reflexivity|]. now inversion Hnd.
  - simpl. apply insert_by_timestamp_comm.
    inversion Hnd as [|? ? Hnotin _]; subst. intros Heq. apply Hnotin. left. auto.
  - rewrite IH1 by exact Hnd. apply IH2.
    eapply Permutation_NoDup; [|exact Hnd]. now apply Permutation_map.
Qed.

Lemma Permutation_filter {A : Type} (f : A -> bool) (l1 l2 : list A) :
  Permutation l1 l2 -> Permutation (filter f l1) (filter f l2).
Proof.
  induction 1 as [|x l1 l2 Hp IH|x y l|l1 l2 l3 Hp1 IH1 Hp2 IH2]; simpl.
  - constructor.
  - destruct (f x); [now apply perm_skip|exact IH].
  - destruct (f x), (f y); try reflexivity. apply perm_swap.
  - now transitivity (filter f l2).
Qed.

Lemma NoDup_map_filter {A B : Type} (g : A -> B) (f : A -> bool) (l : list A) :
  NoDup (map g l) -> NoDup (map g (filter f l)).
Proof.
  induction l as [|x l IH]; simpl; [auto|].
  intros Hnd. inversion Hnd as [|? ? Hnotin Hnd']; subst.
  destruct (f x); simpl; [|auto].
  constructor; [|auto].
  intros Hin. apply Hnotin. apply in_map_iff in Hin as [y [Hy Hin]].
  apply filter_In in Hin as [Hin _]. rewrite <- Hy. now apply in_map.
Qed.

(** C10, as stated, fails: when two readings of a sensor carry the same
    timestamp, the sort keeps them in the order of the input, and the
    records depend on it.  With readings 50 (at 0 s), 60 and 35 (both at
    900 s) the sensor drops from 60 to 35 and one record is emitted; with
    the last two exchanged it drops from 50 to 35, which is not below -15,
    and nothing is emitted.  (The two inputs have the same column of
    timestamps, so a sort by timestamp moves their rows alike, and the tied
    rows come out in opposite orders whatever the sort does with ties.) *)
Lemma burst_detection_depends_on_order :
  ~ (forall df1 df2 flow t,
        Permutation df1 df2 ->
        map PressureReading.sensor_id df1 = map PressureReading.sensor_id df2 ->
        fst (detect_burst_events (mkDetector df1 flow) t) =
        fst (detect_burst_events (mkDetector df2 flow) t)).
Proof.
  intros H.
  specialize (H tied_timestamps_a tied_timestamps_b no_flow 15).
  assert (Hp : Permutation tied_timestamps_a tied_timestamps_b)
    by (apply perm_skip, perm_swap).
  specialize (H Hp eq_refl). vm_compute in H. discriminate H.
Qed.

(** C10, amended: when the readings of each sensor carry pairwise distinct
    timestamps, reordering the readings of the sensors (a permutation of
    the rows that leaves the sensor of every position as it is) gives
    identical burst records. *)
Theorem burst_detection_order_invariant (df1 df2 : list PressureReading.t)
    (flow : FlowFrame) (t : Q) :
  Permutation df1 df2 ->
  map PressureReading.sensor_id df1 = map PressureReading.sensor_id df2 ->
  (forall sensor,
      NoDup (map PressureReading.timestamp
                 (filter (fun r => String.eqb (PressureReading.sensor_id r) sensor) df1))) ->
  fst (detect_burst_events (mkDetector df1 flow) t) =
  fst (detect_burst_events (mkDetector df2 flow) t).
Proof.
  intros Hperm Hsensors Hdistinct.
  unfold detect_burst_events. cbn [fst pressure_df]. rewrite <- Hsensors.
  f_equal. apply flat_map_ext. intros sensor.
  unfold sensor_bursts. cbv zeta.
  rewrite (sort_values_timestamp_order
             (filter (fun r => String.eqb (PressureReading.sensor_id r) sensor) df1)
             (filter (fun r => String.eqb (PressureReading.sensor_id r) sensor) df2)).
  - reflexivity.
  - now apply Permutation_filter.
  - apply Hdistinct.
Qed.

Lemma burst_detection_order_invariant_witness :
  fst (detect_burst_events (mkDetector (pressure_df readings_60_60_35) no_flow) 15) =
  fst (detect_burst_events (mkDetector readings_35_60_60 no_flow) 15).
Proof.
  apply burst_detection_order_invariant.
  - change (Permutation (rev readings_35_60_60) readings_35_60_60).
    symmetry. apply Permutation_rev.
  - reflexivity.
  - intros sensor. apply NoDup_map_filter. simpl.
    repeat (constructor; [simpl; lia|]). constructor.
Defined.

(** ** The reading collections across a detection *)

(** C9, as stated, fails: leak detection (and flow-outlier detection)
    assigns the ['hour'] column of the stored flow collection.  On
    [night_leak] the flow frame has no such column before the call and has
    it afterwards. *)
Lemma detect_leaks_changes_flow_df :
  ~ (forall self t,
        snd (detect_pressure_anomalies self t) = self /\
        snd (detect_flow_anomalies self t) = self /\
        snd (detect_leaks self t) = self /\
        snd (detect_burst_events self t) = self).
Proof.
  intros H. destruct (H night_leak 300) as [_ [_ [Hleaks _]]].
  apply (f_equal (fun d => hour_column (flow_df d))) in Hleaks.
  vm_compute in Hleaks. discriminate Hleaks.
Qed.

(** C9, amended: the pressure-outlier and the burst detector leave both
    reading collections as they are.  The flow-outlier and the leak
    detector leave the pressure collection and the rows of the flow
    collection as they are, and set the ['hour'] column of the stored flow
    collection to the hour of each row's timestamp; setting it again changes
    nothing, and the records do not depend on what the column held. *)
Theorem detectors_frame (self : AnomalyDetector) (t : Q) :
  snd (detect_pressure_anomalies self t) = self /\
  snd (detect_burst_events self t) = self /\
  snd (detect_flow_anomalies self t) = assign_hour self /\
  snd (detect_leaks self t) = assign_hour self /\
  pressure_df (assign_hour self) = pressure_df self /\
  flow_rows (flow_df (assign_hour self)) = flow_rows (flow_df self) /\
  hour_column (flow_df (assign_hour self)) =
    Some (map (fun r => hour_of (FlowReading.timestamp r)) (flow_rows (flow_df self))) /\
  assign_hour (assign_hour self) = assign_hour self /\
  fst (detect_flow_anomalies (assign_hour self) t) = fst (detect_flow_anomalies self t) /\
  fst (detect_leaks (assign_hour self) t) = fst (detect_leaks self t).
Proof.
  repeat split.
Qed.

(** ** Summary *)

Lemma len_critical_no_column {R : Type} (keys : list string) (sev : R -> severity) :
  len_critical (pd_DataFrame keys []) sev = KeyError "severity".
Proof. reflexivity. Qed.

(** The summary raises whenever no pressure outlier is found. *)
Lemma get_anomaly_summary_no_pressure_anomaly (self : AnomalyDetector) :
  records (fst (detect_pressure_anomalies self 2.5)) = [] ->
  fst (get_anomaly_summary self) = KeyError "severity".
Proof.
  intros H. unfold get_anomaly_summary, detect_pressure_anomalies in *.
  cbn [fst] in H. rewrite records_pd_DataFrame in H. rewrite H. reflexivity.
Qed.

(** C1 (code_bug): on [constant_pressure] the pressure readings of the only
    zone are constant, so the pressure detector omits the zone and returns
    a frame without columns; [get_anomaly_summary] then raises
    [KeyError: 'severity'] instead of returning the counts, although the
    leak detector found one leak. *)
Theorem get_anomaly_summary_raises_on_empty_output :
  records (fst (detect_pressure_anomalies constant_pressure 2.5)) = [] /\
  len (fst (detect_leaks constant_pressure 300)) = 1%nat /\
  fst (get_anomaly_summary constant_pressure) = KeyError "severity".
Proof.
  vm_compute. repeat split.
Qed.

(** ** Flow statistics *)

Lemma in_insert_key (k x : string) (l : list string) :
  In x (insert_key k l) <-> x = k \/ In x l.
Proof.
  induction l as [|a l IH]; simpl; [intuition|].
  destruct (String.leb k a); simpl; [intuition|]. rewrite IH. intuition.
Qed.

Lemma in_group_keys (x : string) (column : list string) :
  In x (group_keys column) <-> In x column.
Proof.
  unfold group_keys. rewrite <- (in_unique x column).
  induction (unique column) as [|a l IH]; simpl; [tauto|].
  rewrite in_insert_key, IH. intuition.
Qed.

Lemma in_get_flow_statistics (self : WaterAnalytics) (s : FlowStats.t) :
  In s (get_flow_statistics self) <->
  exists first rest,
    filter (fun r => String.eqb (FlowReading.zone_name r) (FlowStats.zone_name s))
           (a_flow_df self) = first :: rest /\
    flow_stats_group (a_flow_df self) (FlowStats.zone_name s) = [s].
Proof.
  unfold get_flow_statistics. rewrite in_flat_map. split.
  - intros [name [_ Hs]]. unfold flow_stats_group in Hs.
    destruct (filter _ _) as [|first rest] eqn:E; [contradiction|].
    destruct Hs as [<-|[]]. cbn [FlowStats.zone_name].
    exists first, rest. split; [exact E|]. unfold flow_stats_group. now rewrite E.
  - intros [first [rest [E Hs]]]. exists (FlowStats.zone_name s). split.
    + apply in_group_keys.
      assert (Hin : In first (filter (fun r => String.eqb (FlowReading.zone_name r)
                                                 (FlowStats.zone_name s))
                                (a_flow_df self))) by (rewrite E; now left).
      apply filter_In in Hin as [Hin Hz]. apply String.eqb_eq in Hz. rewrite <- Hz.
      now apply in_map.
    + rewrite Hs. now left.
Qed.





(** ** Determinism and the wall clock *)

(** C2, as stated, fails: [get_low_pressure_zones] reads the wall clock.
    On [one_low_reading] a run at time 0 reports the reading taken at time
    0, and a run eight days later reports nothing. *)
Lemma low_pressure_zones_depend_on_clock :
  ~ (forall op system now1 now2, run op system now1 = run op system now2).
Proof.
  intros H. specialize (H (op_get_low_pressure_zones 35) one_low_reading 0%Z (days 8)).
  vm_compute in H. discriminate H.
Qed.

Lemma get_low_pressure_zones_same_window (self : WaterAnalytics) (now1 now2 : Z) (t : Q) :
  (forall r, In r (a_pressure_df self) ->
     (now1 - days 7 <=? PressureReading.timestamp r)%Z =
     (now2 - days 7 <=? PressureReading.timestamp r)%Z) ->
  get_low_pressure_zones self now1 t = get_low_pressure_zones self now2 t.
Proof.
  intros H. unfold get_low_pressure_zones.
  now rewrite (filter_ext_in _ _ _ H).
Qed.

(** C2, amended: for a fixed snapshot, an operation that does not read the
    wall clock (the four detectors, the summary, the flow statistics)
    returns the same result at any two times; [get_low_pressure_zones] and
    the recommendations read the clock, and two runs of them return the
    same result when the two trailing 7-day windows hold the same readings
    (in particular when both runs read the same time). *)
Theorem operations_deterministic (op : operation) (system : SmartWaterManagementSystem)
    (now1 now2 : Z) :
  (reads_clock op = true ->
   forall r, In r (a_pressure_df (analytics system)) ->
     (now1 - days 7 <=? PressureReading.timestamp r)%Z =
     (now2 - days 7 <=? PressureReading.timestamp r)%Z) ->
  run op system now1 = run op system now2.
Proof.
  intros H. destruct op; cbn [run]; try reflexivity.
  - f_equal. apply get_low_pressure_zones_same_window. now apply H.
  - f_equal. unfold get_recommendations.
    now rewrite (get_low_pressure_zones_same_window _ now1 now2 35 (H eq_refl)).
Qed.

Lemma operations_deterministic_witness :
  run (op_get_low_pressure_zones 35) one_low_reading 0 =
  run (op_get_low_pressure_zones 35) one_low_reading 3600 /\
  run op_get_recommendations one_low_reading 0 =
  run op_get_recommendations one_low_reading 3600 /\
  run (op_detect_leaks 300) one_low_reading 0 =
  run (op_detect_leaks 300) one_low_reading (days 8).
Proof.
  split; [|split]; apply operations_deterministic.
  - intros _ r [<-|[]]. reflexivity.
  - intros _ r [<-|[]]. reflexivity.
  - discriminate.
Defined.

(** * Further properties *)

(** ** More on rounding *)

Lemma rint_le (x y : Q) : x <= y -> (rint x <= rint y)%Z.
Proof.
  intros Hxy. unfold rint.
  pose proof (Qfloor_le x) as Hx1. pose proof (Qlt_floor x) as Hx2.
  pose proof (Qfloor_le y) as Hy1. pose proof (Qlt_floor y) as Hy2.
  pose proof (Qfloor_resp_le x y Hxy) as Hf.
  rewrite inject_Z_plus in Hx2, Hy2. change (inject_Z 1) with 1 in Hx2, Hy2.
  destruct (Z.eq_dec (Qfloor x) (Qfloor y)) as [Heq|Hne].
  - rewrite Heq in *.
    destruct (Qcompare (x - inject_Z (Qfloor y)) (1 # 2)) eqn:Ex; order_of Ex;
      destruct (Qcompare (y - inject_Z (Qfloor y)) (1 # 2)) eqn:Ey; order_of Ey;
      try destruct (Z.even (Qfloor y)); try lia; exfalso; lra.
  - assert (Hlt : (Qfloor x + 1 <= Qfloor y)%Z) by lia.
    destruct (Qcompare (x - inject_Z (Qfloor x)) (1 # 2));
      destruct (Qcompare (y - inject_Z (Qfloor y)) (1 # 2));
      try destruct (Z.even (Qfloor x)); try destruct (Z.even (Qfloor y)); lia.
Qed.

Lemma round_le (x y : Q) (k : nat) : x <= y -> round x k <= round y k.
Proof.
  intros Hxy. pose proof (pow10_pos k) as Hp. unfold round.
  apply Qmult_le_compat_r.
  - rewrite <- Zle_Qle. apply rint_le. apply Qmult_le_compat_r; lra.
  - apply Qlt_le_weak. now apply Qinv_lt_0_compat.
Qed.

Lemma rint_inject_Z (n : Z) : rint (inject_Z n) = n.
Proof.
  unfold rint. rewrite Qfloor_Z.
  destruct (Qcompare _ _) eqn:E; order_of E; try reflexivity; exfalso;
    revert E; generalize (inject_Z n); intros q E; lra.
Qed.

(** A number with at most [k] decimals is left as it is. *)
Lemma round_decimal (n : Z) (k : nat) : round (inject_Z n / pow10 k) k == inject_Z n / pow10 k.
Proof.
  pose proof (pow10_pos k) as Hp. unfold round.
  assert (E : inject_Z n / pow10 k * pow10 k == inject_Z n) by (field; lra).
  assert (Hr : rint (inject_Z n / pow10 k * pow10 k) = n).
  { rewrite <- (rint_inject_Z n) at 2. apply Z.le_antisymm; apply rint_le; rewrite E; lra. }
  rewrite Hr. reflexivity.
Qed.

Lemma round_inject_Z (n : Z) (k : nat) : round (inject_Z n) k == inject_Z n.
Proof.
  pose proof (pow10_pos k) as Hp.
  assert (E : inject_Z n == inject_Z (n * 10 ^ Z.of_nat k) / pow10 k).
  { unfold pow10 in *. rewrite inject_Z_mult. field. lra. }
  assert (Hle : forall a b, a == b -> round a k == round b k).
  { intros a b Hab. apply Qle_antisym; apply round_le; rewrite Hab; lra. }
  rewrite (Hle _ _ E), round_decimal. symmetry. exact E.
Qed.

(** ** Deviations from the mean *)

Lemma Qlen_cons (a : Q) (l : list Q) : Qlen (a :: l) == Qlen l + 1.
Proof.
  unfold Qlen. cbn [List.length]. rewrite Nat2Z.inj_succ, <- Z.add_1_r, inject_Z_plus.
  reflexivity.
Qed.

Lemma Qlen_app (l1 l2 : list Q) : Qlen (l1 ++ l2) == Qlen l1 + Qlen l2.
Proof.
  unfold Qlen. rewrite length_app, Nat2Z.inj_add, inject_Z_plus. reflexivity.
Qed.

Lemma Qlen_nonneg (l : list Q) : 0 <= Qlen l.
Proof. unfold Qlen. change 0 with (inject_Z 0). rewrite <- Zle_Qle. lia. Qed.

Lemma Qsum_app (l1 l2 : list Q) : Qsum (l1 ++ l2) == Qsum l1 + Qsum l2.
Proof.
  induction l1 as [|a l1 IH]; simpl; [ring|]. rewrite IH. ring.
Qed.

Lemma sq_dev_expand (a : Q) (l : list Q) :
  sq_dev a l == Qsum (squares l) - 2 * a * Qsum l + Qlen l * (a * a).
Proof.
  unfold sq_dev, squares. induction l as [|x l IH].
  - simpl. unfold Qlen. simpl. ring.
  - cbn [map Qsum]. rewrite IH, Qlen_cons. ring.
Qed.

(** The square of a sum is at most the number of terms times the sum of
    the squares. *)
Lemma Qsum_square_le (l : list Q) : Qsum l * Qsum l <= Qlen l * Qsum (squares l).
Proof.
  induction l as [|a l IH].
  - simpl. unfold Qlen. simpl. lra.
  - pose proof (sq_dev_nonneg a l) as Hd. rewrite sq_dev_expand in Hd.
    unfold squares in *. cbn [map Qsum]. rewrite Qlen_cons.
    set (s := Qsum l) in *. set (q := Qsum (map (fun x => x * x) l)) in *.
    set (n := Qlen l) in *.
    assert (E : (n + 1) * (a * a + q) - (a + s) * (a + s)
                == (n * q - s * s) + (q - 2 * a * s + n * (a * a))) by ring.
    lra.
Qed.

Lemma Qsum_deviations (m : Q) (l : list Q) :
  Qsum (map (fun x => x - m) l) == Qsum l - Qlen l * m.
Proof.
  induction l as [|a l IH].
  - simpl. unfold Qlen. simpl. ring.
  - cbn [map Qsum]. rewrite IH, Qlen_cons. ring.
Qed.

Lemma Qsum_deviations_mean (l : list Q) :
  l <> [] -> Qsum (map (fun x => x - mean l) l) == 0.
Proof.
  intros Hne. rewrite Qsum_deviations. unfold mean.
  pose proof (Qlen_pos l Hne). field. lra.
Qed.

Lemma sq_dev_squares (m : Q) (l : list Q) :
  sq_dev m l == Qsum (squares (map (fun x => x - m) l)).
Proof. unfold sq_dev, squares. now rewrite map_map. Qed.

(** No value is further from the mean than the others allow: with [n]
    values, [n] times the squared deviation of one of them is at most [n - 1]
    times the sum of all the squared deviations. *)
Lemma squared_deviation_bound (x : Q) (l : list Q) :
  In x l ->
  Qlen l * ((x - mean l) * (x - mean l)) <= (Qlen l - 1) * sq_dev (mean l) l.
Proof.
  intros Hin.
  assert (Hne : l <> []) by (intros ->; contradiction).
  pose proof (Qsum_deviations_mean l Hne) as Hzero.
  rewrite sq_dev_squares.
  destruct (in_split x l Hin) as [l1 [l2 Hl]].
  set (m := mean l) in *. set (d := x - m).
  assert (Hmap : map (fun y => y - m) l
                 = map (fun y => y - m) l1 ++ d :: map (fun y => y - m) l2)
    by (rewrite Hl at 1; now rewrite map_app).
  assert (Hlen : Qlen l == Qlen (map (fun y => y - m) l1 ++ map (fun y => y - m) l2) + 1).
  { rewrite Hl at 1. rewrite !Qlen_app, Qlen_cons. unfold Qlen. rewrite !length_map. ring. }
  rewrite Hmap in Hzero |- *.
  set (o1 := map (fun y => y - m) l1) in *. set (o2 := map (fun y => y - m) l2) in *.
  pose proof (Qsum_square_le (o1 ++ o2)) as Hcs.
  pose proof (Qlen_nonneg (o1 ++ o2)) as Hn.
  unfold squares in *. rewrite map_app in Hcs |- *. cbn [map] in *.
  rewrite !Qsum_app in *. cbn [Qsum] in *. rewrite Hlen.
  set (n := Qlen (o1 ++ o2)) in *.
  set (s1 := Qsum o1) in *. set (s2 := Qsum o2) in *.
  set (q1 := Qsum (map (fun x => x * x) o1)) in *.
  set (q2 := Qsum (map (fun x => x * x) o2)) in *.
  assert (Hs : s1 + s2 == - d) by lra.
  assert (Hsq : (s1 + s2) * (s1 + s2) == d * d) by (rewrite Hs; ring).
  rewrite Hsq in Hcs.
  assert (E : (n + 1 - 1) * (q1 + (d * d + q2)) - (n + 1) * (d * d)
              == n * (q1 + q2) - d * d) by ring.
  lra.
Qed.

(** With [n] values, no score exceeds [(n - 1) / sqrt n]: a threshold at or
    above that bound selects nothing. *)
Lemma zscore_bounded (x : Q) (l : list Q) (t : Q) :
  In x l -> 0 <= t ->
  (Qlen l - 1) * (Qlen l - 1) <= t * t * Qlen l ->
  zscore_gtb (abs_z x (mean l) (std l)) t = false.
Proof.
  intros Hin Ht Hbound.
  pose proof (squared_deviation_bound x l Hin) as Hdev.
  unfold std. destruct (Nat.leb_spec (List.length l) 1) as [|Hlen]; [reflexivity|].
  assert (Hn : 1 < Qlen l).
  { unfold Qlen. change 1 with (inject_Z 1). rewrite <- Zlt_Qlt. lia. }
  set (n := Qlen l) in *. set (m := mean l) in *. set (S := sq_dev m l) in *.
  set (d := x - m) in *.
  assert (HS : S == S / (n - 1) * (n - 1)) by (field; lra).
  pose proof (Qsquare_nonneg d) as Hd.
  unfold abs_z. fold d. destruct (Qeq_bool (S / (n - 1)) 0) eqn:Hz.
  - apply Qeq_bool_iff in Hz. rewrite Hz in HS.
    assert (Hnd : n * (d * d) <= 0) by (rewrite HS in Hdev; lra).
    assert (Hdd : d * d == 0).
    { apply Qle_antisym; [|exact Hd].
      apply Qmult_le_l with (z := n); [lra|]. lra. }
    apply Qmult_integral in Hdd.
    assert (Hd0 : d == 0) by tauto.
    apply Qeq_bool_iff in Hd0. now rewrite Hd0.
  - apply Bool.not_true_iff_false. rewrite zscore_gtb_root. intros [Hneg|Hgt]; [lra|].
    set (v := S / (n - 1)) in *.
    assert (Hv0 : 0 <= v).
    { unfold v, S. apply Qle_shift_div_l; [lra|]. pose proof (sq_dev_nonneg m l). lra. }
    assert (Hvne : ~ v == 0).
    { intros Hv. apply Qeq_bool_iff in Hv. congruence. }
    assert (Hv : 0 < v) by lra.
    assert (H1 : n * (d * d) <= (n - 1) * (n - 1) * v).
    { rewrite HS in Hdev. lra. }
    assert (H2 : (n - 1) * (n - 1) * v <= t * t * n * v).
    { apply Qmult_le_compat_r; lra. }
    assert (H3 : n * (d * d) <= n * (t * t * v)) by lra.
    apply Qmult_le_l in H3; [|lra].
    assert (H4 : d * d / v <= t * t).
    { apply Qle_shift_div_r; lra. }
    lra.
Qed.

(** The bound for at most 8 values and a threshold of at least 2.5. *)
Lemma bound_8 (l : list Q) (t : Q) :
  l <> [] -> (List.length l <= 8)%nat -> 2.5 <= t ->
  (Qlen l - 1) * (Qlen l - 1) <= t * t * Qlen l.
Proof.
  intros Hne Hlen Ht.
  assert (Hpos : (1 <= List.length l)%nat) by (destruct l; simpl; [congruence|lia]).
  assert (Hsq : 6.25 <= t * t).
  { apply Qle_trans with (2.5 * t); [lra|]. apply Qmult_le_compat_r; lra. }
  assert (H : (Qlen l - 1) * (Qlen l - 1) <= 6.25 * Qlen l).
  { unfold Qlen.
    assert (Hc : (List.length l = 1 \/ List.length l = 2 \/
                  List.length l = 3 \/ List.length l = 4 \/ List.length l = 5 \/
                  List.length l = 6 \/ List.length l = 7 \/ List.length l = 8)%nat) by lia.
    repeat (destruct Hc as [->|Hc]; [vm_compute; discriminate|]).
    rewrite Hc. vm_compute. discriminate. }
  pose proof (Qlen_nonneg l).
  apply Qle_trans with (6.25 * Qlen l); [exact H|].
  apply Qmult_le_compat_r; lra.
Qed.

Lemma bound_5 (l : list Q) (t : Q) :
  l <> [] -> (List.length l <= 5)%nat -> 2 <= t ->
  (Qlen l - 1) * (Qlen l - 1) <= t * t * Qlen l.
Proof.
  intros Hne Hlen Ht.
  assert (Hpos : (1 <= List.length l)%nat) by (destruct l; simpl; [congruence|lia]).
  assert (Hsq : 4 <= t * t).
  { apply Qle_trans with (2 * t); [lra|]. apply Qmult_le_compat_r; lra. }
  assert (H : (Qlen l - 1) * (Qlen l - 1) <= 4 * Qlen l).
  { unfold Qlen.
    assert (Hc : (List.length l = 1 \/ List.length l = 2 \/
                  List.length l = 3 \/ List.length l = 4 \/ List.length l = 5)%nat) by lia.
    repeat (destruct Hc as [->|Hc]; [vm_compute; discriminate|]).
    rewrite Hc. vm_compute. discriminate. }
  pose proof (Qlen_nonneg l).
  apply Qle_trans with (4 * Qlen l); [exact H|].
  apply Qmult_le_compat_r; lra.
Qed.

(** X1.  At a threshold of 2.5 or more (the default), a zone with at most
    8 pressure readings gives no anomaly record, whatever the readings
    are: with [n] readings no score exceeds [(n - 1) / sqrt n], which is
    below 2.5 up to [n = 8]. *)
Theorem small_zone_has_no_pressure_anomaly (self : AnomalyDetector) (t : Q)
    (zone : string) :
  2.5 <= t ->
  (List.length (zone_pressures (pressure_df self) zone) <= 8)%nat ->
  forall a, In a (records (fst (detect_pressure_anomalies self t))) ->
            PressureAnomaly.zone_id a <> zone.
Proof.
  intros Ht Hlen a Ha Hz.
  apply in_detect_pressure_anomalies in Ha as [row [Hin [Hgt ->]]].
  cbn in Hz. rewrite Hz in Hgt.
  assert (Hx : In (PressureReading.pressure_psi row) (zone_pressures (pressure_df self) zone)).
  { unfold zone_pressures. apply in_map. apply filter_In. split; [exact Hin|].
    now apply String.eqb_eq. }
  rewrite zscore_bounded in Hgt; [discriminate|exact Hx|lra|].
  apply bound_8; [intros E; rewrite E in Hx; contradiction|exact Hlen|exact Ht].
Qed.

Lemma hour_of_range (t : Z) : In (hour_of t) range24.
Proof.
  unfold hour_of, range24.
  pose proof (Z.mod_pos_bound (t / 3600) 24 ltac:(lia)) as H.
  apply in_map_iff. exists (Z.to_nat ((t / 3600) mod 24)). split; [lia|].
  apply in_seq. lia.
Qed.

Lemma range24_bounds (h : Z) : In h range24 <-> (0 <= h < 24)%Z.
Proof.
  unfold range24. rewrite in_map_iff. split.
  - intros [n [<- Hn]]. apply in_seq in Hn. lia.
  - intros H. exists (Z.to_nat h). split; [lia|]. apply in_seq. lia.
Qed.

Lemma in_detect_flow_anomalies (self : AnomalyDetector) (t : Q) (a : FlowAnomaly.t) :
  In a (records (fst (detect_flow_anomalies self t))) <->
  exists row,
    let bucket := flow_bucket (flow_rows (flow_df self)) (FlowReading.zone_id row)
                              (hour_of (FlowReading.timestamp row)) in
    In row (flow_rows (flow_df self)) /\
    (5 <= List.length bucket)%nat /\
    sigma_is_zero (std bucket) = false /\
    zscore_gtb (abs_z (FlowReading.flow_rate_lpm row) (mean bucket) (std bucket)) t = true /\
    a = flow_anomaly_of (mean bucket) (std bucket) row.
Proof.
  unfold detect_flow_anomalies. cbn [fst]. rewrite records_pd_DataFrame.
  rewrite hour_rows_assign_hour, map_map. cbn [fst].
  set (rows := flow_rows (flow_df self)).
  split.
  - intros Ha. apply in_flat_map in Ha as [zone [_ Ha]].
    unfold zone_flow_anomalies in Ha. apply in_flat_map in Ha as [hour [_ Ha]].
    unfold bucket_flow_anomalies in Ha. rewrite bucket_values in Ha.
    assert (Hl : List.length (filter (fun rh : FlowReading.t * Z => (snd rh =? hour)%Z)
                   (filter (fun rh => String.eqb (FlowReading.zone_id (fst rh)) zone)
                      (map (fun r => (r, hour_of (FlowReading.timestamp r))) rows)))
                 = List.length (flow_bucket rows zone hour)).
    { rewrite <- bucket_values. now rewrite length_map. }
    rewrite Hl in Ha.
    destruct (Nat.ltb_spec (List.length (flow_bucket rows zone hour)) 5) as [|Hlen];
      [contradiction|].
    destruct (sigma_is_zero _) eqn:Hz; [contradiction|].
    apply in_map_iff in Ha as [[[r h] z] [<- Hin]].
    apply filter_In in Hin as [Hin Hgt].
    apply in_map_iff in Hin as [rh [Heq Hin]]. inversion Heq; subst; clear Heq.
    apply filter_In in Hin as [Hin Hh]. apply filter_In in Hin as [Hin Hzn].
    apply in_map_iff in Hin as [r' [Heq Hin]]. inversion Heq; subst r' h; clear Heq.
    cbn [fst snd] in *. apply Z.eqb_eq in Hh. apply String.eqb_eq in Hzn. subst zone hour.
    exists r. cbv zeta. repeat split; assumption.
  - intros [r [Hin [Hlen [Hz [Hgt ->]]]]]. cbv zeta in *.
    apply in_flat_map. exists (FlowReading.zone_id r). split.
    { apply in_unique. now apply in_map. }
    unfold zone_flow_anomalies. apply in_flat_map.
    exists (hour_of (FlowReading.timestamp r)). split; [apply hour_of_range|].
    unfold bucket_flow_anomalies. rewrite bucket_values.
    assert (Hl : List.length (filter (fun rh : FlowReading.t * Z =>
                                        (snd rh =? hour_of (FlowReading.timestamp r))%Z)
                   (filter (fun rh => String.eqb (FlowReading.zone_id (fst rh))
                                                 (FlowReading.zone_id r))
                      (map (fun r => (r, hour_of (FlowReading.timestamp r))) rows)))
                 = List.length (flow_bucket rows (FlowReading.zone_id r)
                                            (hour_of (FlowReading.timestamp r)))).
    { rewrite <- bucket_values. now rewrite length_map. }
    rewrite Hl.
    destruct (Nat.ltb_spec (List.length (flow_bucket rows (FlowReading.zone_id r)
                                           (hour_of (FlowReading.timestamp r)))) 5);
      [lia|].
    rewrite Hz. apply in_map_iff.
    eexists ((r, hour_of (FlowReading.timestamp r)), _). split; [reflexivity|].
    apply filter_In. split; [|exact Hgt].
    apply in_map_iff. exists (r, hour_of (FlowReading.timestamp r)). split; [reflexivity|].
    apply filter_In. split; [|apply Z.eqb_refl].
    apply filter_In. split; [|apply String.eqb_refl].
    apply in_map_iff. exists r. auto.
Qed.

(** ** Small samples *)

Lemma small_zone_has_no_pressure_anomaly_witness :
  List.length (zone_pressures (pressure_df eight_readings) "Z1") = 8%nat /\
  ~ (exists a,
        In a (records (fst (detect_pressure_anomalies eight_readings 2.5))) /\
        PressureAnomaly.zone_id a = "Z1"%string).
Proof.
  split; [reflexivity|]. intros [a [Ha Hz]].
  refine (small_zone_has_no_pressure_anomaly eight_readings 2.5 "Z1" _ _ a Ha Hz).
  - apply Qle_refl.
  - vm_compute. lia.
Defined.

(** X2.  At a threshold of 2 or more (the default is 2.0), every flow
    anomaly comes from a (zone, hour-of-day) bucket with at least 6
    observations: a bucket of exactly 5, which the length test lets
    through, can never give a record. *)
Theorem flow_anomaly_needs_six_observations (self : AnomalyDetector) (t : Q)
    (a : FlowAnomaly.t) :
  2 <= t ->
  In a (records (fst (detect_flow_anomalies self t))) ->
  (6 <= List.length (flow_bucket (flow_rows (flow_df self)) (FlowAnomaly.zone_id a)
                                 (hour_of (FlowAnomaly.timestamp a))))%nat.
Proof.
  intros Ht Ha.
  apply in_detect_flow_anomalies in Ha as [r [Hin [Hlen [_ [Hgt ->]]]]].
  cbv zeta in *. cbn [flow_anomaly_of FlowAnomaly.zone_id FlowAnomaly.timestamp].
  set (bucket := flow_bucket (flow_rows (flow_df self)) (FlowReading.zone_id r)
                             (hour_of (FlowReading.timestamp r))) in *.
  destruct (Nat.le_gt_cases 6 (List.length bucket)) as [|Hlt]; [assumption|].
  assert (Hx : In (FlowReading.flow_rate_lpm r) bucket).
  { unfold bucket, flow_bucket. apply in_map. apply filter_In. split; [exact Hin|].
    now rewrite String.eqb_refl, Z.eqb_refl. }
  rewrite zscore_bounded in Hgt; [discriminate|exact Hx|lra|].
  apply bound_5; [intros E; rewrite E in Hx; contradiction|lia|exact Ht].
Qed.

Lemma flow_anomaly_needs_six_observations_witness :
  records (fst (detect_flow_anomalies five_at_three 2)) = [] /\
  exists a,
    In a (records (fst (detect_flow_anomalies flow_outlier 2))) /\
    (6 <= List.length (flow_bucket (flow_rows (flow_df flow_outlier))
                                   (FlowAnomaly.zone_id a)
                                   (hour_of (FlowAnomaly.timestamp a))))%nat.
Proof.
  split; [vm_compute; reflexivity|].
  eexists. split; [vm_compute; left; reflexivity|].
  match goal with
  | |- context [FlowAnomaly.zone_id ?a] =>
      apply (flow_anomaly_needs_six_observations flow_outlier 2 a);
        [apply Qle_refl|vm_compute; left; reflexivity]
  end.
Defined.

(** ** Thresholds *)

Lemma subsequence_refl {A : Type} (l : list A) : subsequence l l.
Proof. induction l; constructor; assumption. Qed.

Lemma subsequence_nil_l {A : Type} (l : list A) : subsequence [] l.
Proof. induction l; constructor; assumption. Qed.

Lemma subsequence_app {A : Type} (l1 l2 k1 k2 : list A) :
  subsequence l1 l2 -> subsequence k1 k2 -> subsequence (l1 ++ k1) (l2 ++ k2).
Proof. induction 1; simpl; intros; try constructor; auto. Qed.

Lemma subsequence_map {A B : Type} (f : A -> B) (l1 l2 : list A) :
  subsequence l1 l2 -> subsequence (map f l1) (map f l2).
Proof. induction 1; simpl; constructor; assumption. Qed.

Lemma subsequence_filter {A : Type} (p q : A -> bool) (l : list A) :
  (forall x, In x l -> p x = true -> q x = true) ->
  subsequence (filter p l) (filter q l).
Proof.
  induction l as [|a l IH]; intros H; simpl; [constructor|].
  assert (IH' : subsequence (filter p l) (filter q l))
    by (apply IH; intros; apply H; [now right|assumption]).
  destruct (p a) eqn:Hp.
  - rewrite (H a (or_introl eq_refl) Hp). now constructor.
  - destruct (q a); [now constructor|assumption].
Qed.

Lemma subsequence_flat_map {A B : Type} (f g : A -> list B) (l : list A) :
  (forall x, In x l -> subsequence (f x) (g x)) ->
  subsequence (flat_map f l) (flat_map g l).
Proof.
  induction l as [|a l IH]; intros H; simpl; [constructor|].
  apply subsequence_app; [apply H; now left|].
  apply IH. intros; apply H; now right.
Qed.

Lemma subsequence_length {A : Type} (l1 l2 : list A) :
  subsequence l1 l2 -> (List.length l1 <= List.length l2)%nat.
Proof. induction 1; simpl; lia. Qed.

Lemma subsequence_incl {A : Type} (l1 l2 : list A) :
  subsequence l1 l2 -> incl l1 l2.
Proof.
  induction 1 as [|x l1 l2 _ IH|x l1 l2 _ IH]; intros y Hy.
  - exact Hy.
  - destruct Hy as [->|Hy]; [now left|right; now apply IH].
  - right. now apply IH.
Qed.

(** A score above a threshold is above every lower threshold. *)
Lemma zscore_gtb_le (z : zscore) (t1 t2 : Q) :
  t1 <= t2 -> zscore_gtb z t2 = true -> zscore_gtb z t1 = true.
Proof.
  intros Hle. destruct z as [| |sq]; try (intros; assumption || reflexivity).
  rewrite !zscore_gtb_root. intros [Hneg|Hgt]; [left; lra|].
  destruct (Qlt_le_dec t1 0) as [|H1]; [now left|right].
  assert (t1 * t1 <= t2 * t2).
  { apply Qle_trans with (t1 * t2).
    - rewrite (Qmult_comm t1 t2). apply Qmult_le_compat_r; assumption.
    - apply Qmult_le_compat_r; lra. }
  lra.
Qed.

(** X3.  Raising the threshold of the pressure-outlier or of the
    flow-outlier detector never adds a record: the records found at the
    higher threshold are the records found at the lower one with some left
    out, in the same order. *)
Theorem outliers_shrink_with_threshold (self : AnomalyDetector) (t1 t2 : Q) :
  t1 <= t2 ->
  subsequence (records (fst (detect_pressure_anomalies self t2)))
              (records (fst (detect_pressure_anomalies self t1))) /\
  subsequence (records (fst (detect_flow_anomalies self t2)))
              (records (fst (detect_flow_anomalies self t1))).
Proof.
  intros Hle. split.
  - unfold detect_pressure_anomalies. cbn [fst]. rewrite !records_pd_DataFrame.
    apply subsequence_flat_map. intros zone _. unfold zone_pressure_anomalies.
    apply subsequence_map, subsequence_filter.
    intros rz _. now apply zscore_gtb_le.
  - unfold detect_flow_anomalies. cbn [fst]. rewrite !records_pd_DataFrame.
    apply subsequence_flat_map. intros zone _. unfold zone_flow_anomalies.
    apply subsequence_flat_map. intros hour _. unfold bucket_flow_anomalies.
    destruct (_ <? 5)%nat; [constructor|].
    destruct (sigma_is_zero _); [constructor|].
    apply subsequence_map, subsequence_filter.
    intros rz _. now apply zscore_gtb_le.
Qed.

Lemma outliers_shrink_with_threshold_witness :
  subsequence (records (fst (detect_pressure_anomalies one_outlier 2.7)))
              (records (fst (detect_pressure_anomalies one_outlier 2.5))) /\
  (List.length (records (fst (detect_pressure_anomalies one_outlier 2.7))) = 0)%nat /\
  (List.length (records (fst (detect_pressure_anomalies one_outlier 2.5))) = 1)%nat.
Proof.
  split; [|split; reflexivity].
  apply (proj1 (outliers_shrink_with_threshold one_outlier 2.5 2.7 ltac:(discriminate))).
Defined.

(** X4.  Raising the threshold of the leak or of the burst detector never
    adds a record: the records found at the higher threshold are the
    records found at the lower one with some left out, in the same order. *)
Theorem leaks_and_bursts_shrink_with_threshold (self : AnomalyDetector) (t1 t2 : Q) :
  t1 <= t2 ->
  subsequence (records (fst (detect_leaks self t2)))
              (records (fst (detect_leaks self t1))) /\
  subsequence (records (fst (detect_burst_events self t2)))
              (records (fst (detect_burst_events self t1))).
Proof.
  intros Hle. split.
  - rewrite !detect_leaks_records. apply subsequence_flat_map. intros zone _.
    rewrite !zone_leak_rows. destruct (filter _ _); [constructor|].
    destruct (Qltb t2 _) eqn:H2; [|apply subsequence_nil_l].
    apply Qltb_lt in H2.
    assert (H1 : t1 < mean (night_flows (flow_rows (flow_df self)) zone)) by lra.
    apply Qltb_lt in H1. rewrite H1. apply subsequence_refl.
  - unfold detect_burst_events. cbn [fst]. rewrite !records_pd_DataFrame.
    apply subsequence_flat_map. intros sensor _. rewrite !sensor_bursts_pairs.
    apply subsequence_map, subsequence_filter.
    intros pc _. unfold is_sudden_drop_pair. rewrite !Qltb_lt. lra.
Qed.

Lemma leaks_and_bursts_shrink_with_threshold_witness :
  subsequence (records (fst (detect_burst_events readings_60_60_35 25)))
              (records (fst (detect_burst_events readings_60_60_35 15))) /\
  (List.length (records (fst (detect_burst_events readings_60_60_35 25))) = 0)%nat /\
  (List.length (records (fst (detect_burst_events readings_60_60_35 15))) = 1)%nat.
Proof.
  split; [|split; reflexivity].
  apply (proj2 (leaks_and_bursts_shrink_with_threshold readings_60_60_35 15 25
                  ltac:(discriminate))).
Defined.

(** ** Severity bands *)

Lemma classify_severity_low (z : zscore) :
  _classify_severity z = low <-> zscore_gtb z 2.5 = false.
Proof.
  unfold _classify_severity.
  destruct (zscore_gtb z 4) eqn:H4.
  - rewrite (zscore_gtb_le z 2.5 4 ltac:(discriminate) H4). split; discriminate.
  - destruct (zscore_gtb z 3) eqn:H3.
    + rewrite (zscore_gtb_le z 2.5 3 ltac:(discriminate) H3). split; discriminate.
    + destruct (zscore_gtb z 2.5); split; congruence.
Qed.

(** X5.  At a threshold of 2.5 or more (the default of the pressure
    detector) the severity of an outlier, of pressure or of flow, is never
    ['low']: that band of [_classify_severity] is reached only by scores of
    at most 2.5, which such a threshold filters out.  At any threshold, a
    record of severity ['low'] shows that the threshold is below 2.5. *)
Theorem severity_low_needs_threshold_below_2_5 (self : AnomalyDetector) (t : Q) :
  (forall a, In a (records (fst (detect_pressure_anomalies self t))) ->
             PressureAnomaly.severity a = low -> t < 2.5) /\
  (forall a, In a (records (fst (detect_flow_anomalies self t))) ->
             FlowAnomaly.severity a = low -> t < 2.5).
Proof.
  split; intros a Ha Hlow.
  - apply in_detect_pressure_anomalies in Ha as [row [_ [Hgt ->]]].
    cbn in Hlow. apply classify_severity_low in Hlow.
    destruct (Qlt_le_dec t 2.5) as [|Hge]; [assumption|].
    rewrite (zscore_gtb_le _ 2.5 t Hge Hgt) in Hlow. discriminate.
  - apply in_detect_flow_anomalies in Ha as [row [_ [_ [_ [Hgt ->]]]]].
    cbn in Hlow. apply classify_severity_low in Hlow.
    destruct (Qlt_le_dec t 2.5) as [|Hge]; [assumption|].
    rewrite (zscore_gtb_le _ 2.5 t Hge Hgt) in Hlow. discriminate.
Qed.

Lemma severity_low_needs_threshold_below_2_5_witness :
  exists a,
    In a (records (fst (detect_flow_anomalies six_at_three 2))) /\
    FlowAnomaly.severity a = low /\ 2 < 2.5.
Proof.
  eexists. split; [vm_compute; left; reflexivity|]. split; [reflexivity|].
  refine (proj2 (severity_low_needs_threshold_below_2_5 six_at_three 2) _ _ _);
    [vm_compute; left; reflexivity|reflexivity].
Defined.

(** ** The summary *)

Lemma len_critical_cons {R : Type} (keys : list string) (sev : R -> severity)
    (x : R) (l : list R) :
  In "severity"%string keys ->
  len_critical (pd_DataFrame keys (x :: l)) sev = Ok (count_critical sev (x :: l)).
Proof.
  intros Hin. unfold len_critical, getitem. cbn [pd_DataFrame columns records].
  assert (E : existsb (String.eqb "severity") keys = true).
  { apply existsb_exists. exists "severity"%string. split; [exact Hin|reflexivity]. }
  now rewrite E.
Qed.

Lemma count_critical_le {R : Type} (sev : R -> severity) (l : list R) :
  (count_critical sev l <= List.length l)%nat.
Proof.
  unfold count_critical. rewrite <- (length_map sev l). apply filter_length_le.
Qed.

(** X6.  [get_anomaly_summary] returns its counts exactly when both the
    pressure-outlier and the burst detector found something; when either
    of them found nothing it raises [KeyError: 'severity'], whatever the
    other detectors found.  When it returns, the four totals are the
    lengths of the four frames it returns beside them, and the critical
    events are the critical pressure outliers plus the critical bursts, at
    most the sum of those two totals. *)
Theorem get_anomaly_summary_cases (self : AnomalyDetector) :
  let pressure_anomalies := fst (detect_pressure_anomalies self 2.5) in
  let flow_anomalies := fst (detect_flow_anomalies self 2) in
  let leaks := fst (detect_leaks self 300) in
  let bursts := fst (detect_burst_events self 15) in
  (records pressure_anomalies = [] \/ records bursts = [] ->
   fst (get_anomaly_summary self) = KeyError "severity") /\
  (records pressure_anomalies <> [] -> records bursts <> [] ->
   exists summary,
     fst (get_anomaly_summary self) =
       Ok (summary, pressure_anomalies, flow_anomalies, leaks, bursts) /\
     total_pressure_anomalies summary = len pressure_anomalies /\
     total_flow_anomalies summary = len flow_anomalies /\
     potential_leaks summary = len leaks /\
     potential_bursts summary = len bursts /\
     critical_events summary =
       (count_critical PressureAnomaly.severity (records pressure_anomalies)
        + count_critical Burst.severity (records bursts))%nat /\
     (critical_events summary
      <= total_pressure_anomalies summary + potential_bursts summary)%nat).
Proof.
  cbv zeta. unfold get_anomaly_summary.
  change (detect_pressure_anomalies self 2.5)
    with (fst (detect_pressure_anomalies self 2.5), self).
  cbv iota beta.
  change (detect_flow_anomalies self 2)
    with (fst (detect_flow_anomalies self 2), assign_hour self).
  cbv iota beta.
  change (detect_leaks (assign_hour self) 300)
    with (fst (detect_leaks self 300), assign_hour self).
  cbv iota beta.
  change (detect_burst_events (assign_hour self) 15)
    with (fst (detect_burst_events self 15), assign_hour self).
  cbv iota beta. cbn [fst].
  set (pa := fst (detect_pressure_anomalies self 2.5)).
  set (bu := fst (detect_burst_events self 15)).
  assert (Hpa : pa = pd_DataFrame PressureAnomaly.keys (records pa)).
  { unfold pa, detect_pressure_anomalies. cbn [fst]. now rewrite records_pd_DataFrame. }
  assert (Hbu : bu = pd_DataFrame Burst.keys (records bu)).
  { unfold bu, detect_burst_events. cbn [fst]. now rewrite records_pd_DataFrame. }
  split.
  - intros [E|E].
    + rewrite Hpa, E. reflexivity.
    + destruct (records pa) as [|p ps] eqn:Ep.
      * rewrite Hpa. reflexivity.
      * rewrite Hpa, len_critical_cons by (simpl; tauto). rewrite Hbu, E. reflexivity.
  - intros Hp Hb.
    destruct (records pa) as [|p ps] eqn:Ep; [congruence|].
    destruct (records bu) as [|b bs] eqn:Eb; [congruence|].
    assert (Lp : len_critical pa PressureAnomaly.severity
                 = Ok (count_critical PressureAnomaly.severity (p :: ps))).
    { rewrite Hpa. apply len_critical_cons. simpl. tauto. }
    assert (Lb : len_critical bu Burst.severity
                 = Ok (count_critical Burst.severity (b :: bs))).
    { rewrite Hbu. apply len_critical_cons. simpl. tauto. }
    rewrite Lp, Lb. eexists. split; [reflexivity|].
    cbn [total_pressure_anomalies total_flow_anomalies potential_leaks potential_bursts
         critical_events].
    repeat split.
    pose proof (count_critical_le PressureAnomaly.severity (p :: ps)).
    pose proof (count_critical_le Burst.severity (b :: bs)).
    unfold len. rewrite Ep, Eb. lia.
Qed.

Lemma get_anomaly_summary_cases_witness :
  fst (get_anomaly_summary constant_pressure) = KeyError "severity" /\
  exists summary,
    fst (get_anomaly_summary one_outlier) = Ok
      (summary,
       fst (detect_pressure_anomalies one_outlier 2.5),
       fst (detect_flow_anomalies one_outlier 2),
       fst (detect_leaks one_outlier 300),
       fst (detect_burst_events one_outlier 15)) /\
    total_pressure_anomalies summary = 1%nat /\
    critical_events summary = 1%nat.
Proof.
  split.
  - apply (proj1 (get_anomaly_summary_cases constant_pressure)). left. reflexivity.
  - destruct (proj2 (get_anomaly_summary_cases one_outlier))
      as [s [Hs [Hp [_ [_ [_ [Hc _]]]]]]].
    + vm_compute. discriminate.
    + vm_compute. discriminate.
    + exists s. split; [exact Hs|]. split; [rewrite Hp|rewrite Hc]; reflexivity.
Defined.

(** ** Invariants of the leak and burst records *)


(** X7.  In every leak record the fields agree with each other and with
    the threshold: the severity is high or moderate, it is high exactly
    when the action is an immediate inspection (and moderate exactly when
    an inspection is to be scheduled), a high severity comes with a high
    confidence, the stored mean night flow and daily loss are at least the
    threshold and the daily loss at the threshold (each rounded like the
    field), and for a threshold that is not negative the monthly loss is at
    least the daily loss. *)
Theorem leak_record_invariants (self : AnomalyDetector) (t : Q) (l : Leak.t) :
  In l (records (fst (detect_leaks self t))) ->
  (Leak.severity l = high \/ Leak.severity l = moderate) /\
  (Leak.severity l = high <-> Leak.recommended_action l = immediate_inspection) /\
  (Leak.severity l = moderate <-> Leak.recommended_action l = schedule_inspection) /\
  (Leak.severity l = high -> Leak.confidence l = conf_high) /\
  round t 2 <= Leak.avg_night_flow_lpm l /\
  round (t * 60 * 24) 0 <= Leak.estimated_daily_loss_liters l /\
  (0 <= t -> Leak.estimated_daily_loss_liters l <= Leak.estimated_monthly_loss_liters l).
Proof.
  intros Hl. apply in_detect_leaks in Hl as [zone [first [rest [_ [Hgt ->]]]]].
  set (m := mean (night_flows (flow_rows (flow_df self)) zone)) in *.
  unfold leak_of. cbn [Leak.severity Leak.recommended_action Leak.confidence
    Leak.avg_night_flow_lpm Leak.estimated_daily_loss_liters
    Leak.estimated_monthly_loss_liters].
  repeat apply conj.
  - destruct (Qltb 500 m); auto.
  - destruct (Qltb 500 m); congruence.
  - destruct (Qltb 500 m); congruence.
  - destruct (Qltb 500 m); congruence.
  - destruct (Qltb 500 m); congruence.
  - destruct (Qltb 500 m) eqn:H5; [|discriminate]. intros _.
    apply Qltb_lt in H5. assert (H4 : 400 < m) by lra. apply Qltb_lt in H4. now rewrite H4.
  - apply round_le. lra.
  - apply round_le. lra.
  - intros Ht. apply round_le. lra.
Qed.

Lemma leak_record_invariants_witness :
  exists l,
    In l (records (fst (detect_leaks night_350_day_50 300))) /\
    300 <= Leak.avg_night_flow_lpm l /\
    432000 <= Leak.estimated_daily_loss_liters l.
Proof.
  eexists. split; [vm_compute; left; reflexivity|].
  match goal with
  | |- context [Leak.avg_night_flow_lpm ?l] =>
      destruct (leak_record_invariants night_350_day_50 300 l
                  ltac:(vm_compute; left; reflexivity))
        as [_ [_ [_ [_ [Ha [Hd _]]]]]]
  end.
  split.
  - eapply Qle_trans; [|exact Ha]. vm_compute. discriminate.
  - eapply Qle_trans; [|exact Hd]. vm_compute. discriminate.
Defined.






(** ** Counting records *)

Lemma filter_none {A : Type} (p : A -> bool) (l : list A) :
  (forall x, In x l -> p x = false) -> filter p l = [].
Proof.
  induction l as [|a l IH]; intros H; simpl; [reflexivity|].
  rewrite (H a) by now left. apply IH. intros; apply H; now right.
Qed.

Lemma filter_all {A : Type} (p : A -> bool) (l : list A) :
  (forall x, In x l -> p x = true) -> filter p l = l.
Proof.
  induction l as [|a l IH]; intros H; simpl; [reflexivity|].
  rewrite (H a) by now left. f_equal. apply IH. intros; apply H; now right.
Qed.

Lemma filter_disjoint_length {A : Type} (p q : A -> bool) (l : list A) :
  (forall x, In x l -> p x = true -> q x = false) ->
  (List.length (filter p l) + List.length (filter q l)
   = List.length (filter (fun x => p x || q x) l))%nat.
Proof.
  induction l as [|a l IH]; intros H; simpl; [reflexivity|].
  assert (IH' := IH (fun x Hx => H x (or_intror Hx))).
  destruct (p a) eqn:Hp; simpl.
  - rewrite (H a (or_introl eq_refl) Hp). simpl. lia.
  - destruct (q a); simpl; lia.
Qed.

(** The groups of a column split the rows: their sizes add up to the
    number of rows. *)
Lemma groups_length {A : Type} (key : A -> string) (l : list A) :
  List.length (flat_map (fun s => filter (fun r => String.eqb (key r) s) l)
                        (unique (map key l)))
  = List.length l.
Proof.
  assert (G : forall ks, NoDup ks ->
            List.length (flat_map (fun s => filter (fun r => String.eqb (key r) s) l) ks)
            = List.length (filter (fun r => existsb (String.eqb (key r)) ks) l)).
  { induction 1 as [|s ks Hnotin Hnd IH]; simpl.
    - rewrite filter_none; [reflexivity|auto].
    - rewrite length_app, IH. apply filter_disjoint_length.
      intros r _ Hr. apply String.eqb_eq in Hr. subst s.
      apply Bool.not_true_iff_false. intros Hex. apply existsb_exists in Hex as [y [Hy Hey]].
      apply String.eqb_eq in Hey. subst y. contradiction. }
  rewrite G by apply NoDup_unique. f_equal. apply filter_all.
  intros r Hr. apply existsb_exists. exists (key r). split; [|apply String.eqb_refl].
  apply in_unique. now apply in_map.
Qed.

Lemma flat_map_length_margin {A B C : Type} (f : A -> list B) (g : A -> list C)
    (ks : list A) :
  (forall s, In s ks -> (List.length (f s) + 1 <= List.length (g s))%nat) ->
  (List.length (flat_map f ks) + List.length ks <= List.length (flat_map g ks))%nat.
Proof.
  induction ks as [|s ks IH]; intros H; simpl; [lia|].
  rewrite !length_app. pose proof (H s (or_introl eq_refl)).
  assert (IH' := IH (fun x Hx => H x (or_intror Hx))). lia.
Qed.

Lemma consecutive_length {A : Type} (l : list A) :
  List.length (consecutive l) = (List.length l - 1)%nat.
Proof.
  unfold consecutive. rewrite length_combine. destruct l; cbn [tl List.length]; lia.
Qed.

(** X9.  The first reading of a sensor never gives a burst, and every
    other reading gives at most one: the number of burst records plus the
    number of sensors is at most the number of pressure readings. *)
Theorem burst_count_bound (self : AnomalyDetector) (t : Q) :
  (len (fst (detect_burst_events self t))
   + List.length (unique (map PressureReading.sensor_id (pressure_df self)))
   <= List.length (pressure_df self))%nat.
Proof.
  unfold len, detect_burst_events. cbn [fst]. rewrite records_pd_DataFrame.
  eapply Nat.le_trans;
    [apply (flat_map_length_margin _
              (fun s => filter (fun r => String.eqb (PressureReading.sensor_id r) s)
                               (pressure_df self)))
    |rewrite groups_length; apply Nat.le_refl].
  intros sensor Hs.
  rewrite sensor_bursts_pairs, length_map.
  pose proof (filter_length_le (is_sudden_drop_pair t)
                (consecutive (sensor_rows (pressure_df self) sensor))) as Hf.
  rewrite consecutive_length in Hf.
  assert (Hlen : List.length (sensor_rows (pressure_df self) sensor)
                 = List.length (filter (fun x => String.eqb (PressureReading.sensor_id x) sensor)
                                       (pressure_df self))).
  { unfold sensor_rows. symmetry. apply Permutation_length, sort_values_timestamp_perm. }
  rewrite Hlen in Hf.
  apply in_unique, in_map_iff in Hs as [r [Hr Hin]].
  assert (Hne : In r (filter (fun x => String.eqb (PressureReading.sensor_id x) sensor)
                             (pressure_df self))).
  { apply filter_In. split; [exact Hin|]. now apply String.eqb_eq. }
  destruct (filter _ (pressure_df self)) as [|x rest]; [contradiction|].
  cbn [List.length] in *. lia.
Qed.

Lemma Qcount_nil {A : Type} : @Qcount A [] == 0.
Proof. reflexivity. Qed.

Lemma Qcount_cons {A : Type} (a : A) (l : list A) : Qcount (a :: l) == Qcount l + 1.
Proof.
  unfold Qcount. cbn [List.length]. rewrite Nat2Z.inj_succ, <- Z.add_1_r, inject_Z_plus.
  reflexivity.
Qed.

Lemma Qcount_app {A : Type} (l1 l2 : list A) : Qcount (l1 ++ l2) == Qcount l1 + Qcount l2.
Proof.
  unfold Qcount. rewrite length_app, Nat2Z.inj_add, inject_Z_plus. reflexivity.
Qed.

Lemma Qcount_nonneg {A : Type} (l : list A) : 0 <= Qcount l.
Proof. unfold Qcount. change 0 with (inject_Z 0). rewrite <- Zle_Qle. lia. Qed.

Lemma Qsum_filter_le (f : Q -> Q) (p : Q -> bool) (l : list Q) :
  (forall x, 0 <= f x) -> Qsum (map f (filter p l)) <= Qsum (map f l).
Proof.
  intros Hf. induction l as [|a l IH]; simpl; [lra|].
  pose proof (Hf a). destruct (p a); simpl; lra.
Qed.

Lemma Qsum_lower_bound (f : Q -> Q) (c : Q) (l : list Q) :
  (forall x, In x l -> c <= f x) -> Qcount l * c <= Qsum (map f l).
Proof.
  induction l as [|a l IH]; intros H.
  - rewrite Qcount_nil. simpl. lra.
  - rewrite Qcount_cons. cbn [map Qsum].
    pose proof (H a (or_introl eq_refl)).
    assert (IH' := IH (fun x Hx => H x (or_intror Hx))). lra.
Qed.

(** Among [n] values, the number of those whose score exceeds [t], times
    the square of [t], is at most [n - 1]. *)
Lemma outlier_count_bound (l : list Q) (t : Q) :
  0 <= t -> l <> [] ->
  Qcount (filter (fun x => zscore_gtb (abs_z x (mean l) (std l)) t) l) * (t * t) + 1
  <= Qlen l.
Proof.
  intros Ht Hne.
  assert (Hone : 1 <= Qlen l).
  { unfold Qlen. change 1 with (inject_Z 1). rewrite <- Zle_Qle.
    destruct l; [congruence|simpl; lia]. }
  assert (Hnone : forall s, (forall x, In x l -> abs_z x (mean l) s = ZNaN) ->
            Qcount (filter (fun x => zscore_gtb (abs_z x (mean l) s) t) l) * (t * t) + 1
            <= Qlen l).
  { intros s Hs. rewrite filter_none; [rewrite Qcount_nil; lra|].
    intros x Hx. now rewrite Hs. }
  unfold std. destruct (Nat.leb_spec (List.length l) 1) as [|Hlen].
  - apply Hnone. reflexivity.
  - assert (Hn : 1 < Qlen l).
    { unfold Qlen. change 1 with (inject_Z 1). rewrite <- Zlt_Qlt. lia. }
    set (m := mean l). set (S := sq_dev m l). set (n := Qlen l) in *.
    set (v := S / (n - 1)).
    assert (HS : S == v * (n - 1)) by (unfold v; field; lra).
    assert (Hv0 : 0 <= v).
    { unfold v, S. apply Qle_shift_div_l; [lra|]. pose proof (sq_dev_nonneg m l). lra. }
    destruct (Qeq_bool v 0) eqn:Hz.
    + apply Hnone. intros x Hx. unfold abs_z. fold S n v. rewrite Hz.
      apply Qeq_bool_iff in Hz.
      pose proof (squared_deviation_bound x l Hx) as Hdev. fold m S n in Hdev.
      pose proof (Qsquare_nonneg (x - m)) as Hd.
      assert (Hdd : (x - m) * (x - m) == 0).
      { apply Qle_antisym; [|exact Hd].
        apply Qmult_le_l with (z := n); [lra|]. rewrite HS, Hz in Hdev. lra. }
      apply Qmult_integral in Hdd. assert (Hd0 : x - m == 0) by tauto.
      apply Qeq_bool_iff in Hd0. fold m. now rewrite Hd0.
    + assert (Hv : 0 < v).
      { assert (~ v == 0) by (intros E; apply Qeq_bool_iff in E; congruence). lra. }
      set (p := fun x => zscore_gtb (abs_z x m (SigmaRoot v)) t).
      fold S n v. fold p.
      pose proof (Qsum_filter_le (fun x => (x - m) * (x - m)) p l
                    (fun x => Qsquare_nonneg (x - m))) as Hle.
      fold (sq_dev m l) in Hle. fold S in Hle.
      assert (Hlow : Qcount (filter p l) * (t * t * v)
                     <= Qsum (map (fun x => (x - m) * (x - m)) (filter p l))).
      { apply Qsum_lower_bound. intros x Hx. apply filter_In in Hx as [_ Hp].
        unfold p, abs_z in Hp. rewrite Hz in Hp. apply zscore_gtb_root in Hp.
        destruct Hp as [Hneg|Hgt]; [lra|].
        assert (H1 : t * t * v < (x - m) * (x - m) / v * v)
          by (apply Qmult_lt_compat_r; assumption).
        assert (H2 : (x - m) * (x - m) / v * v == (x - m) * (x - m)) by (field; lra).
        lra. }
      assert (H1 : (Qcount (filter p l) * (t * t)) * v <= (n - 1) * v) by lra.
      apply Qmult_le_r in H1; [lra|exact Hv].
Qed.

Lemma flat_map_count_margin {A B C : Type} (f : A -> list B) (g : A -> list C)
    (c : Q) (ks : list A) :
  (forall s, In s ks -> Qcount (f s) * c + 1 <= Qcount (g s)) ->
  Qcount (flat_map f ks) * c + Qcount ks <= Qcount (flat_map g ks).
Proof.
  induction ks as [|s ks IH]; intros H; simpl.
  - rewrite !Qcount_nil. lra.
  - rewrite !Qcount_app, Qcount_cons. pose proof (H s (or_introl eq_refl)).
    assert (IH' := IH (fun x Hx => H x (or_intror Hx))). lra.
Qed.

Lemma zone_pressure_anomalies_count (t : Q) (df : list PressureReading.t) (zone : string) :
  List.length (zone_pressure_anomalies t df zone)
  = List.length
      (filter (fun x => zscore_gtb (abs_z x (mean (zone_pressures df zone))
                                          (std (zone_pressures df zone))) t)
              (zone_pressures df zone)).
Proof.
  unfold zone_pressure_anomalies, zone_pressures.
  rewrite length_map, !filter_map_swap, !length_map. reflexivity.
Qed.

(** X10.  The pressure-outlier detector can flag only a bounded share of
    the readings: for a threshold [t] that is not negative, [t * t] times
    the number of anomaly records, plus the number of zones, is at most the
    number of pressure readings (at the default 2.5, fewer than 16 in 100
    readings). *)
Theorem pressure_anomaly_count_bound (self : AnomalyDetector) (t : Q) :
  0 <= t ->
  Qcount (records (fst (detect_pressure_anomalies self t))) * (t * t)
  + Qcount (unique (map PressureReading.zone_id (pressure_df self)))
  <= Qcount (pressure_df self).
Proof.
  intros Ht. unfold detect_pressure_anomalies. cbn [fst]. rewrite records_pd_DataFrame.
  eapply Qle_trans;
    [apply (flat_map_count_margin _
              (fun s => filter (fun r => String.eqb (PressureReading.zone_id r) s)
                               (pressure_df self)))
    |unfold Qcount; rewrite groups_length; apply Qle_refl].
  intros zone Hz.
  unfold Qcount at 1. rewrite zone_pressure_anomalies_count.
  assert (Hlen : Qcount (filter (fun r => String.eqb (PressureReading.zone_id r) zone)
                                (pressure_df self))
                 = Qlen (zone_pressures (pressure_df self) zone)).
  { unfold Qcount, Qlen, zone_pressures. now rewrite length_map. }
  rewrite Hlen. apply outlier_count_bound; [exact Ht|].
  apply in_unique, in_map_iff in Hz as [r [Hr Hin]].
  intros E.
  assert (Hx : In (PressureReading.pressure_psi r) (zone_pressures (pressure_df self) zone)).
  { unfold zone_pressures. apply in_map, filter_In. split; [exact Hin|].
    now apply String.eqb_eq. }
  rewrite E in Hx. contradiction.
Qed.

Lemma pressure_anomaly_count_bound_witness :
  Qcount (records (fst (detect_pressure_anomalies one_outlier 2.5))) == 1 /\
  Qcount (records (fst (detect_pressure_anomalies one_outlier 2.5))) * (2.5 * 2.5) + 1 <= 9.
Proof.
  split; [reflexivity|].
  apply (pressure_anomaly_count_bound one_outlier 2.5). discriminate.
Defined.

(** ** Low-pressure zones and recommendations *)

Lemma insert_by_count_perm (r : LowPressure.t) (l : list LowPressure.t) :
  Permutation (r :: l) (insert_by_count r l).
Proof.
  induction l as [|x l IH]; simpl; [reflexivity|].
  destruct (_ <=? _)%nat; [reflexivity|].
  rewrite perm_swap. now apply perm_skip.
Qed.

Lemma sort_by_count_perm (l : list LowPressure.t) :
  Permutation l (fold_right insert_by_count [] l).
Proof.
  induction l as [|x l IH]; simpl; [reflexivity|].
  rewrite <- insert_by_count_perm. now apply perm_skip.
Qed.

Lemma insert_key_perm (k : string) (l : list string) : Permutation (k :: l) (insert_key k l).
Proof.
  induction l as [|x l IH]; simpl; [reflexivity|].
  destruct (String.leb k x); [reflexivity|].
  rewrite perm_swap. now apply perm_skip.
Qed.

Lemma group_keys_perm (column : list string) :
  Permutation (unique column) (group_keys column).
Proof.
  unfold group_keys. induction (unique column) as [|x l IH]; simpl; [reflexivity|].
  rewrite <- insert_key_perm. now apply perm_skip.
Qed.

Lemma NoDup_group_keys (column : list string) : NoDup (group_keys column).
Proof.
  eapply Permutation_NoDup; [apply group_keys_perm|apply NoDup_unique].
Qed.

(** The rows of [get_low_pressure_zones]: one for each zone name that has a
    counted reading, with the number of its counted readings. *)
Lemma in_get_low_pressure_zones (self : WaterAnalytics) (now : Z) (threshold : Q)
    (row : LowPressure.t) :
  In row (get_low_pressure_zones self now threshold) <->
  exists first rest,
    recent_low self now threshold (LowPressure.zone_name row) = first :: rest /\
    row = LowPressure.mk (LowPressure.zone_name row)
            (List.length (first :: rest))
            (round (mean (map PressureReading.pressure_psi (first :: rest))) 2)
            (PressureReading.zone_id first).
Proof.
  unfold get_low_pressure_zones.
  set (low := filter (fun r => Qltb (PressureReading.pressure_psi r) threshold)
                (filter (fun r => (now - days 7 <=? PressureReading.timestamp r)%Z)
                   (a_pressure_df self))).
  assert (Hperm := sort_by_count_perm
            (flat_map (low_pressure_group low)
                      (group_keys (map PressureReading.zone_name low)))).
  split.
  - intros Hin. apply (Permutation_in _ (Permutation_sym Hperm)) in Hin.
    apply in_flat_map in Hin as [name [_ Hin]]. unfold low_pressure_group in Hin.
    fold (recent_low self now threshold name) in Hin. fold low in Hin.
    change (filter (fun r => String.eqb (PressureReading.zone_name r) name) low)
      with (recent_low self now threshold name) in Hin.
    destruct (recent_low self now threshold name) as [|first rest] eqn:E; [contradiction|].
    destruct Hin as [<-|[]]. cbn [LowPressure.zone_name].
    exists first, rest. rewrite length_map. auto.
  - intros [first [rest [E Hrow]]]. apply (Permutation_in _ Hperm).
    apply in_flat_map. exists (LowPressure.zone_name row). split.
    + apply in_group_keys.
      assert (Hf : In first (recent_low self now threshold (LowPressure.zone_name row)))
        by (rewrite E; now left).
      unfold recent_low in Hf. fold low in Hf. apply filter_In in Hf as [Hf Hn].
      apply String.eqb_eq in Hn. rewrite <- Hn. now apply in_map.
    + unfold low_pressure_group.
      change (filter (fun r => String.eqb (PressureReading.zone_name r)
                                          (LowPressure.zone_name row)) low)
        with (recent_low self now threshold (LowPressure.zone_name row)).
      rewrite E. left. rewrite length_map. symmetry. exact Hrow.
Qed.

Lemma in_get_recommendations (self : SmartWaterManagementSystem) (now : Z)
    (r : Recommendation.t) :
  In r (records (fst (get_recommendations self now))) <->
  (exists zone,
      In zone (get_low_pressure_zones (analytics self) now 35) /\
      (50 < LowPressure.low_pressure_count zone)%nat /\
      r = Recommendation.mk high (LowPressure.zone_name zone) frequent_low_pressure
            install_booster_pumps
            (low_pressure_events (LowPressure.low_pressure_count zone))) \/
  (exists leak,
      In leak (records (fst (detect_leaks (anomaly_detector self) 300))) /\
      r = Recommendation.mk (Leak.severity leak) (Leak.zone_name leak) potential_water_leak
            (advised (Leak.recommended_action leak))
            (estimated_loss (Leak.estimated_daily_loss_liters leak))) \/
  (exists burst,
      In burst (records (fst (detect_burst_events (anomaly_detector self) 15))) /\
      r = Recommendation.mk critical (Burst.zone_name burst) potential_pipe_burst
            (advised (Burst.recommended_action burst))
            (pressure_drop_psi (Burst.pressure_drop burst))).
Proof.
  unfold get_recommendations.
  change (detect_leaks (anomaly_detector self) 300)
    with (fst (detect_leaks (anomaly_detector self) 300), assign_hour (anomaly_detector self)).
  cbv iota beta.
  change (detect_burst_events (assign_hour (anomaly_detector self)) 15)
    with (fst (detect_burst_events (anomaly_detector self) 15),
          assign_hour (anomaly_detector self)).
  cbv iota beta. cbn [fst]. rewrite records_pd_DataFrame, !in_app_iff.
  rewrite in_flat_map, !in_map_iff.
  split.
  - intros [[zone [Hz Hr]]|[[leak [<- Hl]]|[burst [<- Hb]]]].
    + left. exists zone. destruct (Nat.ltb_spec 50 (LowPressure.low_pressure_count zone));
        [|contradiction].
      destruct Hr as [<-|[]]. auto.
    + right. left. exists leak. auto.
    + right. right. exists burst. auto.
  - intros [[zone [Hz [Hc ->]]]|[[leak [Hl ->]]|[burst [Hb ->]]]].
    + left. exists zone. split; [exact Hz|]. apply Nat.ltb_lt in Hc. rewrite Hc. now left.
    + right. left. exists leak. auto.
    + right. right. exists burst. auto.
Qed.

(** X11.  The recommendations name the zones with frequent low pressure
    exactly: a zone gets the recommendation 'Frequent low pressure' if and
    only if more than 50 of its readings of the trailing 7 days are below
    35 PSI.  Such a recommendation has priority high and reports that
    number of readings; a recommendation for a pipe burst always has
    priority critical, and one for a leak has the severity of the leak,
    high or moderate. *)
Theorem recommendations_by_issue (self : SmartWaterManagementSystem) (now : Z) :
  let recommendations := records (fst (get_recommendations self now)) in
  (forall name,
      (exists r, In r recommendations /\
                 Recommendation.issue r = frequent_low_pressure /\
                 Recommendation.zone r = name) <->
      (50 < List.length (recent_low (analytics self) now 35 name))%nat) /\
  (forall r, In r recommendations ->
     match Recommendation.issue r with
     | frequent_low_pressure =>
         Recommendation.priority r = high /\
         Recommendation.recommendation r = install_booster_pumps /\
         Recommendation.impact r =
           low_pressure_events
             (List.length (recent_low (analytics self) now 35 (Recommendation.zone r)))
     | potential_water_leak =>
         Recommendation.priority r = high \/ Recommendation.priority r = moderate
     | potential_pipe_burst => Recommendation.priority r = critical
     end).
Proof.
  cbv zeta. split.
  - intros name. split.
    + intros [r [Hr [Hi Hz]]]. apply in_get_recommendations in Hr.
      destruct Hr as [[zone [Hin [Hc ->]]]|[[leak [_ ->]]|[burst [_ ->]]]];
        try discriminate Hi.
      cbn in Hz. apply in_get_low_pressure_zones in Hin as [first [rest [E Hrow]]].
      rewrite Hz in E. rewrite E. rewrite Hrow in Hc. exact Hc.
    + intros Hc.
      destruct (recent_low (analytics self) now 35 name) as [|first rest] eqn:E;
        [simpl in Hc; lia|].
      set (zone := LowPressure.mk name (List.length (first :: rest))
                     (round (mean (map PressureReading.pressure_psi (first :: rest))) 2)
                     (PressureReading.zone_id first)).
      exists (Recommendation.mk high name frequent_low_pressure install_booster_pumps
                (low_pressure_events (LowPressure.low_pressure_count zone))).
      split; [|split; reflexivity].
      apply in_get_recommendations. left. exists zone. split; [|split; [exact Hc|reflexivity]].
      apply in_get_low_pressure_zones. exists first, rest. auto.
  - intros r Hr. apply in_get_recommendations in Hr.
    destruct Hr as [[zone [Hin [Hc ->]]]|[[leak [Hl ->]]|[burst [_ ->]]]]; cbn.
    + repeat split.
      apply in_get_low_pressure_zones in Hin as [first [rest [E Hrow]]].
      rewrite E. rewrite Hrow at 1. reflexivity.
    + apply in_detect_leaks in Hl as [z [first [rest [_ [_ ->]]]]]. cbn.
      destruct (Qltb 500 _); auto.
    + reflexivity.
Qed.

Lemma recommendations_by_issue_witness :
  exists r,
    In r (records (fst (get_recommendations fifty_one_low (days 1)))) /\
    Recommendation.issue r = frequent_low_pressure /\
    Recommendation.zone r = "North"%string.
Proof.
  apply (proj1 (recommendations_by_issue fifty_one_low (days 1)) "North"%string).
  vm_compute. lia.
Defined.

(** ** Zone statistics *)

Lemma fold_qmin_le (l : list Q) (a : Q) :
  fold_left qmin l a <= a /\ forall x, In x l -> fold_left qmin l a <= x.
Proof.
  revert a. induction l as [|b l IH]; intros a; simpl.
  - split; [apply Qle_refl|contradiction].
  - destruct (IH (qmin a b)) as [H1 H2].
    assert (Ha : qmin a b <= a /\ qmin a b <= b).
    { unfold qmin. destruct (Qle_bool a b) eqn:E.
      - apply Qle_bool_iff in E. split; [apply Qle_refl|exact E].
      - split; [|apply Qle_refl]. apply Qlt_le_weak, Qnot_le_lt. intros H.
        apply Qle_bool_iff in H. congruence. }
    destruct Ha as [Ha Hb]. split; [lra|].
    intros x [<-|Hx]; [lra|now apply H2].
Qed.

Lemma fold_qmax_ge (l : list Q) (a : Q) :
  a <= fold_left qmax l a /\ forall x, In x l -> x <= fold_left qmax l a.
Proof.
  revert a. induction l as [|b l IH]; intros a; simpl.
  - split; [apply Qle_refl|contradiction].
  - destruct (IH (qmax a b)) as [H1 H2].
    assert (Ha : a <= qmax a b /\ b <= qmax a b).
    { unfold qmax. destruct (Qle_bool a b) eqn:E.
      - apply Qle_bool_iff in E. split; [exact E|apply Qle_refl].
      - split; [apply Qle_refl|]. apply Qlt_le_weak, Qnot_le_lt. intros H.
        apply Qle_bool_iff in H. congruence. }
    destruct Ha as [Ha Hb]. split; [lra|].
    intros x [<-|Hx]; [lra|now apply H2].
Qed.

(** The mean of values that lie between two bounds lies between them. *)
Lemma mean_between (lo hi : Q) (l : list Q) :
  l <> [] -> (forall x, In x l -> lo <= x <= hi) -> lo <= mean l <= hi.
Proof.
  intros Hne H. pose proof (Qlen_pos l Hne) as Hn.
  assert (Hs : Qlen l * lo <= Qsum l <= Qlen l * hi).
  { clear Hne Hn. induction l as [|a l IH].
    - change (Qlen []) with 0. cbn [Qsum]. lra.
    - rewrite Qlen_cons. cbn [Qsum]. pose proof (H a (or_introl eq_refl)).
      assert (IH' := IH (fun x Hx => H x (or_intror Hx))). lra. }
  unfold mean. split.
  - apply Qle_shift_div_l; [exact Hn|lra].
  - apply Qle_shift_div_r; [exact Hn|lra].
Qed.

Lemma unique_length_le (l : list string) : (List.length (unique l) <= List.length l)%nat.
Proof.
  induction l as [|a l IH]; simpl; [lia|].
  pose proof (filter_length_le (fun y => negb (String.eqb y a)) (unique l)). lia.
Qed.

Lemma in_get_zone_statistics (self : WaterAnalytics) (s : ZoneStats.t) :
  In s (get_zone_statistics self) <->
  exists first rest,
    filter (fun r => String.eqb (PressureReading.zone_name r) (ZoneStats.zone_name s))
           (a_pressure_df self) = first :: rest /\
    zone_stats_group (a_pressure_df self) (ZoneStats.zone_name s) = [s].
Proof.
  unfold get_zone_statistics. rewrite in_flat_map. split.
  - intros [name [_ Hs]]. unfold zone_stats_group in Hs.
    destruct (filter _ _) as [|first rest] eqn:E; [contradiction|].
    destruct Hs as [<-|[]]. cbn [ZoneStats.zone_name].
    exists first, rest. split; [exact E|]. unfold zone_stats_group. now rewrite E.
  - intros [first [rest [E Hs]]]. exists (ZoneStats.zone_name s). split.
    + apply in_group_keys.
      assert (Hin : In first (filter (fun r => String.eqb (PressureReading.zone_name r)
                                                 (ZoneStats.zone_name s))
                                (a_pressure_df self))) by (rewrite E; now left).
      apply filter_In in Hin as [Hin Hz]. apply String.eqb_eq in Hz. rewrite <- Hz.
      now apply in_map.
    + rewrite Hs. now left.
Qed.

(** X12.  [get_zone_statistics] has one row for every zone name of the
    pressure readings; in each row the stored minimum is at most the stored
    mean, which is at most the stored maximum, the stored mean is the mean
    of the zone's readings rounded to two decimals, and the number of
    sensors is at least 1 and at most the number of readings of the zone. *)
Theorem zone_statistics_invariants (self : WaterAnalytics) :
  NoDup (map ZoneStats.zone_name (get_zone_statistics self)) /\
  (forall r, In r (a_pressure_df self) ->
     exists s, In s (get_zone_statistics self) /\
               ZoneStats.zone_name s = PressureReading.zone_name r) /\
  (forall s, In s (get_zone_statistics self) ->
     let values := zone_name_pressures (a_pressure_df self) (ZoneStats.zone_name s) in
     ZoneStats.avg_pressure s = round (mean values) 2 /\
     ZoneStats.min_pressure s <= ZoneStats.avg_pressure s /\
     ZoneStats.avg_pressure s <= ZoneStats.max_pressure s /\
     (1 <= ZoneStats.num_sensors s <= List.length values)%nat).
Proof.
  repeat apply conj.
  - unfold get_zone_statistics. apply NoDup_flat_map_keys.
    + apply NoDup_group_keys.
    + intros name s Hs. unfold zone_stats_group in Hs.
      destruct (filter _ _); [contradiction|]. now destruct Hs as [<-|[]].
    + intros name. unfold zone_stats_group. destruct (filter _ _); simpl; lia.
  - intros r Hr.
    destruct (filter (fun x => String.eqb (PressureReading.zone_name x)
                                          (PressureReading.zone_name r))
                     (a_pressure_df self)) as [|first rest] eqn:E.
    + assert (Hin : In r (filter (fun x => String.eqb (PressureReading.zone_name x)
                                                       (PressureReading.zone_name r))
                                 (a_pressure_df self))).
      { apply filter_In. split; [exact Hr|apply String.eqb_refl]. }
      rewrite E in Hin. contradiction.
    + assert (Hg : exists s,
                 zone_stats_group (a_pressure_df self) (PressureReading.zone_name r) = [s] /\
                 ZoneStats.zone_name s = PressureReading.zone_name r).
      { unfold zone_stats_group. rewrite E. eexists. split; reflexivity. }
      destruct Hg as [s [Hg Hn]]. exists s. split; [|exact Hn].
      apply in_get_zone_statistics. rewrite Hn. exists first, rest. auto.
  - intros s Hs. apply in_get_zone_statistics in Hs as [first [rest [E Hg]]].
    unfold zone_stats_group in Hg. rewrite E in Hg.
    apply (f_equal (fun l => hd s l)) in Hg. cbn [hd] in Hg.
    unfold zone_name_pressures. rewrite E. rewrite <- Hg.
    cbn [ZoneStats.avg_pressure ZoneStats.min_pressure ZoneStats.max_pressure
         ZoneStats.num_sensors].
    set (values := map PressureReading.pressure_psi (first :: rest)).
    destruct (fold_qmin_le (map PressureReading.pressure_psi rest)
                           (PressureReading.pressure_psi first)) as [Hmin1 Hmin2].
    destruct (fold_qmax_ge (map PressureReading.pressure_psi rest)
                           (PressureReading.pressure_psi first)) as [Hmax1 Hmax2].
    assert (Hbetween : fold_left qmin (map PressureReading.pressure_psi rest)
                                 (PressureReading.pressure_psi first)
                       <= mean values
                       <= fold_left qmax (map PressureReading.pressure_psi rest)
                                    (PressureReading.pressure_psi first)).
    { apply mean_between; [discriminate|].
      intros x [<-|Hx]; split; auto. }
    repeat split.
    + apply round_le. apply Hbetween.
    + apply round_le. apply Hbetween.
    + cbn [map unique List.length]. lia.
    + fold values. unfold values.
      rewrite length_map, <- (length_map PressureReading.sensor_id (first :: rest)).
      apply unique_length_le.
Qed.

Lemma zone_statistics_invariants_witness :
  exists s,
    In s (get_zone_statistics (analytics one_dip)) /\
    ZoneStats.avg_pressure s == 40 /\
    ZoneStats.min_pressure s <= ZoneStats.avg_pressure s /\
    ZoneStats.num_sensors s = 2%nat.
Proof.
  eexists. split; [left; reflexivity|]. split; [reflexivity|]. split; [|reflexivity].
  match goal with
  | |- ZoneStats.min_pressure ?s <= _ =>
      apply (proj2 (proj2 (zone_statistics_invariants (analytics one_dip))) s
                   (or_introl eq_refl))
  end.
Defined.

(** ** Zone health *)

Lemma filter_key_NoDup {A : Type} (key : A -> string) (l : list A) (x : A) :
  NoDup (map key l) -> In x l ->
  filter (fun y => String.eqb (key y) (key x)) l = [x].
Proof.
  induction l as [|a l IH]; intros Hnd Hin; [contradiction|].
  inversion Hnd as [|? ? Hnotin Hnd']; subst. simpl.
  destruct Hin as [->|Hin].
  - rewrite String.eqb_refl. f_equal. apply filter_none.
    intros y Hy. apply String.eqb_neq. intros Heq. apply Hnotin. rewrite <- Heq.
    now apply in_map.
  - destruct (String.eqb_spec (key a) (key x)) as [Heq|_]; [|now apply IH].
    exfalso. apply Hnotin. rewrite Heq. now apply in_map.
Qed.

Lemma NoDup_low_pressure_zone_names (self : WaterAnalytics) (now : Z) (threshold : Q) :
  NoDup (map LowPressure.zone_name (get_low_pressure_zones self now threshold)).
Proof.
  unfold get_low_pressure_zones.
  eapply Permutation_NoDup;
    [apply Permutation_map, sort_by_count_perm|].
  apply NoDup_flat_map_keys.
  - apply NoDup_group_keys.
  - intros name z Hz. unfold low_pressure_group in Hz.
    destruct (filter _ _); [contradiction|]. now destruct Hz as [<-|[]].
  - intros name. unfold low_pressure_group. destruct (filter _ _); simpl; lia.
Qed.

(** [low_pressure_zones[low_pressure_zones['zone_name'] == name]]: the row
    of the zone when it has counted readings, and nothing otherwise. *)
Lemma low_pressure_info (self : WaterAnalytics) (now : Z) (threshold : Q) (name : string) :
  filter (fun z => String.eqb (LowPressure.zone_name z) name)
         (get_low_pressure_zones self now threshold)
  = match recent_low self now threshold name with
    | [] => []
    | first :: rest =>
        [LowPressure.mk name (List.length (first :: rest))
           (round (mean (map PressureReading.pressure_psi (first :: rest))) 2)
           (PressureReading.zone_id first)]
    end.
Proof.
  destruct (recent_low self now threshold name) as [|first rest] eqn:E.
  - apply filter_none. intros z Hz. apply String.eqb_neq. intros Hn.
    apply in_get_low_pressure_zones in Hz as [f [r [E' _]]]. rewrite Hn in E'. congruence.
  - set (row := LowPressure.mk name (List.length (first :: rest))
                  (round (mean (map PressureReading.pressure_psi (first :: rest))) 2)
                  (PressureReading.zone_id first)).
    assert (Hin : In row (get_low_pressure_zones self now threshold)).
    { apply in_get_low_pressure_zones. exists first, rest. auto. }
    apply (filter_key_NoDup LowPressure.zone_name _ row
             (NoDup_low_pressure_zone_names self now threshold) Hin).
Qed.

(** X13.  The health status of a zone follows from two numbers: how many
    of its readings of the trailing 7 days are below 35 PSI, and its mean
    pressure over the whole history (rounded to two decimals).  More than
    100 such readings make it critical, 1 to 100 make it a warning; with
    none, a mean below 35 is a warning, a mean below 40 needs attention,
    and the zone is healthy otherwise.  So a single low reading in the
    window keeps a zone from being healthy, whatever its mean. *)
Theorem zone_health_status (self : SmartWaterManagementSystem) (now : Z)
    (h : ZoneHealth.t) :
  In h (records (get_zone_health_status self now)) ->
  let n := List.length (recent_low (analytics self) now 35 (ZoneHealth.zone_name h)) in
  ZoneHealth.avg_pressure h =
    round (mean (zone_name_pressures (a_pressure_df (analytics self))
                                     (ZoneHealth.zone_name h))) 2 /\
  ZoneHealth.status h = health_of n (ZoneHealth.avg_pressure h) /\
  ((1 <= n)%nat -> ZoneHealth.status h = health_critical \/
                   ZoneHealth.status h = health_warning) /\
  (ZoneHealth.status h = health_healthy <-> n = 0%nat /\ 40 <= ZoneHealth.avg_pressure h).
Proof.
  unfold get_zone_health_status. cbv zeta. rewrite records_pd_DataFrame.
  intros Hh. apply in_map_iff in Hh as [zone [<- Hzone]].
  unfold zone_health. cbv zeta.
  cbn [ZoneHealth.zone_name ZoneHealth.avg_pressure ZoneHealth.status].
  rewrite low_pressure_info.
  assert (Havg : ZoneStats.avg_pressure zone
                 = round (mean (zone_name_pressures (a_pressure_df (analytics self))
                                                    (ZoneStats.zone_name zone))) 2).
  { apply in_get_zone_statistics in Hzone as [first [rest [E Hg]]].
    unfold zone_stats_group in Hg. rewrite E in Hg.
    apply (f_equal (fun l => hd zone l)) in Hg. cbn [hd] in Hg.
    unfold zone_name_pressures. rewrite E. rewrite <- Hg at 1. reflexivity. }
  split; [exact Havg|].
  set (avg := ZoneStats.avg_pressure zone) in *.
  unfold health_of.
  destruct (recent_low (analytics self) now 35 (ZoneStats.zone_name zone))
    as [|first rest].
  - cbn [List.length LowPressure.low_pressure_count]. cbn [Nat.ltb Nat.leb].
    split; [reflexivity|]. split; [lia|].
    destruct (Qltb avg 35) eqn:H35.
    + apply Qltb_lt in H35. split; [discriminate|]. intros [_ H]. lra.
    + destruct (Qltb avg 40) eqn:H40.
      * apply Qltb_lt in H40. split; [discriminate|]. intros [_ H]. lra.
      * apply Qltb_ge in H40. split; auto.
  - cbn [LowPressure.low_pressure_count].
    set (n := List.length (first :: rest)).
    assert (Hn : (1 <= n)%nat) by (unfold n; simpl; lia).
    apply Nat.leb_le in Hn. rewrite Hn.
    destruct (100 <? n)%nat; (split; [reflexivity|]); (split; [auto|]);
      (split; [discriminate|]); intros [H0 _]; apply Nat.leb_le in Hn; lia.
Qed.

Lemma zone_health_status_witness :
  exists h,
    In h (records (get_zone_health_status one_dip (days 1))) /\
    ZoneHealth.avg_pressure h == 40 /\
    ZoneHealth.status h = health_warning.
Proof.
  eexists. split; [left; reflexivity|]. split; [reflexivity|].
  match goal with
  | |- ZoneHealth.status ?h = _ =>
      destruct (zone_health_status one_dip (days 1) h (or_introl eq_refl))
        as [_ [Hs _]]; rewrite Hs
  end.
  reflexivity.
Defined.

(** ** Water loss and leaks *)

Lemma in_calculate_water_loss (flow_df : FlowFrame) (w : WaterLoss.t) :
  In w (fst (calculate_water_loss flow_df)) <->
  exists first rest,
    filter (fun r => String.eqb (FlowReading.zone_name r) (WaterLoss.zone_name w))
           (night_rows (flow_rows flow_df)) = first :: rest /\
    let night_flow_lpm :=
      round (mean (map FlowReading.flow_rate_lpm (first :: rest))) 2 in
    w = WaterLoss.mk (WaterLoss.zone_name w) night_flow_lpm (Qltb 200 night_flow_lpm)
          (round (night_flow_lpm * 60 * 24 * 0.3) 0).
Proof.
  unfold calculate_water_loss. cbn [fst]. unfold hour_rows, assign_hour_column.
  cbn [hour_column flow_rows]. rewrite combine_map_r, night_data_rows, map_map. cbn [fst].
  rewrite in_flat_map.
  assert (G : forall name,
             water_loss_group
               (map (fun r => (r, hour_of (FlowReading.timestamp r)))
                    (night_rows (flow_rows flow_df))) name
             = match filter (fun r => String.eqb (FlowReading.zone_name r) name)
                            (night_rows (flow_rows flow_df)) with
               | [] => []
               | first :: rest =>
                   let night_flow_lpm :=
                     round (mean (map FlowReading.flow_rate_lpm (first :: rest))) 2 in
                   [WaterLoss.mk name night_flow_lpm (Qltb 200 night_flow_lpm)
                      (round (night_flow_lpm * 60 * 24 * 0.3) 0)]
               end).
  { intros name. unfold water_loss_group. rewrite filter_map_swap. cbn [fst].
    destruct (filter _ (night_rows (flow_rows flow_df))) as [|first rest]; [reflexivity|].
    cbn [map]. rewrite map_map. reflexivity. }
  split.
  - intros [name [_ Hw]]. rewrite G in Hw.
    destruct (filter _ _) as [|first rest] eqn:E; [contradiction|].
    destruct Hw as [<-|[]]. cbn [WaterLoss.zone_name]. exists first, rest. auto.
  - intros [first [rest [E Hw]]]. exists (WaterLoss.zone_name w). split.
    + apply in_group_keys.
      assert (Hin : In first (filter (fun r => String.eqb (FlowReading.zone_name r)
                                                 (WaterLoss.zone_name w))
                                (night_rows (flow_rows flow_df)))) by (rewrite E; now left).
      apply filter_In in Hin as [Hin Hz]. apply String.eqb_eq in Hz. rewrite <- Hz.
      now apply in_map.
    + rewrite G, E. left. symmetry. exact Hw.
Qed.

Lemma round_close (x : Q) : round x 2 <= x + 0.005.
Proof.
  pose proof (round_nearest x 2) as H. change (pow10 2) with 100 in H.
  assert (Ha : Qabs (x - round x 2) <= 0.005).
  { apply Qmult_le_r with (z := 100); [reflexivity|].
    eapply Qle_trans; [exact H|]. vm_compute. discriminate. }
  apply Qabs_Qle_condition in Ha. lra.
Qed.

(** X14.  The water-loss estimate agrees with leak detection: when both
    read the same flow rows, and the rows name their zones consistently,
    every leak found at a threshold of at least 200.01 (the default is 300)
    has a row in [calculate_water_loss] with the same zone name and the same
    stored night flow, flagged as a potential leak, and with an estimated
    daily loss that is at most the daily loss of the leak record. *)
Theorem water_loss_flags_every_leak (detector : AnomalyDetector) (frame : FlowFrame)
    (t : Q) (l : Leak.t) :
  flow_rows frame = flow_rows (flow_df detector) ->
  zones_named_consistently (flow_rows frame) ->
  200.01 <= t ->
  In l (records (fst (detect_leaks detector t))) ->
  exists w,
    In w (fst (calculate_water_loss frame)) /\
    WaterLoss.zone_name w = Leak.zone_name l /\
    WaterLoss.night_flow_lpm w = Leak.avg_night_flow_lpm l /\
    WaterLoss.potential_leak w = true /\
    WaterLoss.estimated_daily_loss_liters w <= Leak.estimated_daily_loss_liters l.
Proof.
  intros Hrows Hnames Ht Hl.
  apply in_detect_leaks in Hl as [zone [first [rest [E [Hgt ->]]]]].
  rewrite <- Hrows in *. unfold night_flows in *. rewrite E in *.
  set (rows := flow_rows frame) in *.
  assert (Hfirst : In first (night_rows rows) /\ FlowReading.zone_id first = zone).
  { assert (Hin : In first (filter (fun r => String.eqb (FlowReading.zone_id r) zone)
                              (night_rows rows))) by (rewrite E; now left).
    apply filter_In in Hin as [Hin Hz]. apply String.eqb_eq in Hz. auto. }
  destruct Hfirst as [Hfn Hfz].
  assert (Hsame : filter (fun r => String.eqb (FlowReading.zone_name r)
                                              (FlowReading.zone_name first))
                         (night_rows rows) = first :: rest).
  { rewrite <- E. apply filter_ext_in. intros r Hr.
    unfold night_rows in Hr, Hfn. apply filter_In in Hr as [Hr _].
    apply filter_In in Hfn as [Hfn _].
    specialize (Hnames r first Hr Hfn).
    destruct (String.eqb_spec (FlowReading.zone_name r) (FlowReading.zone_name first)),
             (String.eqb_spec (FlowReading.zone_id r) zone); try reflexivity; exfalso.
    - apply n. rewrite <- Hfz. now apply Hnames.
    - apply n. apply Hnames. congruence. }
  set (m := mean (map FlowReading.flow_rate_lpm (first :: rest))) in *.
  exists (WaterLoss.mk (FlowReading.zone_name first) (round m 2) (Qltb 200 (round m 2))
            (round (round m 2 * 60 * 24 * 0.3) 0)).
  cbn [WaterLoss.zone_name WaterLoss.night_flow_lpm WaterLoss.potential_leak
       WaterLoss.estimated_daily_loss_liters leak_of Leak.zone_name
       Leak.avg_night_flow_lpm Leak.estimated_daily_loss_liters].
  split; [|split; [reflexivity|split; [reflexivity|split]]].
  - apply in_calculate_water_loss. cbn [WaterLoss.zone_name].
    exists first, rest. split; [exact Hsame|reflexivity].
  - apply Qltb_lt.
    apply Qlt_le_trans with (round 200.01 2); [vm_compute; reflexivity|].
    apply round_le. lra.
  - apply round_le. pose proof (round_close m). lra.
Qed.

Lemma water_loss_flags_every_leak_witness :
  exists l w,
    In l (records (fst (detect_leaks night_350_day_50 300))) /\
    In w (fst (calculate_water_loss (flow_df night_350_day_50))) /\
    WaterLoss.night_flow_lpm w = Leak.avg_night_flow_lpm l /\
    WaterLoss.potential_leak w = true.
Proof.
  eexists.
  match goal with
  | |- exists w, In ?l _ /\ _ =>
      assert (Hl : In l (records (fst (detect_leaks night_350_day_50 300))))
        by (vm_compute; left; reflexivity);
      destruct (water_loss_flags_every_leak night_350_day_50 (flow_df night_350_day_50)
                  300 l eq_refl) as [w [Hw [_ [Hn [Hp _]]]]];
        [ | vm_compute; discriminate | exact Hl | exists w; auto ]
  end.
  intros r1 r2 H1 H2. simpl in H1, H2.
  repeat (destruct H1 as [<-|H1]; [|]); try contradiction;
    repeat (destruct H2 as [<-|H2]; [|]); try contradiction; split; reflexivity.
Defined.

(** ** The cause of a flow anomaly *)

Lemma mean_nonneg (l : list Q) : (forall x, In x l -> 0 <= x) -> 0 <= mean l.
Proof.
  intros H. destruct l as [|a l].
  - vm_compute. discriminate.
  - unfold mean. apply Qle_shift_div_l.
    + apply Qlen_pos. discriminate.
    + pose proof (Qsum_nonneg (a :: l) H). lra.
Qed.

(** X15.  When no flow reading is negative, the cause of a flow anomaly
    agrees with its kind: a potential leak is reported only for an
    excessive flow at the hours 0 to 5, an unusual demand only for an
    excessive flow at the other hours, and a low flow always gets the cause
    'Supply interruption or valve issue'.  (An excessive flow of at most
    1.5 times the expected flow gets that cause too.) *)
Theorem flow_anomaly_cause (self : AnomalyDetector) (t : Q) (a : FlowAnomaly.t) :
  (forall r, In r (flow_rows (flow_df self)) -> 0 <= FlowReading.flow_rate_lpm r) ->
  In a (records (fst (detect_flow_anomalies self t))) ->
  (FlowAnomaly.potential_cause a = potential_leak_night ->
   FlowAnomaly.anomaly_type a = excessive_flow /\
   is_night (hour_of (FlowAnomaly.timestamp a)) = true) /\
  (FlowAnomaly.potential_cause a = unusual_high_demand ->
   FlowAnomaly.anomaly_type a = excessive_flow /\
   is_night (hour_of (FlowAnomaly.timestamp a)) = false) /\
  (FlowAnomaly.anomaly_type a = low_flow ->
   FlowAnomaly.potential_cause a = supply_interruption).
Proof.
  intros Hpos Ha. apply in_detect_flow_anomalies in Ha as [r [Hin [_ [_ [_ ->]]]]].
  cbv zeta. set (m := mean _).
  assert (Hm : 0 <= m).
  { apply mean_nonneg. intros x Hx. unfold flow_bucket in Hx.
    apply in_map_iff in Hx as [y [<- Hy]]. apply filter_In in Hy as [Hy _]. now apply Hpos. }
  unfold flow_anomaly_of, _identify_cause.
  cbn [FlowAnomaly.potential_cause FlowAnomaly.anomaly_type FlowAnomaly.timestamp].
  fold (is_night (hour_of (FlowReading.timestamp r))).
  set (f := FlowReading.flow_rate_lpm r).
  destruct (Qltb (m * 1.5) f) eqn:H15.
  - apply Qltb_lt in H15. assert (Hgt : m < f) by lra. apply Qltb_lt in Hgt. rewrite Hgt.
    destruct (is_night _); repeat split; discriminate.
  - destruct (Qltb m f); repeat split; discriminate || reflexivity.
Qed.

Lemma flow_anomaly_cause_witness :
  exists a,
    In a (records (fst (detect_flow_anomalies flow_outlier 2))) /\
    FlowAnomaly.potential_cause a = potential_leak_night /\
    FlowAnomaly.anomaly_type a = excessive_flow.
Proof.
  eexists. split; [vm_compute; left; reflexivity|]. split; [reflexivity|].
  match goal with
  | |- FlowAnomaly.anomaly_type ?a = _ =>
      assert (H := flow_anomaly_cause flow_outlier 2 a)
  end.
  refine (proj1 (proj1 (H _ _) eq_refl)).
  - intros r Hr. simpl in Hr.
    repeat (destruct Hr as [<-|Hr]; [vm_compute; discriminate|]). contradiction.
  - vm_compute. left. reflexivity.
Defined.

(** ** Pressure distribution *)








(** ** Peak demand *)

Lemma in_unique_hours (x : Z) (l : list Z) : In x (unique_hours l) <-> In x l.
Proof.
  induction l as [|a l IH]; simpl; [tauto|].
  rewrite filter_In, IH.
  destruct (Z.eqb_spec x a) as [->|Hne]; simpl; intuition congruence.
Qed.

Lemma NoDup_unique_hours (l : list Z) : NoDup (unique_hours l).
Proof.
  induction l as [|a l IH]; simpl; constructor.
  - rewrite filter_In. intros [_ H]. rewrite Z.eqb_refl in H. discriminate.
  - now apply NoDup_filter.
Qed.

Lemma insert_hour_perm (h : Z) (l : list Z) : Permutation (h :: l) (insert_hour h l).
Proof.
  induction l as [|x l IH]; simpl; [reflexivity|].
  destruct (h <=? x)%Z; [reflexivity|]. rewrite perm_swap. now apply perm_skip.
Qed.

Lemma hour_keys_perm (column : list Z) : Permutation (unique_hours column) (hour_keys column).
Proof.
  unfold hour_keys. induction (unique_hours column) as [|x l IH]; simpl; [reflexivity|].
  rewrite <- insert_hour_perm. now apply perm_skip.
Qed.

Lemma in_hour_keys (x : Z) (column : list Z) : In x (hour_keys column) <-> In x column.
Proof.
  rewrite <- (in_unique_hours x column). split; apply Permutation_in;
    [symmetry|]; apply hour_keys_perm.
Qed.

Lemma NoDup_hour_keys (column : list Z) : NoDup (hour_keys column).
Proof.
  eapply Permutation_NoDup; [apply hour_keys_perm|apply NoDup_unique_hours].
Qed.

Lemma insert_by_flow_perm (r : HourlyFlow.t) (l : list HourlyFlow.t) :
  Permutation (r :: l) (insert_by_flow r l).
Proof.
  induction l as [|x l IH]; simpl; [reflexivity|].
  destruct (Qle_bool _ _); [reflexivity|]. rewrite perm_swap. now apply perm_skip.
Qed.

Lemma sort_by_flow_perm (l : list HourlyFlow.t) :
  Permutation l (fold_right insert_by_flow [] l).
Proof.
  induction l as [|x l IH]; simpl; [reflexivity|].
  rewrite <- insert_by_flow_perm. now apply perm_skip.
Qed.

Lemma insert_by_flow_sorted (r : HourlyFlow.t) (l : list HourlyFlow.t) :
  Sorted flow_ge l -> Sorted flow_ge (insert_by_flow r l).
Proof.
  induction 1 as [|x l Hs IH Hhd]; simpl; [repeat constructor|].
  destruct (Qle_bool (HourlyFlow.flow_rate_lpm x) (HourlyFlow.flow_rate_lpm r)) eqn:E.
  - apply Qle_bool_iff in E. repeat constructor; assumption.
  - assert (Hlt : HourlyFlow.flow_rate_lpm r < HourlyFlow.flow_rate_lpm x).
    { apply Qnot_le_lt. intros H. apply Qle_bool_iff in H. congruence. }
    constructor; [exact IH|].
    destruct Hhd as [|y l Hxy]; simpl.
    + constructor. unfold flow_ge. lra.
    + destruct (Qle_bool (HourlyFlow.flow_rate_lpm y) (HourlyFlow.flow_rate_lpm r));
        constructor; unfold flow_ge in *; lra.
Qed.

Lemma sort_by_flow_sorted (l : list HourlyFlow.t) :
  StronglySorted flow_ge (fold_right insert_by_flow [] l).
Proof.
  apply Sorted_StronglySorted.
  - intros a b c. unfold flow_ge. lra.
  - induction l as [|x l IH]; simpl; [constructor|]. now apply insert_by_flow_sorted.
Qed.

Lemma hourly_flow_group_rows (rows : list FlowReading.t) (hour : Z) :
  hourly_flow_group (map (fun r => (r, hour_of (FlowReading.timestamp r))) rows) hour
  = match hour_flows rows hour with
    | [] => []
    | flows => [HourlyFlow.mk hour (round (mean flows) 2)]
    end.
Proof.
  unfold hourly_flow_group, hour_flows. rewrite filter_map_swap. cbn [snd].
  destruct (filter _ rows) as [|first rest]; [reflexivity|].
  cbn [map fst]. rewrite map_map. reflexivity.
Qed.

(** X17.  [get_peak_demand_times] lists the hours of the day that have
    flow readings, each once, with the mean flow of the hour rounded to two
    decimals, the highest mean first: the rows are in descending order of
    flow, there are at most 24 of them, and their hours lie between 0 and
    23. *)
Theorem peak_demand_times_sorted (flow_df : FlowFrame) :
  let peaks := fst (get_peak_demand_times flow_df) in
  StronglySorted flow_ge peaks /\
  NoDup (map HourlyFlow.hour peaks) /\
  (List.length peaks <= 24)%nat /\
  (forall p, In p peaks <->
     hour_flows (flow_rows flow_df) (HourlyFlow.hour p) <> [] /\
     p = HourlyFlow.mk (HourlyFlow.hour p)
           (round (mean (hour_flows (flow_rows flow_df) (HourlyFlow.hour p))) 2)) /\
  (forall p, In p peaks -> (0 <= HourlyFlow.hour p <= 23)%Z).
Proof.
  cbv zeta. unfold get_peak_demand_times. cbn [fst].
  unfold hour_rows, assign_hour_column. cbn [hour_column flow_rows].
  rewrite combine_map_r, map_map. cbn [snd].
  set (rows := flow_rows flow_df).
  set (groups := flat_map
                   (hourly_flow_group (map (fun r => (r, hour_of (FlowReading.timestamp r))) rows))
                   (hour_keys (map (fun r => hour_of (FlowReading.timestamp r)) rows))).
  assert (Hperm : Permutation groups (fold_right insert_by_flow [] groups))
    by apply sort_by_flow_perm.
  assert (Hnd : NoDup (map HourlyFlow.hour groups)).
  { unfold groups. apply NoDup_flat_map_keys.
    - apply NoDup_hour_keys.
    - intros h p Hp. rewrite hourly_flow_group_rows in Hp.
      destruct (hour_flows rows h); [contradiction|]. now destruct Hp as [<-|[]].
    - intros h. rewrite hourly_flow_group_rows. destruct (hour_flows rows h); simpl; lia. }
  assert (Hin : forall p, In p groups <->
              hour_flows rows (HourlyFlow.hour p) <> [] /\
              p = HourlyFlow.mk (HourlyFlow.hour p)
                    (round (mean (hour_flows rows (HourlyFlow.hour p))) 2)).
  { intros p. unfold groups. rewrite in_flat_map. split.
    - intros [h [_ Hp]]. rewrite hourly_flow_group_rows in Hp.
      destruct (hour_flows rows h) as [|f fs] eqn:E; [contradiction|].
      destruct Hp as [<-|[]]. cbn [HourlyFlow.hour]. rewrite E. split; [discriminate|reflexivity].
    - intros [Hne Hp]. exists (HourlyFlow.hour p). split.
      + apply in_hour_keys. unfold hour_flows in Hne.
        destruct (filter _ rows) as [|r rs] eqn:E; [now elim Hne|].
        assert (Hr : In r (filter (fun r => (hour_of (FlowReading.timestamp r)
                                             =? HourlyFlow.hour p)%Z) rows))
          by (rewrite E; now left).
        apply filter_In in Hr as [Hr Hh]. apply Z.eqb_eq in Hh. rewrite <- Hh.
        apply in_map_iff. exists r. auto.
      + rewrite hourly_flow_group_rows.
        destruct (hour_flows rows (HourlyFlow.hour p)) as [|f fs]; [now elim Hne|].
        left. symmetry. exact Hp. }
  assert (Hrange : forall p, In p groups -> (0 <= HourlyFlow.hour p <= 23)%Z).
  { intros p Hp. apply Hin in Hp as [Hne _]. unfold hour_flows in Hne.
    destruct (filter _ rows) as [|r rs] eqn:E; [now elim Hne|].
    assert (Hr : In r (filter (fun r => (hour_of (FlowReading.timestamp r)
                                         =? HourlyFlow.hour p)%Z) rows))
      by (rewrite E; now left).
    apply filter_In in Hr as [_ Hh]. apply Z.eqb_eq in Hh. rewrite <- Hh.
    pose proof (proj1 (range24_bounds _) (hour_of_range (FlowReading.timestamp r))). lia. }
  repeat apply conj.
  - apply sort_by_flow_sorted.
  - eapply Permutation_NoDup; [apply Permutation_map, Hperm|exact Hnd].
  - rewrite <- (Permutation_length Hperm), <- (length_map HourlyFlow.hour).
    change 24%nat with (List.length range24).
    apply NoDup_incl_length; [exact Hnd|].
    intros h Hh. apply in_map_iff in Hh as [p [<- Hp]].
    apply range24_bounds. specialize (Hrange p Hp). lia.
  - intros p. rewrite <- Hin. split; apply Permutation_in; [symmetry|]; exact Hperm.
  - intros p Hp. apply Hrange. apply (Permutation_in _ (Permutation_sym Hperm) Hp).
Qed.

Lemma peak_demand_times_sorted_witness :
  map HourlyFlow.hour (fst (get_peak_demand_times three_hours)) = [7; 12; 3]%Z /\
  StronglySorted flow_ge (fst (get_peak_demand_times three_hours)).
Proof.
  split; [vm_compute; reflexivity|].
  apply (proj1 (peak_demand_times_sorted three_hours)).
Defined.

(** ** Flow statistics *)

(** X18.  [get_flow_statistics] has one row for each zone name; in each row
    the stored minimum is at most the stored mean, which is at most the
    stored maximum, and the stored total is the sum of the zone's flows
    rounded to two decimals; when no flow of the zone is negative, the
    minimum is not negative and the mean is at most the total. *)
Theorem flow_statistics_invariants (self : WaterAnalytics) :
  NoDup (map FlowStats.zone_name (get_flow_statistics self)) /\
  (forall s, In s (get_flow_statistics self) ->
     let flows := zone_flows (a_flow_df self) (FlowStats.zone_name s) in
     FlowStats.min_flow s <= FlowStats.avg_flow s /\
     FlowStats.avg_flow s <= FlowStats.max_flow s /\
     FlowStats.total_flow s = round (Qsum flows) 2 /\
     ((forall x, In x flows -> 0 <= x) ->
      0 <= FlowStats.min_flow s /\ FlowStats.avg_flow s <= FlowStats.total_flow s)).
Proof.
  split.
  - unfold get_flow_statistics. apply NoDup_flat_map_keys.
    + apply NoDup_group_keys.
    + intros name s Hs. unfold flow_stats_group in Hs.
      destruct (filter _ _); [contradiction|]. now destruct Hs as [<-|[]].
    + intros name. unfold flow_stats_group. destruct (filter _ _); simpl; lia.
  - intros s Hs. apply in_get_flow_statistics in Hs as [first [rest [E Hg]]].
    unfold flow_stats_group in Hg. rewrite E in Hg.
    apply (f_equal (fun l => hd s l)) in Hg. cbn [hd] in Hg.
    unfold zone_flows. rewrite E. rewrite <- Hg.
    cbn [FlowStats.avg_flow FlowStats.min_flow FlowStats.max_flow FlowStats.total_flow].
    set (flows := map FlowReading.flow_rate_lpm (first :: rest)).
    destruct (fold_qmin_le (map FlowReading.flow_rate_lpm rest)
                           (FlowReading.flow_rate_lpm first)) as [Hmin1 Hmin2].
    destruct (fold_qmax_ge (map FlowReading.flow_rate_lpm rest)
                           (FlowReading.flow_rate_lpm first)) as [Hmax1 Hmax2].
    set (lo := fold_left qmin (map FlowReading.flow_rate_lpm rest)
                         (FlowReading.flow_rate_lpm first)) in *.
    set (hi := fold_left qmax (map FlowReading.flow_rate_lpm rest)
                         (FlowReading.flow_rate_lpm first)) in *.
    assert (Hin_lo : In lo flows).
    { unfold lo, flows. clear. cbn [map].
      generalize (FlowReading.flow_rate_lpm first) as a.
      induction (map FlowReading.flow_rate_lpm rest) as [|b l IH]; intros a; simpl.
      - now left.
      - destruct (IH (qmin a b)) as [H|H].
        + unfold qmin in H at 1. destruct (Qle_bool a b); [left|right; left]; exact H.
        + right. now right. }
    assert (Hbetween : lo <= mean flows <= hi).
    { apply mean_between; [discriminate|]. intros x [<-|Hx]; split; auto. }
    repeat split.
    + apply round_le. apply Hbetween.
    + apply round_le. apply Hbetween.
    + rewrite <- (round_inject_Z 0 2). apply round_le. now apply H.
    + apply round_le. unfold mean.
      assert (Hn : 1 <= Qlen flows).
      { unfold Qlen. change 1 with (inject_Z 1). rewrite <- Zle_Qle. simpl. lia. }
      pose proof (Qsum_nonneg flows H) as Hsum.
      apply Qle_shift_div_r; [lra|].
      assert (Hp : 0 <= Qsum flows * (Qlen flows - 1))
        by (apply Qmult_le_0_compat; lra).
      assert (Er : Qsum flows * (Qlen flows - 1) == Qsum flows * Qlen flows - Qsum flows)
        by ring.
      lra.
Qed.

Lemma flow_statistics_invariants_witness :
  exists s,
    In s (get_flow_statistics (mkAnalytics [] (flow_rows (flow_df night_350_day_50)))) /\
    0 <= FlowStats.min_flow s /\
    FlowStats.avg_flow s <= FlowStats.total_flow s.
Proof.
  eexists. split; [left; reflexivity|].
  match goal with
  | |- 0 <= FlowStats.min_flow ?s /\ _ =>
      apply (proj2 (proj2 (proj2
               (proj2 (flow_statistics_invariants
                         (mkAnalytics [] (flow_rows (flow_df night_350_day_50))))
                      s (or_introl eq_refl)))))
  end.
  intros x Hx. simpl in Hx.
  repeat (destruct Hx as [<-|Hx]; [vm_compute; discriminate|]). contradiction.
Defined.

(** ** The data generator *)

Lemma py_max_ge (a b : Q) : b <= py_max a b /\ a <= py_max a b.
Proof.
  unfold py_max. destruct (Qltb a b) eqn:E.
  - apply Qltb_lt in E. split; lra.
  - apply Qltb_ge in E. split; lra.
Qed.

(** X19.  Whatever the random draws, the generator stores no pressure
    below 5 PSI and no negative flow; and a stored value has at most two
    decimals, so that rounding it to two decimals again changes nothing. *)
Theorem generated_values_in_range (base_pressure elevation population : Q) (hour : Z)
    (noise roll factor : Q) :
  let pressure := generated_pressure base_pressure elevation hour noise roll factor in
  let flow := generated_flow population hour noise roll factor in
  5 <= pressure /\ 0 <= flow /\
  round pressure 2 == pressure /\ round flow 2 == flow.
Proof.
  cbv zeta. unfold generated_pressure, generated_flow. cbv zeta.
  repeat apply conj.
  - rewrite <- (round_inject_Z 5 2) at 1. apply round_le. apply py_max_ge.
  - rewrite <- (round_inject_Z 0 2) at 1. apply round_le. apply py_max_ge.
  - unfold round at 2. apply round_decimal.
  - unfold round at 2. apply round_decimal.
Qed.













